(** * Evaluation datasets of GLM-130B: indexing, truncation and batch padding

    A shallow embedding of [evaluation/dataset.py]: the shared padding
    routine [pad_batch], the generation and multiple-choice datasets with
    their item expansion and collation, and the language-model dataset with
    its window index.  Python integers are [Z], Python lists are [list],
    exceptions are carried by the [result] type.  The tokenizer, the JSON
    reader and the sample builders of the model are collaborators of the
    module: files are taken as already parsed, text as already tokenized. *)

From Stdlib Require Import String.
From Stdlib Require Import ZArith List Bool Lia Permutation.
Import ListNotations.
Local Open Scope Z_scope.

(** ** Exceptions and the error monad *)

Inductive exn : Type :=
| AssertionError (msg : option string)
| IndexError
| ValueError
| ZeroDivisionError
| AttributeError
| OverflowError
| RuntimeError.

Inductive result (A : Type) : Type :=
| Ok (a : A)
| Raise (e : exn).

Arguments Ok {A} a.
Arguments Raise {A} e.

Definition bind {A B : Type} (r : result A) (k : A -> result B) : result B :=
  match r with
  | Ok a => k a
  | Raise e => Raise e
  end.

Notation "x <- r ;; k" := (bind r (fun x => k))
  (at level 61, r at next level, right associativity).

(** [for x in xs: st = body(st, x)], stopping at the first exception. *)
Fixpoint for_each {St X : Type} (body : St -> X -> result St) (xs : list X)
  (st : St) : result St :=
  match xs with
  | [] => Ok st
  | x :: xs' => st' <- body st x ;; for_each body xs' st'
  end.

(** ** The Python built-ins the module relies on *)

Module Py.

Definition len {A : Type} (l : list A) : Z := Z.of_nat (length l).

(** Normalisation of one slice bound against a sequence of length [n]:
    a negative bound counts from the end, and both ends are clamped. *)
Definition clamp_index (n i : Z) : Z :=
  if i <? 0 then Z.max (i + n) 0 else Z.min i n.

(** [l[start:stop]]; [None] is an omitted bound. *)
Definition slice {A : Type} (l : list A) (start stop : option Z) : list A :=
  let n := len l in
  let lo := match start with Some i => clamp_index n i | None => 0 end in
  let hi := match stop with Some i => clamp_index n i | None => n end in
  firstn (Z.to_nat (hi - lo)) (skipn (Z.to_nat lo) l).

(** [l[i]]: a negative index counts from the end, out of range raises. *)
Definition getitem {A : Type} (l : list A) (i : Z) : result A :=
  let n := len l in
  let j := if i <? 0 then i + n else i in
  if (j <? 0) || (n <=? j) then Raise IndexError
  else match nth_error l (Z.to_nat j) with
       | Some x => Ok x
       | None => Raise IndexError
       end.

Definition sum (l : list Z) : Z := fold_left Z.add l 0.

(** [max(iterable)] raises [ValueError] on an empty iterable. *)
Definition max (l : list Z) : result Z :=
  match l with
  | [] => Raise ValueError
  | x :: xs => Ok (fold_left Z.max xs x)
  end.

(** [math.ceil(a / b)] on integers, with the quotient taken exactly (the
    [a / b] below is the floor division of [Z], which agrees with Python's
    [//] for either sign).  Python rounds the quotient to a float first;
    [PyFloat.ceil_true_div] further down models that rounding, and
    [ceil_div_is_float_ceil] shows that the two agree for a dividend in
    [[0, 2^53)] and a divisor in [(0, 2^1024)], which is where the window
    counts of documents live. *)
Definition ceil_div (a b : Z) : result Z :=
  if b =? 0 then Raise ZeroDivisionError else Ok (- ((- a) / b)).

(** [itertools.accumulate]: the running sums. *)
Fixpoint accumulate_from (acc : Z) (l : list Z) : list Z :=
  match l with
  | [] => []
  | x :: xs => (acc + x) :: accumulate_from (acc + x) xs
  end.

Definition accumulate (l : list Z) : list Z := accumulate_from 0 l.

(** [bisect.bisect_right]: the loop of the standard library,
    [while lo < hi: mid = (lo + hi) // 2; if x < a[mid]: hi = mid else: lo = mid + 1].
    The interval shrinks at every turn, so [hi - lo] turns are enough. *)
Fixpoint bisect_loop (fuel : nat) (a : list Z) (x : Z) (lo hi : nat) : nat :=
  match fuel with
  | O => lo
  | S fuel' =>
      if (lo <? hi)%nat then
        let mid := ((lo + hi) / 2)%nat in
        if x <? nth mid a 0 then bisect_loop fuel' a x lo mid
        else bisect_loop fuel' a x (S mid) hi
      else lo
  end.

Definition bisect_right (a : list Z) (x : Z) : Z :=
  Z.of_nat (bisect_loop (length a) a x 0 (length a)).

End Py.

(** ** The numpy operations used by [pad_batch] and the collators

    An array is of rank one or two (a matrix is a list of rows of one
    length); the matrix of no row is taken to have no column.  The entries
    of an integer array are 64-bit integers by its dtype; they are kept in
    [Z], and padding only ever adds zeros. *)

Inductive ndarray (A : Type) : Type :=
| Arr1 (v : list A)
| Arr2 (m : list (list A)).

Arguments Arr1 {A} v.
Arguments Arr2 {A} m.

Module Np.

Definition ncols {A : Type} (m : list (list A)) : nat :=
  match m with
  | [] => O
  | r :: _ => length r
  end.

Definition shape {A : Type} (a : ndarray A) : list nat :=
  match a with
  | Arr1 v => [length v]
  | Arr2 m => [length m; ncols m]
  end.

(** The entry at a multi-index, if there is one. *)
Definition get {A : Type} (a : ndarray A) (ix : list nat) : option A :=
  match a, ix with
  | Arr1 v, [i] => nth_error v i
  | Arr2 m, [i; j] =>
      match nth_error m i with
      | Some r => nth_error r j
      | None => None
      end
  | _, _ => None
  end.

Definition map_entries {A B : Type} (f : A -> B) (a : ndarray A) : ndarray B :=
  match a with
  | Arr1 v => Arr1 (map f v)
  | Arr2 m => Arr2 (map (map f) m)
  end.

(** [np.zeros(n, dtype=np.int64)] *)
Definition zeros (n : Z) : result (list Z) :=
  if n <? 0 then Raise ValueError else Ok (repeat 0 (Z.to_nat n)).

(** [np.pad(a, pad_width=((0, n),), mode="constant", constant_values=0)]:
    the one pair of widths applies to every axis. *)
Definition pad (a : ndarray Z) (n : Z) : result (ndarray Z) :=
  if n <? 0 then Raise ValueError
  else
    let k := Z.to_nat n in
    Ok match a with
       | Arr1 v => Arr1 (v ++ repeat 0 k)
       | Arr2 m =>
           Arr2 (map (fun r => r ++ repeat 0 k) m
                 ++ repeat (repeat 0 (ncols m + k)%nat) k)
       end.

(** [a[..., -1:]] *)
Definition last_slice {A : Type} (a : ndarray A) : ndarray A :=
  match a with
  | Arr1 v => Arr1 (Py.slice v (Some (-1)) None)
  | Arr2 m => Arr2 (map (fun r => Py.slice r (Some (-1)) None) m)
  end.

(** [np.zeros_like(a, dtype=np.int64)] *)
Definition zeros_like {A : Type} (a : ndarray A) : ndarray Z :=
  map_entries (fun _ => 0) a.

(** [a.repeat(n, -1)]: every entry [n] times along the last axis. *)
Definition repeat_last {A : Type} (a : ndarray A) (n : Z) : result (ndarray A) :=
  if n <? 0 then Raise ValueError
  else
    let rep := flat_map (fun x : A => repeat x (Z.to_nat n)) in
    Ok match a with
       | Arr1 v => Arr1 (rep v)
       | Arr2 m => Arr2 (map rep m)
       end.

Fixpoint zip_rows {A : Type} (m m' : list (list A)) : list (list A) :=
  match m, m' with
  | r :: t, r' :: t' => (r ++ r') :: zip_rows t t'
  | _, _ => []
  end.

(** [np.concatenate((a, b), axis=-1)] *)
Definition concatenate_last {A : Type} (a b : ndarray A) : result (ndarray A) :=
  match a, b with
  | Arr1 u, Arr1 v => Ok (Arr1 (u ++ v))
  | Arr2 m, Arr2 m' =>
      if (length m =? length m')%nat then Ok (Arr2 (zip_rows m m'))
      else Raise ValueError
  | _, _ => Raise ValueError
  end.

End Np.

(** ** [pad_batch] *)

Definition pad_batch (tokens : list Z) (position_ids attention_mask : ndarray Z)
  (max_seq_length : Z) : result (list Z * ndarray Z * ndarray Z) :=
  let pad_length := max_seq_length - Py.len tokens in
  attention_mask <- Np.pad attention_mask pad_length ;;
  z <- Np.zeros pad_length ;;
  let tokens := tokens ++ z in
  r <- Np.repeat_last (Np.zeros_like (Np.last_slice position_ids)) pad_length ;;
  position_ids <- Np.concatenate_last position_ids r ;;
  Ok (tokens, position_ids, attention_mask).

(** ** Configuration and materialized samples

    The configuration classes live outside this module; the record keeps
    the fields the datasets read. *)

Record config : Type := {
  max_seq_length : Z;
  max_gen_length : Z;
  generation_length : Z;
  use_task_mask : bool;
  unidirectional : bool;
  use_multitask_encoding : bool
}.

(** The three fields every sample builder of the model returns. *)
Record materialized : Type := {
  token : list Z;
  position_id : ndarray Z;
  attention_mask : ndarray Z
}.

(** ** What the two collators share *)

Definition TILE : Z := 32.

(** [(max(map(lambda spl: len(spl["token"]), samples)) + TILE - 1) // TILE * TILE] *)
Definition length_to_pad (samples : list materialized) : result Z :=
  m <- Py.max (map (fun spl => Py.len (token spl)) samples) ;;
  Ok ((m + TILE - 1) / TILE * TILE).

(** The loop [for sample in samples: ... pad_batch(...) ...; ....append(...)]
    on the three padded fields. *)
Fixpoint pad_samples (samples : list materialized) (length_to_pad : Z)
  : result (list (list Z) * list (ndarray Z) * list (ndarray Z)) :=
  match samples with
  | [] => Ok ([], [], [])
  | sample :: rest =>
      padded <- pad_batch (token sample) (position_id sample)
                  (attention_mask sample) length_to_pad ;;
      batches <- pad_samples rest length_to_pad ;;
      match padded, batches with
      | (tok, pos, att), (token_batch, position_id_batch, attention_mask_batch) =>
          Ok (tok :: token_batch, pos :: position_id_batch,
              att :: attention_mask_batch)
      end
  end.

Definition same_shape {A : Type} (a b : ndarray A) : bool :=
  match Np.shape a, Np.shape b with
  | [n], [n'] => (n =? n')%nat
  | [n; c], [n'; c'] => (n =? n')%nat && (c =? c')%nat
  | _, _ => false
  end.

(** [np.array(batch)] followed by [torch.tensor]: the arrays of a batch are
    stacked, which asks for one common shape. *)
Definition stack {A : Type} (batch : list (ndarray A)) : result (list (ndarray A)) :=
  match batch with
  | [] => Ok []
  | a :: rest =>
      if forallb (same_shape a) rest then Ok batch else Raise ValueError
  end.

(** [torch.tensor(values, dtype=torch.int64)] on a list of Python integers:
    an integer that does not fit into 64 bits is refused. *)
Definition int64_tensor (values : list Z) : result (list Z) :=
  if forallb (fun v => (- 2 ^ 63 <=? v) && (v <? 2 ^ 63)) values then Ok values
  else Raise RuntimeError.

(** [mask < 0.5] on an integer tensor: [true] means masked out. *)
Definition masked_out (mask : ndarray Z) : ndarray bool :=
  Np.map_entries (fun v => 2 * v <? 1) mask.

(** ** [GenerationTaskDataset] *)

Module GenerationTaskDataset.

(** What [get_tokenized_input] hands back for a field: one token sequence
    or a list of token sequences. *)
Inductive tokenized : Type :=
| Flat (ids : list Z)
| Nested (seqs : list (list Z)).

(** One record of the input file (one parsed JSON line). *)
Record item : Type := {
  inputs : list Z;
  item_targets : tokenized
}.

(** The dictionary [{"text": ..., "targets": ...}] kept in [self.data]. *)
Record normalized : Type := {
  text : list Z;
  targets : list (list Z)
}.

Record t : Type := {
  data : list normalized
}.

(** A built sample and the batch the collator delivers. *)
Record sample : Type := {
  fields : materialized;
  context_length : Z;
  target_position_id : ndarray Z
}.

Record batch : Type := {
  tokens : list (list Z);
  position_ids : list (ndarray Z);
  batch_attention_mask : list (ndarray bool);
  batch_context_length : list Z;
  target_position_ids : list (ndarray Z)
}.

Definition process_single_item (cfg : config) (it : item) : list normalized :=
  let text := inputs it in
  let targets :=
    match item_targets it with
    | Flat [] => []
    | Flat (id :: ids) => [id :: ids]
    | Nested seqs => seqs
    end in
  let text :=
    if Py.len text + max_gen_length cfg + 2 >? max_seq_length cfg then
      let text_length := max_seq_length cfg - max_gen_length cfg - 2 in
      Py.slice text (Some (Py.len text - text_length)) (Some (Py.len text))
    else text in
  [ {| text := text; targets := targets |} ].

(** [EvaluationDataset.process_single_file]:
    [for line in file: self.data.extend(self.process_single_item(item))] *)
Definition process_single_file (cfg : config) (self : t) (file : list item) : t :=
  fold_left
    (fun self it => {| data := data self ++ process_single_item cfg it |})
    file self.

(** [EvaluationDataset.__init__]: [self.data = []], then every path in turn. *)
Definition init (cfg : config) (path : list (list item)) : t :=
  fold_left (process_single_file cfg) path {| data := [] |}.

(** [EvaluationDataset.__len__] *)
Definition len (self : t) : Z := Py.len (data self).

Definition collate_fn (samples : list sample) : result batch :=
  length_to_pad <- length_to_pad (map fields samples) ;;
  padded <- pad_samples (map fields samples) length_to_pad ;;
  match padded with
  | (token_batch, position_id_batch, attention_mask_batch) =>
      _ <- stack (map Arr1 token_batch) ;;
      position_ids <- stack position_id_batch ;;
      attention_mask <- stack attention_mask_batch ;;
      context_length <- int64_tensor (map context_length samples) ;;
      target_position_ids <- stack (map target_position_id samples) ;;
      Ok {| tokens := token_batch;
            position_ids := position_ids;
            batch_attention_mask := map masked_out attention_mask;
            batch_context_length := context_length;
            target_position_ids := target_position_ids |}
  end.

Section Getitem.

(** The sample builder of the model, called with the text of the item and
    [max_gen_length], [use_task_mask] and [unidirectional]. *)
Variable build_generation_sample : list Z -> Z -> bool -> bool -> sample.

Definition getitem (cfg : config) (self : t) (idx : Z) : result sample :=
  item <- Py.getitem (data self) idx ;;
  Ok (build_generation_sample (text item) (max_gen_length cfg)
        (use_task_mask cfg) (unidirectional cfg)).

End Getitem.

End GenerationTaskDataset.

(** ** [MultiChoiceTaskDataset] *)

Module MultiChoiceTaskDataset.

(** One record of the input file, its fields already tokenized. *)
Record item : Type := {
  inputs : list Z;
  item_choices : list (list Z);
  item_label : Z
}.

(** The dictionary [{"text": ..., "choices": ..., "label": ...}]. *)
Record normalized : Type := {
  text : list Z;
  choices : list (list Z);
  label : Z
}.

(** The mutable part of the dataset object. *)
Record t : Type := {
  data : list normalized;
  is_single_token : bool
}.

Record sample : Type := {
  fields : materialized;
  sample_choices : list (list Z);
  choice_target_ids : list (list Z)
}.

Record batch : Type := {
  tokens : list (list Z);
  position_ids : list (ndarray Z);
  batch_attention_mask : list (ndarray bool);
  batch_choices : list (list (list Z));
  batch_choice_target_ids : list (list (list Z));
  batch_is_single_token : bool
}.

Definition blank_filling_message : string :=
  "Unified multitask encoding don't support blank filling".

(** The target length of a record, as the first lines of
    [process_single_item] compute it:
    [tgt_seq_length = sum([len(choice) for choice in choices])], then
    [if tgt_seq_length == len(choices): tgt_seq_length = 1]. *)
Definition tgt_seq_length (choices : list (list Z)) : Z :=
  let tgt_seq_length := Py.sum (map Py.len choices) in
  if tgt_seq_length =? Py.len choices then 1 else tgt_seq_length.

Section Dataset.

Variable cfg : config.
(** [self.mask_id], the id the tokenizer gives to [[MASK]]. *)
Variable mask_id : Z.

(** Returns the expanded samples together with the dataset object, whose
    flag the call may have cleared. *)
Definition process_single_item (self : t) (it : item)
  : result (list normalized * t) :=
  let text := inputs it in
  let choices := item_choices it in
  let label := item_label it in
  let tgt_seq_length := tgt_seq_length choices in
  if negb (tgt_seq_length <? max_seq_length cfg) then Raise (AssertionError None)
  else
    let text :=
      if Py.len text + tgt_seq_length + 2 >? max_seq_length cfg then
        let text_length := max_seq_length cfg - tgt_seq_length - 2 in
        Py.slice text (Some (Py.len text - text_length)) (Some (Py.len text))
      else text in
    if existsb (Z.eqb mask_id) text && use_multitask_encoding cfg
    then Raise (AssertionError (Some blank_filling_message))
    else
      let self :=
        if negb (tgt_seq_length =? 1)
        then {| data := data self; is_single_token := false |}
        else self in
      Ok ([ {| text := text; choices := choices; label := label |} ], self).

(** [EvaluationDataset.process_single_file] *)
Definition process_single_file (self : t) (file : list item) : result t :=
  for_each
    (fun self it =>
       r <- process_single_item self it ;;
       match r with
       | (samples, self) =>
           Ok {| data := data self ++ samples;
                 is_single_token := is_single_token self |}
       end)
    file self.

(** [__init__]: [self.is_single_token = True], then the constructor of
    [EvaluationDataset]: [self.data = []] and every path in turn. *)
Definition init (path : list (list item)) : result t :=
  for_each process_single_file path {| data := []; is_single_token := true |}.

(** [EvaluationDataset.__len__] *)
Definition len (self : t) : Z := Py.len (data self).

Definition collate_fn (self : t) (samples : list sample) : result batch :=
  length_to_pad <- length_to_pad (map fields samples) ;;
  padded <- pad_samples (map fields samples) length_to_pad ;;
  match padded with
  | (token_batch, position_id_batch, attention_mask_batch) =>
      _ <- stack (map Arr1 token_batch) ;;
      position_ids <- stack position_id_batch ;;
      attention_mask <- stack attention_mask_batch ;;
      Ok {| tokens := token_batch;
            position_ids := position_ids;
            batch_attention_mask := map masked_out attention_mask;
            batch_choices := map sample_choices samples;
            batch_choice_target_ids := map choice_target_ids samples;
            batch_is_single_token := is_single_token self |}
  end.

(** The sample builder of the model, called with the text, the choices,
    the flag of the dataset and the three switches of the configuration. *)
Variable build_multiple_choice_sample :
  list Z -> list (list Z) -> bool -> bool -> bool -> bool -> sample.

Definition getitem (self : t) (idx : Z) : result sample :=
  item <- Py.getitem (data self) idx ;;
  Ok (build_multiple_choice_sample (text item) (choices item)
        (is_single_token self) (use_multitask_encoding cfg)
        (unidirectional cfg) (use_task_mask cfg)).

End Dataset.

End MultiChoiceTaskDataset.

(** ** [LanguageModelTaskDataset] *)

Module LanguageModelTaskDataset.

(** What is read from one source file: the tokens the tokenizer gives for
    its text, and the count of its blank-separated words. *)
Record file : Type := {
  file_tokens : list Z;
  file_words : Z
}.

(** The dictionary appended to [self.data] for one file. *)
Record document : Type := {
  raw_text : list Z;
  num_original_tokens : Z;
  num_sequences : Z
}.

(** The attributes [weights] and [left_weights] are only declared in the
    class body: they exist on the object once a file has been processed. *)
Record t : Type := {
  data : list document;
  weights : option (list Z);
  left_weights : option (list Z)
}.

Definition attr {A : Type} (a : option A) : result A :=
  match a with
  | Some x => Ok x
  | None => Raise AttributeError
  end.

(** The last two lines of [process_single_file]:
    [self.weights = list(accumulate(num_sequences))] and
    [self.left_weights = [0] + self.weights[:-1]]. *)
Definition index_of (num_sequences : list Z) : list Z * list Z :=
  let weights := Py.accumulate num_sequences in
  (weights, [0] ++ Py.slice weights None (Some (-1))).

(** [max(math.ceil(max(len(tokens) - (max_seq_length - 1), 0) / generation_length) + 1, 1)],
    with the quotient taken exactly; [count_sequences_float] further down
    rounds it to a float first, as Python does, and gives the same count for
    a document that exceeds one window by fewer than [2^53] tokens and a
    stride below [2^1024]. *)
Definition count_sequences (cfg : config) (tokens : list Z) : result Z :=
  q <- Py.ceil_div (Z.max (Py.len tokens - (max_seq_length cfg - 1)) 0)
         (generation_length cfg) ;;
  Ok (Z.max (q + 1) 1).

Definition process_single_file (cfg : config) (self : t) (f : file) : result t :=
  let num_sequences_list : list Z := [] in
  let tokens := file_tokens f in
  n <- count_sequences cfg tokens ;;
  let data :=
    data self ++ [ {| raw_text := tokens;
                      num_original_tokens := file_words f;
                      num_sequences := n |} ] in
  last <- Py.getitem data (-1) ;;
  let num_sequences_list := num_sequences_list ++ [num_sequences last] in
  let index := index_of num_sequences_list in
  Ok {| data := data;
        weights := Some (fst index);
        left_weights := Some (snd index) |}.

(** [EvaluationDataset.__init__]: [self.data = []], then every path in turn. *)
Definition init (cfg : config) (path : list file) : result t :=
  for_each (process_single_file cfg) path
    {| data := []; weights := None; left_weights := None |}.

(** [__len__]: [self.data[0]["num_sequences"]] *)
Definition len (self : t) : result Z :=
  first <- Py.getitem (data self) 0 ;;
  Ok (num_sequences first).

(** The index arithmetic of [__getitem__]. *)
Record location : Type := {
  document_idx : Z;
  local_idx : Z;
  start_idx : Z;
  end_idx : Z
}.

Definition locate (cfg : config) (self : t) (idx : Z) : result location :=
  weights <- attr (weights self) ;;
  let document_idx := Py.bisect_right weights idx in
  left_weights <- attr (left_weights self) ;;
  left <- Py.getitem left_weights document_idx ;;
  let idx := idx - left in
  let start_idx := idx * generation_length cfg in
  let end_idx := start_idx + max_seq_length cfg - 1 in
  Ok {| document_idx := document_idx;
        local_idx := idx;
        start_idx := start_idx;
        end_idx := end_idx |}.

(** The tokens and the [is_first_segment] flag [__getitem__] passes on. *)
Definition window (cfg : config) (self : t) (idx : Z) : result (list Z * bool) :=
  loc <- locate cfg self idx ;;
  doc <- Py.getitem (data self) (document_idx loc) ;;
  Ok (Py.slice (raw_text doc) (Some (start_idx loc)) (Some (end_idx loc)),
      local_idx loc =? 0).

Section Getitem.

(** The sample builder of the model, called with the tokens of the window,
    [is_first_segment], [max_seq_length], [generation_length],
    [unidirectional] and [use_gmask]. *)
Variable build_language_model_sample :
  list Z -> bool -> Z -> Z -> bool -> bool -> materialized.

Definition getitem (cfg : config) (self : t) (idx : Z) : result materialized :=
  w <- window cfg self idx ;;
  Ok (build_language_model_sample (fst w) (snd w) (max_seq_length cfg)
        (generation_length cfg) (unidirectional cfg) (use_task_mask cfg)).

End Getitem.

End LanguageModelTaskDataset.

(** ** Auxiliary definitions used in the statements *)

(** The number of slots [pad_batch] appends to a row of position ids. *)
Definition position_slots (row : list Z) (k : nat) : nat :=
  (Nat.min 1 (length row) * k)%nat.

Definition padded_position_ids (position_ids : ndarray Z) (k : nat) : ndarray Z :=
  match position_ids with
  | Arr1 v => Arr1 (v ++ repeat 0 (position_slots v k))
  | Arr2 m => Arr2 (map (fun r => r ++ repeat 0 (position_slots r k)) m)
  end.

Definition padded_attention_mask (mask : ndarray Z) (k : nat) : ndarray Z :=
  match mask with
  | Arr1 v => Arr1 (v ++ repeat 0 k)
  | Arr2 m =>
      Arr2 (map (fun r => r ++ repeat 0 k) m
            ++ repeat (repeat 0 (Np.ncols m + k)%nat) k)
  end.


(** The rule for position ids in the wording of the specification: every
    slot appended to a sequence of position ids repeats its last value. *)
Definition pads_with_last_position
  (tokens position_ids : list Z) (attention_mask : ndarray Z) (target : Z) : Prop :=
  forall tokens' position_ids' attention_mask',
    pad_batch tokens (Arr1 position_ids) attention_mask target
    = Ok (tokens', Arr1 position_ids', attention_mask') ->
    forall i y, (length position_ids <= i)%nat ->
                nth_error position_ids' i = Some y ->
                y = last position_ids 0.

(** A choice that the tokenizer turns into exactly one token. *)
Definition single_token (choice : list Z) : Prop := Py.len choice = 1.

(** The target length in the wording of the specification: [1] exactly when
    every choice is a single token, the sum of the lengths otherwise. *)
Definition collapses_iff_single_tokens (choices : list (list Z)) : Prop :=
  (MultiChoiceTaskDataset.tgt_seq_length choices = 1
   <-> Forall single_token choices)
  /\ (~ Forall single_token choices ->
      MultiChoiceTaskDataset.tgt_seq_length choices
      = Py.sum (map Py.len choices)).

(** The first assertion of the multiple-choice expansion in the wording of
    the specification: it fails exactly when the sum of the token lengths of
    the choices reaches [max_seq_length]. *)
Definition asserts_on_summed_length (cfg : config) (mask_id : Z)
  (self : MultiChoiceTaskDataset.t) (it : MultiChoiceTaskDataset.item) : Prop :=
  MultiChoiceTaskDataset.process_single_item cfg mask_id self it
  = Raise (AssertionError None)
  <-> Py.sum (map Py.len (MultiChoiceTaskDataset.item_choices it))
      >= max_seq_length cfg.

(** Whether the expansion of a record returns; the dataset object the
    expansion runs on has no part in that. *)
Definition accepted (cfg : config) (mask_id : Z)
  (it : MultiChoiceTaskDataset.item) : bool :=
  match MultiChoiceTaskDataset.process_single_item cfg mask_id
          {| MultiChoiceTaskDataset.data := [];
             MultiChoiceTaskDataset.is_single_token := true |} it with
  | Ok _ => true
  | Raise _ => false
  end.

(** Whether the target length of a record is exactly [1]. *)
Definition unit_target (it : MultiChoiceTaskDataset.item) : bool :=
  MultiChoiceTaskDataset.tgt_seq_length
    (MultiChoiceTaskDataset.item_choices it) =? 1.

(** Sortedness as [bisect_right] needs it. *)
Definition nondecreasing (a : list Z) : Prop :=
  forall i j, (i <= j < length a)%nat -> nth i a 0 <= nth j a 0.


(** A language-model dataset whose index was computed from the window
    counts [num_sequences], one per document. *)
Definition indexed (data : list LanguageModelTaskDataset.document)
  (num_sequences : list Z) : LanguageModelTaskDataset.t :=
  {| LanguageModelTaskDataset.data := data;
     LanguageModelTaskDataset.weights :=
       Some (fst (LanguageModelTaskDataset.index_of num_sequences));
     LanguageModelTaskDataset.left_weights :=
       Some (snd (LanguageModelTaskDataset.index_of num_sequences)) |}.

(** The number of windows of the documents before document [d]. *)
Definition windows_before (num_sequences : list Z) (d : nat) : Z :=
  Py.sum (firstn d num_sequences).

(** The coverage of a document by its windows in the wording of the
    specification: every token position of the document lies in the range
    [[start, end)] of one of the windows of the dataset built from it. *)
Definition windows_cover (cfg : config) (f : LanguageModelTaskDataset.file) : Prop :=
  forall ds n,
    LanguageModelTaskDataset.init cfg [f] = Ok ds ->
    LanguageModelTaskDataset.len ds = Ok n ->
    forall t, 0 <= t < Py.len (LanguageModelTaskDataset.file_tokens f) ->
      exists i loc,
        0 <= i < n
        /\ LanguageModelTaskDataset.locate cfg ds i = Ok loc
        /\ LanguageModelTaskDataset.start_idx loc <= t
           < LanguageModelTaskDataset.end_idx loc.

(** The length of a dataset in the wording of the specification: the last
    running sum, which is the number of windows of all documents. *)
Definition len_is_total (cfg : config)
  (path : list LanguageModelTaskDataset.file) : Prop :=
  forall ds,
    LanguageModelTaskDataset.init cfg path = Ok ds ->
    exists weights,
      LanguageModelTaskDataset.weights ds = Some weights
      /\ LanguageModelTaskDataset.len ds = Ok (last weights 0)
      /\ last weights 0
         = Py.sum (map LanguageModelTaskDataset.num_sequences
                     (LanguageModelTaskDataset.data ds)).

(** ** Auxiliary definitions for the further properties *)

(** The number of pad slots of an item in a batch padded to [n]. *)
Definition pad_slots (n : Z) (s : materialized) : nat :=
  Z.to_nat (n - Py.len (token s)).

(** An item as the collators expect it: at least one token, one position id
    per token, and an attention mask with one entry per token, or, when
    [square] is set, one row and one column per token. *)
Definition well_shaped (square : bool) (s : materialized) : Prop :=
  token s <> []
  /\ Np.shape (position_id s) = [length (token s)]
  /\ Np.shape (attention_mask s)
     = if square then [length (token s); length (token s)]
       else [length (token s)].

(** How a sample of the multiple-choice dataset relates to the record it
    was expanded from. *)
Definition expanded_from (cfg : config) (mask_id : Z)
  (it : MultiChoiceTaskDataset.item) (s : MultiChoiceTaskDataset.normalized) : Prop :=
  let tgt :=
    MultiChoiceTaskDataset.tgt_seq_length
      (MultiChoiceTaskDataset.item_choices it) in
  MultiChoiceTaskDataset.choices s = MultiChoiceTaskDataset.item_choices it
  /\ MultiChoiceTaskDataset.label s = MultiChoiceTaskDataset.item_label it
  /\ (exists dropped,
        MultiChoiceTaskDataset.inputs it = dropped ++ MultiChoiceTaskDataset.text s)
  /\ Py.len (MultiChoiceTaskDataset.text s)
     = Z.min (Py.len (MultiChoiceTaskDataset.inputs it))
         (Z.max 0 (max_seq_length cfg - tgt - 2))
  /\ tgt < max_seq_length cfg
  /\ (use_multitask_encoding cfg = true ->
      ~ In mask_id (MultiChoiceTaskDataset.text s)).

(** The document the language-model dataset keeps for a file with [n] windows. *)
Definition document_of (f : LanguageModelTaskDataset.file) (n : Z)
  : LanguageModelTaskDataset.document :=
  {| LanguageModelTaskDataset.raw_text := LanguageModelTaskDataset.file_tokens f;
     LanguageModelTaskDataset.num_original_tokens :=
       LanguageModelTaskDataset.file_words f;
     LanguageModelTaskDataset.num_sequences := n |}.

(** The truncation rule of the generation strategy in the wording of the
    specification: a text that is too long is cut to its suffix of length
    [max_seq_length - max_gen_length - 2]. *)
Definition keeps_suffix_of_stated_length (cfg : config)
  (it : GenerationTaskDataset.item) : Prop :=
  Py.len (GenerationTaskDataset.inputs it) + max_gen_length cfg + 2
  > max_seq_length cfg ->
  exists s dropped,
    GenerationTaskDataset.process_single_item cfg it = [s]
    /\ GenerationTaskDataset.inputs it = dropped ++ GenerationTaskDataset.text s
    /\ Py.len (GenerationTaskDataset.text s)
       = max_seq_length cfg - max_gen_length cfg - 2.

(** The target length of a record in the wording of the specification: 1
    when every choice is a single token, the summed length of the choices
    otherwise. *)
Definition stated_target_length (choices : list (list Z)) : Z :=
  if forallb (fun c => Py.len c =? 1) choices then 1
  else Py.sum (map Py.len choices).

(** ** Python's true division of integers and [math.ceil]

    [a / b] on two integers is the float nearest to the quotient, and
    [math.ceil] gives back an integer. *)

Module PyFloat.

(** A finite binary64 number, [(-1)^negative * mantissa * 2^exponent]. *)
Record float : Type := {
  negative : bool;
  mantissa : Z;
  exponent : Z
}.

(** The binary64 number nearest to [n / d], ties to even, for [0 <= n] and
    [0 < d], as a significand and its exponent: the exponent is the one
    that gives a significand of 53 bits, but not below [-1074], the
    exponent of the subnormal numbers. *)
Definition nearest (n d : Z) : Z * Z :=
  if n =? 0 then (0, 0)
  else
    let e1 := Z.log2 n - Z.log2 d - 53 in
    let e :=
      if (n * 2 ^ Z.max 0 (- e1)) / (d * 2 ^ Z.max 0 e1) <? 2 ^ 53
      then e1 else e1 + 1 in
    let e := Z.max e (-1074) in
    let N := n * 2 ^ Z.max 0 (- e) in
    let D := d * 2 ^ Z.max 0 e in
    let m0 := N / D in
    let rem := N mod D in
    let up := (D <? 2 * rem) || ((D =? 2 * rem) && Z.odd m0) in
    (if up then m0 + 1 else m0, e).

(** [a / b]: [ZeroDivisionError] for a zero divisor, [OverflowError] when
    the nearest float would be [2^1024] or beyond. *)
Definition true_div (a b : Z) : result float :=
  if b =? 0 then Raise ZeroDivisionError
  else
    match nearest (Z.abs a) (Z.abs b) with
    | (m, e) =>
        if (0 <=? e) && (2 ^ 1024 <=? m * 2 ^ e) then Raise OverflowError
        else Ok {| negative := xorb (a <? 0) (b <? 0);
                   mantissa := m;
                   exponent := e |}
    end.

(** [math.ceil(x)] for a finite float. *)
Definition ceil (x : float) : Z :=
  let v := if negative x then - mantissa x else mantissa x in
  if 0 <=? exponent x then v * 2 ^ exponent x
  else - ((- v) / 2 ^ (- exponent x)).

(** [math.ceil(a / b)] *)
Definition ceil_true_div (a b : Z) : result Z :=
  x <- true_div a b ;; Ok (ceil x).

End PyFloat.

(** The window count of a document with the quotient rounded to a float
    before [math.ceil] is taken, as Python evaluates line 219 to 225;
    [LanguageModelTaskDataset.count_sequences] takes the quotient exactly. *)
Definition count_sequences_float (cfg : config) (tokens : list Z) : result Z :=
  q <- PyFloat.ceil_true_div
         (Z.max (Py.len tokens - (max_seq_length cfg - 1)) 0)
         (generation_length cfg) ;;
  Ok (Z.max (q + 1) 1).

(** [LanguageModelTaskDataset.process_single_file] and the constructor with
    that rounded window count. *)
Definition process_single_file_float (cfg : config)
  (self : LanguageModelTaskDataset.t) (f : LanguageModelTaskDataset.file)
  : result LanguageModelTaskDataset.t :=
  let num_sequences_list : list Z := [] in
  let tokens := LanguageModelTaskDataset.file_tokens f in
  n <- count_sequences_float cfg tokens ;;
  let data :=
    LanguageModelTaskDataset.data self
    ++ [ {| LanguageModelTaskDataset.raw_text := tokens;
            LanguageModelTaskDataset.num_original_tokens :=
              LanguageModelTaskDataset.file_words f;
            LanguageModelTaskDataset.num_sequences := n |} ] in
  last <- Py.getitem data (-1) ;;
  let num_sequences_list :=
    num_sequences_list ++ [LanguageModelTaskDataset.num_sequences last] in
  let index := LanguageModelTaskDataset.index_of num_sequences_list in
  Ok {| LanguageModelTaskDataset.data := data;
        LanguageModelTaskDataset.weights := Some (fst index);
        LanguageModelTaskDataset.left_weights := Some (snd index) |}.

Definition init_float (cfg : config) (path : list LanguageModelTaskDataset.file)
  : result LanguageModelTaskDataset.t :=
  for_each (process_single_file_float cfg) path
    {| LanguageModelTaskDataset.data := [];
       LanguageModelTaskDataset.weights := None;
       LanguageModelTaskDataset.left_weights := None |}.

(** * Properties *)

(** ** Lists, slices and padding *)

Lemma len_nonneg {A : Type} (l : list A) : 0 <= Py.len l.
Proof. unfold Py.len. lia. Qed.

Lemma nth_error_repeat_inv {A : Type} (x y : A) (n i : nat) :
  nth_error (repeat x n) i = Some y -> y = x.
Proof.
  intros H. apply nth_error_In in H. apply repeat_spec in H. exact H.
Qed.

Lemma nth_error_app_keep {A : Type} (l l' : list A) (i : nat) (x : A) :
  nth_error l i = Some x -> nth_error (l ++ l') i = Some x.
Proof.
  intros H. rewrite nth_error_app1; [exact H|].
  apply nth_error_Some. congruence.
Qed.

Lemma nth_error_app_fresh {A : Type} (l l' : list A) (i : nat) :
  nth_error l i = None ->
  nth_error (l ++ l') i = nth_error l' (i - length l).
Proof.
  intros H. apply nth_error_None in H. now rewrite nth_error_app2.
Qed.

(** [v[-1:]] holds the last entry of [v], or nothing when [v] is empty. *)
Lemma last_slice_length {A : Type} (v : list A) :
  length (Py.slice v (Some (-1)) None) = Nat.min 1 (length v).
Proof.
  unfold Py.slice, Py.clamp_index, Py.len. cbn [Z.ltb Z.compare].
  rewrite length_firstn, length_skipn. lia.
Qed.

Lemma zero_fill (l : list Z) (k : nat) :
  flat_map (fun x : Z => repeat x k) (map (fun _ : Z => 0) l)
  = repeat 0 (length l * k).
Proof.
  induction l as [|a l IH]; cbn [map flat_map length Nat.mul]; [reflexivity|].
  now rewrite IH, repeat_app.
Qed.

Lemma zip_rows_map {A : Type} (f : list A -> list A) (m : list (list A)) :
  Np.zip_rows m (map f m) = map (fun r => r ++ f r) m.
Proof.
  induction m as [|r m IH]; cbn [Np.zip_rows map]; [reflexivity|].
  now rewrite IH.
Qed.

(** With a pad target that is not below the token length, [pad_batch]
    returns, and this is what it returns. *)
Lemma pad_batch_ok (tokens : list Z) (position_ids mask : ndarray Z) (target : Z) :
  Py.len tokens <= target ->
  let k := Z.to_nat (target - Py.len tokens) in
  pad_batch tokens position_ids mask target
  = Ok (tokens ++ repeat 0 k, padded_position_ids position_ids k,
        padded_attention_mask mask k).
Proof.
  intros Hle k. unfold pad_batch, Np.pad, Np.zeros, Np.repeat_last.
  destruct (target - Py.len tokens <? 0) eqn:Hneg; [lia|].
  cbn [bind]. fold k.
  destruct position_ids as [v|m]; cbn [Np.last_slice Np.zeros_like Np.map_entries
    Np.concatenate_last bind padded_position_ids].
  - rewrite zero_fill, last_slice_length. reflexivity.
  - rewrite !length_map, Nat.eqb_refl. cbn [bind]. rewrite !map_map.
    rewrite (map_ext _ (fun r => repeat 0 (position_slots r k)))
      by (intros r; rewrite zero_fill, last_slice_length; reflexivity).
    rewrite zip_rows_map. reflexivity.
Qed.

Lemma zero_tail_keeps (v : list Z) (c i : nat) (x : Z) :
  nth_error v i = Some x -> nth_error (v ++ repeat 0 c) i = Some x.
Proof. apply nth_error_app_keep. Qed.

Lemma zero_tail_fresh (v : list Z) (c i : nat) (y : Z) :
  nth_error v i = None -> nth_error (v ++ repeat 0 c) i = Some y -> y = 0.
Proof.
  intros Hnone H. rewrite (nth_error_app_fresh _ _ _ Hnone) in H.
  exact (nth_error_repeat_inv _ _ _ _ H).
Qed.

(** Entries of the position ids are kept where they are, and every entry
    that is new is [0]. *)
Lemma padded_position_ids_keeps (pos : ndarray Z) (k : nat) (ix : list nat) (x : Z) :
  Np.get pos ix = Some x -> Np.get (padded_position_ids pos k) ix = Some x.
Proof.
  destruct pos as [v|m]; cbn [padded_position_ids Np.get].
  - destruct ix as [|i [|j ix]]; try discriminate. apply zero_tail_keeps.
  - destruct ix as [|i [|j [|z ix]]]; try discriminate.
    rewrite nth_error_map.
    destruct (nth_error m i) as [r|]; cbn [option_map]; [|discriminate].
    apply zero_tail_keeps.
Qed.

Lemma padded_position_ids_fresh (pos : ndarray Z) (k : nat) (ix : list nat) (y : Z) :
  Np.get pos ix = None -> Np.get (padded_position_ids pos k) ix = Some y -> y = 0.
Proof.
  destruct pos as [v|m]; cbn [padded_position_ids Np.get].
  - destruct ix as [|i [|j ix]]; try discriminate. apply zero_tail_fresh.
  - destruct ix as [|i [|j [|z ix]]]; try discriminate.
    rewrite nth_error_map.
    destruct (nth_error m i) as [r|]; cbn [option_map]; [|discriminate].
    apply zero_tail_fresh.
Qed.

Lemma padded_attention_mask_keeps (mask : ndarray Z) (k : nat) (ix : list nat) (x : Z) :
  Np.get mask ix = Some x -> Np.get (padded_attention_mask mask k) ix = Some x.
Proof.
  destruct mask as [v|m]; cbn [padded_attention_mask Np.get].
  - destruct ix as [|i [|j ix]]; try discriminate. apply zero_tail_keeps.
  - destruct ix as [|i [|j [|z ix]]]; try discriminate.
    destruct (nth_error m i) as [r|] eqn:Hr; [|discriminate].
    intros Hx.
    rewrite (nth_error_app_keep _ _ i (r ++ repeat 0 k)).
    + now apply zero_tail_keeps.
    + rewrite nth_error_map, Hr. reflexivity.
Qed.

Lemma padded_attention_mask_fresh (mask : ndarray Z) (k : nat) (ix : list nat) (y : Z) :
  Np.get mask ix = None -> Np.get (padded_attention_mask mask k) ix = Some y -> y = 0.
Proof.
  destruct mask as [v|m]; cbn [padded_attention_mask Np.get].
  - destruct ix as [|i [|j ix]]; try discriminate. apply zero_tail_fresh.
  - destruct ix as [|i [|j [|z ix]]]; try discriminate.
    destruct (nth_error m i) as [r|] eqn:Hr.
    + intros Hnone.
      rewrite (nth_error_app_keep _ _ i (r ++ repeat 0 k))
        by (rewrite nth_error_map, Hr; reflexivity).
      now apply zero_tail_fresh.
    + intros _. rewrite nth_error_app_fresh
        by (rewrite nth_error_map, Hr; reflexivity).
      destruct (nth_error (repeat _ k) _) as [row|] eqn:Hrow; [|discriminate].
      apply nth_error_repeat_inv in Hrow. subst row.
      apply nth_error_repeat_inv.
Qed.

Lemma padded_attention_mask_shape (mask : ndarray Z) (k : nat) :
  Np.shape (padded_attention_mask mask k)
  = map (fun d => (d + k)%nat) (Np.shape mask).
Proof.
  destruct mask as [v|m]; cbn [padded_attention_mask Np.shape map].
  - now rewrite length_app, repeat_length.
  - rewrite length_app, length_map, repeat_length. f_equal. f_equal.
    destruct m as [|r m]; cbn [map app Np.ncols].
    + destruct k; cbn [repeat Np.ncols]; [reflexivity|].
      now rewrite repeat_length.
    + now rewrite length_app, repeat_length.
Qed.

(** ** C10: [pad_batch] keeps what it was given *)

(** C10. When the tokens are not longer than the pad target, [pad_batch]
    returns; the returned tokens start with the given tokens and go on with
    zeros up to the target; every entry of the given position ids and of
    the given attention mask is found again at its own index; and every
    entry of the returned attention mask at an index that the given mask
    does not have is [0].  Nothing is written below the original length. *)
Theorem pad_batch_preserves_inputs
  (tokens : list Z) (position_ids attention_mask : ndarray Z) (target : Z) :
  Py.len tokens <= target ->
  exists tokens' position_ids' attention_mask',
    pad_batch tokens position_ids attention_mask target
    = Ok (tokens', position_ids', attention_mask')
    /\ firstn (length tokens) tokens' = tokens
    /\ Py.len tokens' = target
    /\ (forall i y, (length tokens <= i)%nat -> nth_error tokens' i = Some y -> y = 0)
    /\ (forall ix x, Np.get position_ids ix = Some x ->
                     Np.get position_ids' ix = Some x)
    /\ (forall ix x, Np.get attention_mask ix = Some x ->
                     Np.get attention_mask' ix = Some x)
    /\ (forall ix y, Np.get attention_mask ix = None ->
                     Np.get attention_mask' ix = Some y -> y = 0)
    /\ Np.shape attention_mask'
       = map (fun d => (d + Z.to_nat (target - Py.len tokens))%nat)
           (Np.shape attention_mask).
Proof.
  intros Hle. eexists _, _, _. split; [apply pad_batch_ok; exact Hle|].
  repeat split.
  - rewrite firstn_app, Nat.sub_diag, firstn_all. cbn [firstn]. apply app_nil_r.
  - unfold Py.len in *. rewrite length_app, repeat_length. lia.
  - intros i y Hi H. apply zero_tail_fresh in H; [exact H|].
    now apply nth_error_None.
  - intros ix x. apply padded_position_ids_keeps.
  - intros ix x. apply padded_attention_mask_keeps.
  - intros ix y. apply padded_attention_mask_fresh.
  - apply padded_attention_mask_shape.
Qed.

Lemma pad_batch_preserves_inputs_witness :
  Py.len [11; 12; 13] <= 5
  /\ exists tokens' position_ids' attention_mask',
      pad_batch [11; 12; 13] (Arr1 [0; 1; 2])
        (Arr2 [[1; 0; 0]; [1; 1; 0]; [1; 1; 1]]) 5
      = Ok (tokens', position_ids', attention_mask')
      /\ firstn 3 tokens' = [11; 12; 13]
      /\ Py.len tokens' = 5.
Proof.
  split; [vm_compute; discriminate|].
  destruct (pad_batch_preserves_inputs [11; 12; 13] (Arr1 [0; 1; 2])
              (Arr2 [[1; 0; 0]; [1; 1; 0]; [1; 1; 1]]) 5)
    as (t & p & m & H1 & H2 & H3 & _).
  - vm_compute. discriminate.
  - exists t, p, m. repeat split; assumption.
Defined.

(** ** C1: the slots appended to the position ids *)

(** C1, at a concrete item: the position ids [0, 1, 2] padded by five slots
    do not end in five copies of the last position [2]; the appended slots
    hold [0]. *)
Lemma pads_with_last_position_fails :
  pad_batch [7; 8; 9] (Arr1 [0; 1; 2]) (Arr1 [1; 1; 1]) 8
  = Ok ([7; 8; 9; 0; 0; 0; 0; 0], Arr1 [0; 1; 2; 0; 0; 0; 0; 0],
        Arr1 [1; 1; 1; 0; 0; 0; 0; 0])
  /\ ~ pads_with_last_position [7; 8; 9] [0; 1; 2] (Arr1 [1; 1; 1]) 8.
Proof.
  split; [reflexivity|].
  intros H.
  specialize (H _ _ _ eq_refl 3%nat 0 (le_n 3) eq_refl).
  discriminate H.
Qed.

(** C1, as the code has it.  For an item shorter than the pad target,
    [pad_batch] returns, and every entry of the returned position ids at an
    index the given position ids do not have is [0], whatever the last
    position value is; a non-empty sequence of position ids is followed by
    exactly as many zeros as there are pad slots, and so is every non-empty
    row of a matrix of position ids. *)
Theorem pad_batch_position_slots_zero
  (tokens : list Z) (position_ids attention_mask : ndarray Z) (target : Z) :
  Py.len tokens < target ->
  exists tokens' position_ids' attention_mask',
    pad_batch tokens position_ids attention_mask target
    = Ok (tokens', position_ids', attention_mask')
    /\ (forall ix y, Np.get position_ids ix = None ->
                     Np.get position_ids' ix = Some y -> y = 0)
    /\ (forall v, position_ids = Arr1 v -> v <> [] ->
          position_ids'
          = Arr1 (v ++ repeat 0 (Z.to_nat (target - Py.len tokens))))
    /\ (forall m, position_ids = Arr2 m -> Forall (fun r => r <> []) m ->
          position_ids'
          = Arr2 (map (fun r => r ++ repeat 0 (Z.to_nat (target - Py.len tokens))) m)).
Proof.
  intros Hlt. eexists _, _, _. split; [apply pad_batch_ok; lia|].
  assert (Hslots : forall r : list Z, r <> [] -> forall k,
             position_slots r k = k).
  { intros [|a r] Hr k; [contradiction|].
    unfold position_slots. cbn [length]. rewrite Nat.min_l by lia. lia. }
  repeat split.
  - intros ix y. apply padded_position_ids_fresh.
  - intros v -> Hv. cbn [padded_position_ids]. now rewrite Hslots.
  - intros m -> Hm. cbn [padded_position_ids]. f_equal.
    apply map_ext_in. intros r Hr.
    rewrite Forall_forall in Hm. now rewrite Hslots by auto.
Qed.

Lemma pad_batch_position_slots_zero_witness :
  Py.len [7; 8; 9] < 8
  /\ exists tokens' position_ids' attention_mask',
      pad_batch [7; 8; 9] (Arr1 [0; 1; 2]) (Arr1 [1; 1; 1]) 8
      = Ok (tokens', position_ids', attention_mask')
      /\ position_ids' = Arr1 ([0; 1; 2] ++ repeat 0 5).
Proof.
  split; [reflexivity|].
  destruct (pad_batch_position_slots_zero [7; 8; 9] (Arr1 [0; 1; 2])
              (Arr1 [1; 1; 1]) 8)
    as (t & p & m & H1 & _ & H3 & _).
  - reflexivity.
  - exists t, p, m. split; [exact H1|].
    apply (H3 [0; 1; 2] eq_refl). discriminate.
Defined.

(** ** C9: the padded length of a batch *)

Lemma fold_max_ge (xs : list Z) (x : Z) :
  x <= fold_left Z.max xs x /\ Forall (fun y => y <= fold_left Z.max xs x) xs.
Proof.
  revert x. induction xs as [|a xs IH]; intros x; cbn [fold_left].
  - split; [lia|constructor].
  - destruct (IH (Z.max x a)) as [H1 H2]. split; [lia|].
    constructor; [lia|exact H2].
Qed.

Lemma fold_max_in (xs : list Z) (x : Z) :
  In (fold_left Z.max xs x) (x :: xs).
Proof.
  revert x. induction xs as [|a xs IH]; intros x; cbn [fold_left].
  - now left.
  - destruct (IH (Z.max x a)) as [H|H].
    + destruct (Z.max_spec x a) as [[_ E]|[_ E]].
      * right. left. congruence.
      * left. congruence.
    + right. right. exact H.
Qed.

(** [max] of a non-empty list returns one of its members, which bounds all. *)
Lemma py_max_spec (l : list Z) :
  l <> [] -> exists m, Py.max l = Ok m /\ In m l /\ Forall (fun y => y <= m) l.
Proof.
  destruct l as [|x xs]; [contradiction|]. intros _.
  exists (fold_left Z.max xs x). split; [reflexivity|].
  split; [apply fold_max_in|].
  destruct (fold_max_ge xs x) as [H1 H2]. constructor; assumption.
Qed.

(** [(m + TILE - 1) // TILE * TILE] is the least multiple of [TILE] from [m] on. *)
Lemma round_up_tile (m : Z) :
  let n := (m + TILE - 1) / TILE * TILE in
  n mod TILE = 0 /\ m <= n < m + TILE
  /\ (forall n', n' mod TILE = 0 -> m <= n' -> n <= n').
Proof.
  unfold TILE. cbn zeta.
  pose proof (Z.div_mod (m + 32 - 1) 32 ltac:(lia)) as Hdm.
  pose proof (Z.mod_pos_bound (m + 32 - 1) 32 ltac:(lia)) as Hb.
  split; [apply Z.mod_mul; lia|]. split; [lia|].
  intros n' Hn' Hle.
  apply Z.mod_divide in Hn'; [|lia]. destruct Hn' as [q Hq]. subst n'.
  assert ((m + 32 - 1) / 32 <= q); [|lia].
  apply Z.lt_succ_r. apply Z.div_lt_upper_bound; lia.
Qed.

Lemma pad_batch_tokens_length
  (tokens : list Z) (position_ids mask : ndarray Z) (target : Z)
  (tokens' : list Z) (position_ids' mask' : ndarray Z) :
  pad_batch tokens position_ids mask target = Ok (tokens', position_ids', mask') ->
  Py.len tokens' = target.
Proof.
  intros H. destruct (Z_le_gt_dec (Py.len tokens) target) as [Hle|Hgt].
  - rewrite (pad_batch_ok _ _ _ _ Hle) in H. injection H as <- _ _.
    unfold Py.len in *. rewrite length_app, repeat_length. lia.
  - unfold pad_batch, Np.pad in H.
    destruct (target - Py.len tokens <? 0) eqn:E; [discriminate H|lia].
Qed.

Lemma pad_samples_tokens (samples : list materialized) (n : Z)
  (tb : list (list Z)) (pb ab : list (ndarray Z)) :
  pad_samples samples n = Ok (tb, pb, ab) ->
  Forall (fun row => Py.len row = n) tb /\ length tb = length samples.
Proof.
  revert tb pb ab. induction samples as [|s samples IH]; intros tb pb ab;
    cbn [pad_samples].
  - intros H. injection H as <- _ _. split; [constructor|reflexivity].
  - destruct (pad_batch _ _ _ n) as [[[t p] a]|e] eqn:Hpad; [|discriminate].
    cbn [bind].
    destruct (pad_samples samples n) as [[[tb' pb'] ab']|e]; [|discriminate].
    cbn [bind]. intros H. injection H as <- _ _.
    destruct (IH _ _ _ eq_refl) as [H1 H2].
    split; [|cbn [length]; congruence].
    constructor; [|exact H1]. eapply pad_batch_tokens_length, Hpad.
Qed.

(** Padding to a length that bounds every item of the batch cannot fail. *)
Lemma pad_samples_ok (samples : list materialized) (n : Z) :
  Forall (fun s => Py.len (token s) <= n) samples ->
  exists padded, pad_samples samples n = Ok padded.
Proof.
  induction 1 as [|s samples Hs _ IH]; cbn [pad_samples].
  - eexists. reflexivity.
  - rewrite (pad_batch_ok _ _ _ _ Hs). cbn [bind].
    destruct IH as [[[tb pb] ab] ->]. cbn [bind]. eexists. reflexivity.
Qed.

Lemma length_to_pad_spec (samples : list materialized) :
  samples <> [] ->
  exists s, In s samples
    /\ Forall (fun s' => Py.len (token s') <= Py.len (token s)) samples
    /\ length_to_pad samples
       = Ok ((Py.len (token s) + TILE - 1) / TILE * TILE).
Proof.
  intros Hne. unfold length_to_pad.
  destruct (py_max_spec (map (fun spl => Py.len (token spl)) samples))
    as (m & Hm & Hin & Hall).
  { destruct samples; [contradiction|discriminate]. }
  apply in_map_iff in Hin. destruct Hin as (s & <- & Hin).
  exists s. split; [exact Hin|]. split.
  - rewrite Forall_forall in *. intros s' Hs'. apply Hall.
    apply in_map_iff. now exists s'.
  - rewrite Hm. reflexivity.
Qed.

(** ** C5: truncation of the text to a suffix *)

(** [l[len(l) - n : len(l)]] for [n < len(l)]: the last [n] entries of [l],
    and nothing when [n] is negative. *)
Lemma slice_suffix {A : Type} (l : list A) (n : Z) :
  n < Py.len l ->
  Py.slice l (Some (Py.len l - n)) (Some (Py.len l))
  = skipn (Z.to_nat (Py.len l - Z.max 0 n)) l.
Proof.
  intros Hn. unfold Py.slice, Py.clamp_index.
  pose proof (len_nonneg l) as Hl.
  destruct (Py.len l - n <? 0) eqn:E1; [lia|].
  destruct (Py.len l <? 0) eqn:E2; [lia|].
  rewrite Z.min_id.
  destruct (Z_le_gt_dec 0 n) as [Hpos|Hneg].
  - rewrite Z.min_l by lia. rewrite Z.max_r by lia.
    apply firstn_all2. rewrite length_skipn. unfold Py.len in *. lia.
  - rewrite Z.min_r by lia. rewrite Z.max_l by lia.
    rewrite Z.sub_diag, Z.sub_0_r. cbn [Z.to_nat firstn].
    symmetry. apply skipn_all2. unfold Py.len. lia.
Qed.

Lemma slice_suffix_spec {A : Type} (l : list A) (n : Z) :
  n < Py.len l ->
  let kept := Py.slice l (Some (Py.len l - n)) (Some (Py.len l)) in
  l = firstn (Z.to_nat (Py.len l - Z.max 0 n)) l ++ kept
  /\ Py.len kept = Z.max 0 n.
Proof.
  intros Hn kept. unfold kept. rewrite (slice_suffix l n Hn). split.
  - symmetry. apply firstn_skipn.
  - unfold Py.len in *. rewrite length_skipn. lia.
Qed.

(** The text an expansion keeps when [room] slots are set aside within
    [limit]. *)
Lemma truncated_text (text : list Z) (room limit : Z) :
  let kept :=
    if Py.len text + room + 2 >? limit then
      Py.slice text (Some (Py.len text - (limit - room - 2))) (Some (Py.len text))
    else text in
  (exists dropped, text = dropped ++ kept)
  /\ Py.len kept = Z.min (Py.len text) (Z.max 0 (limit - room - 2)).
Proof.
  cbn zeta. pose proof (len_nonneg text) as Hlen.
  destruct (Py.len text + room + 2 >? limit) eqn:E.
  - apply Z.gtb_lt in E.
    destruct (slice_suffix_spec text (limit - room - 2) ltac:(lia)) as [Hs Hl].
    split; [eexists; exact Hs|]. rewrite Hl. lia.
  - assert (~ Py.len text + room + 2 > limit).
    { intros H. apply Z.gt_lt, Z.gtb_lt in H. congruence. }
    split; [exists []; reflexivity|lia].
Qed.

Lemma mask_in_text (mask_id : Z) (text : list Z) :
  existsb (Z.eqb mask_id) text = true <-> In mask_id text.
Proof.
  rewrite existsb_exists. split.
  - intros (x & Hx & E). apply Z.eqb_eq in E. now subst x.
  - intros H. exists mask_id. split; [exact H|apply Z.eqb_refl].
Qed.

(** C5, at a concrete record: with [max_seq_length = 5] and
    [max_gen_length = 10] a text of 3 tokens is too long, but it cannot be
    cut to a suffix of length [5 - 10 - 2]; the expansion keeps nothing. *)
Lemma stated_suffix_length_fails :
  let cfg := {| max_seq_length := 5; max_gen_length := 10;
                generation_length := 1; use_task_mask := false;
                unidirectional := false; use_multitask_encoding := false |} in
  let it := {| GenerationTaskDataset.inputs := [1; 2; 3];
               GenerationTaskDataset.item_targets :=
                 GenerationTaskDataset.Flat [9] |} in
  GenerationTaskDataset.process_single_item cfg it
  = [ {| GenerationTaskDataset.text := [];
         GenerationTaskDataset.targets := [[9]] |} ]
  /\ ~ keeps_suffix_of_stated_length cfg it.
Proof.
  intros cfg it. split; [reflexivity|].
  intros H. destruct H as (s & dropped & _ & _ & Hlen).
  - vm_compute. reflexivity.
  - pose proof (len_nonneg (GenerationTaskDataset.text s)) as Hpos.
    rewrite Hlen in Hpos. vm_compute in Hpos. now apply Hpos.
Qed.

(** C5, as the code has it.  The generation strategy returns one sample.
    When [len(text) + max_gen_length + 2 > max_seq_length] its text is the
    suffix of the given text of length
    [max(0, max_seq_length - max_gen_length - 2)], the earliest tokens being
    the dropped ones and nothing being kept when
    [max_seq_length - max_gen_length - 2] is negative; otherwise the text
    is unchanged.  A text of 100 tokens with [max_seq_length = 50] and
    [max_gen_length = 10] keeps its last 38 tokens.  The multiple-choice
    strategy cuts the text by the same rule with the target length of the
    record for [max_gen_length]: whenever the target length is below
    [max_seq_length] and the blank-filling assertion passes on the kept
    text, the expansion returns the one sample with that text, and it never
    returns anything else. *)
Theorem expansion_keeps_suffix (cfg : config) :
  (forall it : GenerationTaskDataset.item,
      exists s,
        GenerationTaskDataset.process_single_item cfg it = [s]
        /\ (Py.len (GenerationTaskDataset.inputs it) + max_gen_length cfg + 2
            > max_seq_length cfg ->
            exists dropped,
              GenerationTaskDataset.inputs it
              = dropped ++ GenerationTaskDataset.text s
              /\ Py.len (GenerationTaskDataset.text s)
                 = Z.max 0 (max_seq_length cfg - max_gen_length cfg - 2))
        /\ (Py.len (GenerationTaskDataset.inputs it) + max_gen_length cfg + 2
            <= max_seq_length cfg ->
            GenerationTaskDataset.text s = GenerationTaskDataset.inputs it)
        /\ (Py.len (GenerationTaskDataset.inputs it) = 100 ->
            max_seq_length cfg = 50 -> max_gen_length cfg = 10 ->
            GenerationTaskDataset.text s
            = skipn 62 (GenerationTaskDataset.inputs it)
            /\ Py.len (GenerationTaskDataset.text s) = 38))
  /\ (forall mask_id self (it : MultiChoiceTaskDataset.item),
        let tgt :=
          MultiChoiceTaskDataset.tgt_seq_length
            (MultiChoiceTaskDataset.item_choices it) in
        let text := MultiChoiceTaskDataset.inputs it in
        exists dropped kept,
          text = dropped ++ kept
          /\ (Py.len text + tgt + 2 > max_seq_length cfg ->
              Py.len kept = Z.max 0 (max_seq_length cfg - tgt - 2))
          /\ (Py.len text + tgt + 2 <= max_seq_length cfg -> kept = text)
          /\ (tgt < max_seq_length cfg ->
              ~ (In mask_id kept /\ use_multitask_encoding cfg = true) ->
              exists self',
                MultiChoiceTaskDataset.process_single_item cfg mask_id self it
                = Ok ([ {| MultiChoiceTaskDataset.text := kept;
                           MultiChoiceTaskDataset.choices :=
                             MultiChoiceTaskDataset.item_choices it;
                           MultiChoiceTaskDataset.label :=
                             MultiChoiceTaskDataset.item_label it |} ], self'))
          /\ (forall samples self',
                MultiChoiceTaskDataset.process_single_item cfg mask_id self it
                = Ok (samples, self') ->
                samples
                = [ {| MultiChoiceTaskDataset.text := kept;
                       MultiChoiceTaskDataset.choices :=
                         MultiChoiceTaskDataset.item_choices it;
                       MultiChoiceTaskDataset.label :=
                         MultiChoiceTaskDataset.item_label it |} ])).
Proof.
  split.
  - intros it. unfold GenerationTaskDataset.process_single_item.
    eexists. split; [reflexivity|]. cbn [GenerationTaskDataset.text].
    set (text := GenerationTaskDataset.inputs it).
    set (n := max_seq_length cfg - max_gen_length cfg - 2).
    destruct (Py.len text + max_gen_length cfg + 2 >? max_seq_length cfg) eqn:E.
    + apply Z.gtb_lt in E.
      assert (Hn : n < Py.len text) by (unfold n; lia).
      destruct (slice_suffix_spec text n Hn) as [Hsplit Hlen].
      split; [|split].
      * intros _. eexists. split; [exact Hsplit|exact Hlen].
      * lia.
      * intros H100 HM Hg. split.
        -- rewrite (slice_suffix text n Hn). unfold n.
           rewrite H100, HM, Hg. reflexivity.
        -- rewrite Hlen. unfold n. rewrite HM, Hg. reflexivity.
    + assert (~ Py.len text + max_gen_length cfg + 2 > max_seq_length cfg).
      { intros H. apply Z.gt_lt, Z.gtb_lt in H. congruence. }
      split; [|split]; [lia|reflexivity|lia].
  - intros mask_id self it tgt text.
    unfold MultiChoiceTaskDataset.process_single_item. fold tgt. fold text.
    destruct (truncated_text text tgt (max_seq_length cfg))
      as [[dropped Hsplit] Hlen].
    pose proof (len_nonneg text) as Hpos.
    assert (Hcut : Py.len text + tgt + 2 > max_seq_length cfg ->
                   (Py.len text + tgt + 2 >? max_seq_length cfg) = true).
    { intros H. apply Z.gtb_lt. lia. }
    assert (Hfit : Py.len text + tgt + 2 <= max_seq_length cfg ->
                   (Py.len text + tgt + 2 >? max_seq_length cfg) = false).
    { intros H. destruct (_ >? _) eqn:E; [apply Z.gtb_lt in E; lia|reflexivity]. }
    set (kept := if Py.len text + tgt + 2 >? max_seq_length cfg then _ else _) in *.
    exists dropped, kept. split; [exact Hsplit|].
    split; [intros H; rewrite Hlen; lia|].
    split; [intros H; unfold kept; now rewrite (Hfit H)|].
    split.
    + intros Htgt Hmask.
      destruct (tgt <? max_seq_length cfg) eqn:Et; [|apply Z.ltb_ge in Et; lia].
      cbn [negb].
      destruct (existsb (Z.eqb mask_id) kept && use_multitask_encoding cfg) eqn:Em.
      * apply andb_true_iff in Em. destruct Em as [Em Eu].
        apply mask_in_text in Em. elim Hmask. now split.
      * eexists. reflexivity.
    + intros samples self'. destruct (negb _); [discriminate|].
      destruct (existsb _ _ && _); [discriminate|].
      intros H. now injection H as <- _.
Qed.

Lemma expansion_keeps_suffix_witness :
  let cfg := {| max_seq_length := 50; max_gen_length := 10;
                generation_length := 1; use_task_mask := false;
                unidirectional := false; use_multitask_encoding := true |} in
  let it := {| GenerationTaskDataset.inputs := map Z.of_nat (seq 1 100);
               GenerationTaskDataset.item_targets :=
                 GenerationTaskDataset.Flat [7] |} in
  let record := {| MultiChoiceTaskDataset.inputs := map Z.of_nat (seq 1 100);
                   MultiChoiceTaskDataset.item_choices := [[7; 8]; [9]];
                   MultiChoiceTaskDataset.item_label := 1 |} in
  let self := {| MultiChoiceTaskDataset.data := [];
                 MultiChoiceTaskDataset.is_single_token := true |} in
  Py.len (GenerationTaskDataset.inputs it) = 100
  /\ (exists s, GenerationTaskDataset.process_single_item cfg it = [s]
                /\ GenerationTaskDataset.text s = map Z.of_nat (seq 63 38))
  /\ (exists s self',
        MultiChoiceTaskDataset.process_single_item cfg 5 self record
        = Ok ([s], self')
        /\ Py.len (MultiChoiceTaskDataset.text s) = 45).
Proof.
  intros cfg it record self. split; [reflexivity|].
  destruct (expansion_keeps_suffix cfg) as [Hgen Hmc]. split.
  - destruct (Hgen it) as (s & H1 & _ & _ & H4).
    exists s. split; [exact H1|].
    destruct H4 as [H4 _]; [reflexivity..|]. rewrite H4. reflexivity.
  - destruct (Hmc 5 self record) as (dropped & kept & Hsplit & Hlen & _ & Hret & _).
    assert (Hk : Py.len kept = 45) by (apply Hlen; reflexivity).
    destruct Hret as [self' Hself'].
    + reflexivity.
    + intros [Hin _].
      assert (Hd : length dropped = 55%nat).
      { apply (f_equal (@length Z)) in Hsplit. rewrite length_app in Hsplit.
        unfold Py.len in Hk. cbn in Hsplit. lia. }
      assert (Hkept : kept = skipn 55 (map Z.of_nat (seq 1 100))).
      { change (map Z.of_nat (seq 1 100) = dropped ++ kept) in Hsplit.
        rewrite Hsplit, <- Hd, skipn_app, skipn_all, Nat.sub_diag. reflexivity. }
      rewrite Hkept in Hin. vm_compute in Hin.
      repeat (destruct Hin as [Hin|Hin]; [discriminate Hin|]). exact Hin.
    + eexists _, self'. split; [exact Hself'|exact Hk].
Defined.

(** ** C6: the target length of a multiple-choice record *)

Lemma sum_shift (l : list Z) (a : Z) :
  fold_left Z.add l a = a + Py.sum l.
Proof.
  unfold Py.sum. revert a. induction l as [|x l IH]; intros a; cbn [fold_left].
  - lia.
  - rewrite (IH (a + x)), (IH (0 + x)). lia.
Qed.

Lemma sum_cons (x : Z) (l : list Z) : Py.sum (x :: l) = x + Py.sum l.
Proof. unfold Py.sum at 1. cbn [fold_left]. rewrite sum_shift. lia. Qed.

(** Where no choice is empty, the summed length equals the number of
    choices exactly when every choice is a single token. *)
Lemma summed_length_of_nonempty_choices (choices : list (list Z)) :
  Forall (fun c => c <> []) choices ->
  Py.len choices <= Py.sum (map Py.len choices)
  /\ (Py.sum (map Py.len choices) = Py.len choices
      <-> Forall single_token choices).
Proof.
  induction 1 as [|c choices Hc _ IH]; cbn [map].
  - split; [reflexivity|]. split; [constructor|reflexivity].
  - rewrite sum_cons. destruct IH as [IH1 IH2].
    assert (1 <= Py.len c).
    { destruct c; [contradiction|]. unfold Py.len. cbn [length]. lia. }
    assert (Hlen : Py.len (c :: choices) = 1 + Py.len choices).
    { unfold Py.len. cbn [length]. lia. }
    rewrite Hlen. split; [lia|]. split.
    + intros E. constructor; [unfold single_token; lia|]. apply IH2. lia.
    + intros Hall. inversion Hall as [|? ? H1 H2]; subst.
      apply IH2 in H2. unfold single_token in H1. lia.
Qed.

(** C6, at a concrete record: with an empty choice next to a choice of two
    tokens the summed length 2 equals the number of choices, so the target
    length is collapsed to 1 although no choice is a single token, and the
    flag of the dataset stays set. *)
Lemma empty_choice_collapses_target_length :
  let choices := [[]; [7; 8]] in
  let cfg := {| max_seq_length := 16; max_gen_length := 0;
                generation_length := 1; use_task_mask := false;
                unidirectional := false; use_multitask_encoding := false |} in
  Py.sum (map Py.len choices) = 2
  /\ MultiChoiceTaskDataset.tgt_seq_length choices = 1
  /\ ~ Forall single_token choices
  /\ ~ collapses_iff_single_tokens choices
  /\ MultiChoiceTaskDataset.process_single_item cfg 0
       {| MultiChoiceTaskDataset.data := [];
          MultiChoiceTaskDataset.is_single_token := true |}
       {| MultiChoiceTaskDataset.inputs := [5; 6];
          MultiChoiceTaskDataset.item_choices := choices;
          MultiChoiceTaskDataset.item_label := 1 |}
     = Ok ([ {| MultiChoiceTaskDataset.text := [5; 6];
                MultiChoiceTaskDataset.choices := choices;
                MultiChoiceTaskDataset.label := 1 |} ],
           {| MultiChoiceTaskDataset.data := [];
              MultiChoiceTaskDataset.is_single_token := true |}).
Proof.
  intros choices cfg.
  assert (Hnot : ~ Forall single_token choices).
  { intros H. inversion H as [|? ? H1 _]. discriminate H1. }
  split; [reflexivity|]. split; [reflexivity|]. split; [exact Hnot|].
  split; [|reflexivity].
  intros [[H _] _]. apply Hnot, H. reflexivity.
Qed.

(** ** C7: the assertion on the target length *)

(** C7, at a concrete record: four single-token choices with
    [max_seq_length = 4] have summed length 4, yet the expansion returns:
    the assertion looks at the collapsed target length 1. *)
Lemma summed_length_assertion_fails :
  let cfg := {| max_seq_length := 4; max_gen_length := 0;
                generation_length := 1; use_task_mask := false;
                unidirectional := false; use_multitask_encoding := false |} in
  let self := {| MultiChoiceTaskDataset.data := [];
                 MultiChoiceTaskDataset.is_single_token := true |} in
  let it := {| MultiChoiceTaskDataset.inputs := [9];
               MultiChoiceTaskDataset.item_choices := [[1]; [2]; [3]; [4]];
               MultiChoiceTaskDataset.item_label := 0 |} in
  MultiChoiceTaskDataset.process_single_item cfg 0 self it
  = Ok ([ {| MultiChoiceTaskDataset.text := [9];
             MultiChoiceTaskDataset.choices := [[1]; [2]; [3]; [4]];
             MultiChoiceTaskDataset.label := 0 |} ], self)
  /\ ~ asserts_on_summed_length cfg 0 self it.
Proof.
  intros cfg self it. split; [reflexivity|].
  intros [_ H].
  assert (E : MultiChoiceTaskDataset.process_single_item cfg 0 self it
              = Raise (AssertionError None)).
  { apply H. vm_compute. discriminate. }
  discriminate E.
Qed.

Lemma for_each_raises {St X : Type} (body : St -> X -> result St)
  (x : X) (xs : list X) :
  (forall st, exists e, body st x = Raise e) -> In x xs ->
  forall st, exists e, for_each body xs st = Raise e.
Proof.
  intros Hx. induction xs as [|y xs IH]; intros Hin st; [contradiction|].
  cbn [for_each]. destruct Hin as [->|Hin].
  - destruct (Hx st) as [e ->]. now exists e.
  - destruct (body st y) as [st'|e]; cbn [bind]; [now apply IH|now exists e].
Qed.

Lemma for_each_app {St X : Type} (body : St -> X -> result St)
  (xs ys : list X) (st : St) :
  for_each body (xs ++ ys) st
  = (st' <- for_each body xs st ;; for_each body ys st').
Proof.
  revert st. induction xs as [|x xs IH]; intros st; cbn [app for_each bind].
  - reflexivity.
  - destruct (body st x) as [st'|e]; cbn [bind]; [apply IH|reflexivity].
Qed.

Section MultiChoiceExpansion.

Variable cfg : config.
Variable mask_id : Z.

Let process_single_item := MultiChoiceTaskDataset.process_single_item cfg mask_id.
Let process_single_file := MultiChoiceTaskDataset.process_single_file cfg mask_id.
Let init := MultiChoiceTaskDataset.init cfg mask_id.

Lemma first_assertion_iff (self : MultiChoiceTaskDataset.t)
  (it : MultiChoiceTaskDataset.item) :
  process_single_item self it = Raise (AssertionError None)
  <-> MultiChoiceTaskDataset.tgt_seq_length
        (MultiChoiceTaskDataset.item_choices it) >= max_seq_length cfg.
Proof.
  unfold process_single_item, MultiChoiceTaskDataset.process_single_item.
  set (tgt := MultiChoiceTaskDataset.tgt_seq_length _).
  destruct (tgt <? max_seq_length cfg) eqn:E; cbn [negb].
  - apply Z.ltb_lt in E. split; [|lia].
    destruct (existsb _ _ && _); discriminate.
  - apply Z.ltb_ge in E. split; [lia|reflexivity].
Qed.

(** The outcome of an expansion: whether it returns does not depend on the
    dataset object, the data of the object are left alone, and the flag is
    cleared when the target length is not [1] and kept otherwise. *)
Lemma process_single_item_outcome (self : MultiChoiceTaskDataset.t)
  (it : MultiChoiceTaskDataset.item) :
  match process_single_item self it with
  | Ok (samples, self') =>
      accepted cfg mask_id it = true
      /\ length samples = 1%nat
      /\ MultiChoiceTaskDataset.data self' = MultiChoiceTaskDataset.data self
      /\ MultiChoiceTaskDataset.is_single_token self'
         = MultiChoiceTaskDataset.is_single_token self && unit_target it
  | Raise _ => accepted cfg mask_id it = false
  end.
Proof.
  unfold process_single_item, accepted, unit_target,
    MultiChoiceTaskDataset.process_single_item.
  set (tgt := MultiChoiceTaskDataset.tgt_seq_length _).
  destruct (negb (tgt <? max_seq_length cfg)); [reflexivity|].
  destruct (existsb _ _ && _); [reflexivity|].
  destruct (tgt =? 1); cbn [negb MultiChoiceTaskDataset.data
    MultiChoiceTaskDataset.is_single_token length].
  - rewrite andb_true_r. repeat split.
  - rewrite andb_false_r. repeat split.
Qed.

Lemma process_single_file_outcome (file : list MultiChoiceTaskDataset.item)
  (self : MultiChoiceTaskDataset.t) :
  match process_single_file self file with
  | Ok self' =>
      forallb (accepted cfg mask_id) file = true
      /\ MultiChoiceTaskDataset.is_single_token self'
         = MultiChoiceTaskDataset.is_single_token self && forallb unit_target file
  | Raise _ => forallb (accepted cfg mask_id) file = false
  end.
Proof.
  unfold process_single_file, MultiChoiceTaskDataset.process_single_file.
  revert self. induction file as [|it file IH]; intros self;
    cbn [for_each forallb].
  - now rewrite andb_true_r.
  - pose proof (process_single_item_outcome self it) as Hit.
    unfold process_single_item in Hit.
    destruct (MultiChoiceTaskDataset.process_single_item cfg mask_id self it)
      as [[samples self1]|e]; cbn [bind].
    + destruct Hit as (Hacc & _ & _ & Hflag). rewrite Hacc. cbn [andb].
      match goal with |- context [for_each ?b file ?s] =>
        specialize (IH s); destruct (for_each b file s) as [self'|e] end.
      * destruct IH as [IH1 IH2]. split; [exact IH1|].
        rewrite IH2. cbn [MultiChoiceTaskDataset.is_single_token].
        rewrite Hflag. now rewrite andb_assoc.
      * exact IH.
    + now rewrite Hit.
Qed.

Lemma for_each_file_outcome (path : list (list MultiChoiceTaskDataset.item))
  (self : MultiChoiceTaskDataset.t) :
  match for_each process_single_file path self with
  | Ok self' =>
      forallb (accepted cfg mask_id) (concat path) = true
      /\ MultiChoiceTaskDataset.is_single_token self'
         = MultiChoiceTaskDataset.is_single_token self
           && forallb unit_target (concat path)
  | Raise _ => forallb (accepted cfg mask_id) (concat path) = false
  end.
Proof.
  revert self. induction path as [|file path IH]; intros self;
    cbn [for_each concat].
  - cbn [forallb]. now rewrite andb_true_r.
  - rewrite !forallb_app.
    pose proof (process_single_file_outcome file self) as Hf.
    destruct (process_single_file self file) as [self1|e]; cbn [bind].
    + destruct Hf as [Hf1 Hf2]. rewrite Hf1. cbn [andb].
      specialize (IH self1).
      destruct (for_each process_single_file path self1) as [self'|e].
      * destruct IH as [IH1 IH2]. split; [exact IH1|].
        rewrite IH2, Hf2. now rewrite andb_assoc.
      * exact IH.
    + now rewrite Hf.
Qed.

(** Construction returns exactly when every record is accepted, and then
    the flag is the conjunction over all records. *)
Lemma init_outcome (path : list (list MultiChoiceTaskDataset.item)) :
  match init path with
  | Ok ds =>
      forallb (accepted cfg mask_id) (concat path) = true
      /\ MultiChoiceTaskDataset.is_single_token ds
         = forallb unit_target (concat path)
  | Raise _ => forallb (accepted cfg mask_id) (concat path) = false
  end.
Proof.
  unfold init, MultiChoiceTaskDataset.init.
  apply (for_each_file_outcome path).
Qed.

End MultiChoiceExpansion.

Lemma single_tokens_forallb (choices : list (list Z)) :
  forallb (fun c => Py.len c =? 1) choices = true <-> Forall single_token choices.
Proof.
  rewrite forallb_forall, Forall_forall. unfold single_token.
  split; intros H c Hc; [apply Z.eqb_eq|apply Z.eqb_eq]; now apply H.
Qed.

(** Where no choice is empty, the target length the code computes is the
    one the specification words. *)
Lemma tgt_seq_length_as_stated (choices : list (list Z)) :
  Forall (fun c => c <> []) choices ->
  MultiChoiceTaskDataset.tgt_seq_length choices = stated_target_length choices.
Proof.
  intros Hne. unfold MultiChoiceTaskDataset.tgt_seq_length, stated_target_length.
  destruct (summed_length_of_nonempty_choices choices Hne) as [_ Hiff].
  destruct (Py.sum (map Py.len choices) =? Py.len choices) eqn:E.
  - apply Z.eqb_eq, Hiff, single_tokens_forallb in E. now rewrite E.
  - destruct (forallb _ choices) eqn:F; [|reflexivity].
    apply single_tokens_forallb, Hiff, Z.eqb_eq in F. congruence.
Qed.

(** C7, as the code has it.  For a multiple-choice record none of whose
    choices is empty, take as target length 1 when every choice is a single
    token and the summed length of the choices otherwise.  The expansion of
    the record fails on its first assertion, the one on the target length,
    exactly when that target length is not below [max_seq_length]; a record
    whose target length is below [max_seq_length] never fails on it, and can
    only fail on the other assertion, the one on blank filling; and a record
    that fails on the first assertion makes the construction of the dataset
    fail. *)
Theorem assertion_on_collapsed_target_length
  (cfg : config) (mask_id : Z) (it : MultiChoiceTaskDataset.item) :
  Forall (fun c => c <> []) (MultiChoiceTaskDataset.item_choices it) ->
  let tgt := stated_target_length (MultiChoiceTaskDataset.item_choices it) in
  (forall self,
      MultiChoiceTaskDataset.process_single_item cfg mask_id self it
      = Raise (AssertionError None)
      <-> tgt >= max_seq_length cfg)
  /\ (forall self, tgt < max_seq_length cfg ->
        MultiChoiceTaskDataset.process_single_item cfg mask_id self it
        <> Raise (AssertionError None))
  /\ (forall self e, tgt < max_seq_length cfg ->
        MultiChoiceTaskDataset.process_single_item cfg mask_id self it = Raise e ->
        e = AssertionError (Some MultiChoiceTaskDataset.blank_filling_message))
  /\ (forall path file, tgt >= max_seq_length cfg ->
        In file path -> In it file ->
        exists e, MultiChoiceTaskDataset.init cfg mask_id path = Raise e).
Proof.
  intros Hne. cbn zeta. rewrite <- (tgt_seq_length_as_stated _ Hne).
  split; [|split; [|split]].
  - intros self. apply first_assertion_iff.
  - intros self Hlt H. apply first_assertion_iff in H. lia.
  - intros self e Hlt. unfold MultiChoiceTaskDataset.process_single_item.
    destruct (_ <? max_seq_length cfg) eqn:Et; [|apply Z.ltb_ge in Et; lia].
    cbn [negb]. destruct (existsb _ _ && _); [|discriminate].
    intros H. now injection H as <-.
  - intros path file Hge Hfile Hit.
    unfold MultiChoiceTaskDataset.init.
    apply (for_each_raises _ file); [|exact Hfile].
    intros self. unfold MultiChoiceTaskDataset.process_single_file.
    apply (for_each_raises _ it); [|exact Hit].
    intros st. rewrite (proj2 (first_assertion_iff cfg mask_id st it) Hge).
    cbn [bind]. eexists. reflexivity.
Qed.

Lemma assertion_on_collapsed_target_length_witness :
  let cfg := {| max_seq_length := 4; max_gen_length := 0;
                generation_length := 1; use_task_mask := false;
                unidirectional := false; use_multitask_encoding := false |} in
  let self := {| MultiChoiceTaskDataset.data := [];
                 MultiChoiceTaskDataset.is_single_token := true |} in
  let it := {| MultiChoiceTaskDataset.inputs := [9];
               MultiChoiceTaskDataset.item_choices := [[1; 2]; [3; 4]];
               MultiChoiceTaskDataset.item_label := 0 |} in
  Forall (fun c => c <> []) (MultiChoiceTaskDataset.item_choices it)
  /\ stated_target_length (MultiChoiceTaskDataset.item_choices it)
     >= max_seq_length cfg
  /\ MultiChoiceTaskDataset.process_single_item cfg 0 self it
     = Raise (AssertionError None)
  /\ exists e, MultiChoiceTaskDataset.init cfg 0 [[it]] = Raise e.
Proof.
  intros cfg self it.
  assert (Hne : Forall (fun c : list Z => c <> [])
                  (MultiChoiceTaskDataset.item_choices it)).
  { repeat constructor; discriminate. }
  assert (H : stated_target_length (MultiChoiceTaskDataset.item_choices it)
              >= max_seq_length cfg).
  { vm_compute. discriminate. }
  split; [exact Hne|]. split; [exact H|].
  destruct (assertion_on_collapsed_target_length cfg 0 it Hne) as (H1 & _ & _ & H4).
  split; [apply H1; exact H|].
  apply (H4 [[it]] [it] H); now left.
Defined.

(** ** C8: the flag of the multiple-choice dataset *)

Lemma forallb_permutation {A : Type} (f : A -> bool) (l l' : list A) :
  Permutation l l' -> forallb f l = forallb f l'.
Proof.
  induction 1 as [|x l l' _ IH|x y l|l l' l'' _ IH1 _ IH2]; cbn [forallb].
  - reflexivity.
  - now rewrite IH.
  - now rewrite !andb_assoc, (andb_comm (f y)).
  - congruence.
Qed.

(** C8.  The flag starts set; an expansion that returns leaves it as it was
    when the target length of the record is [1] and clears it otherwise, so
    a cleared flag stays cleared; after construction the flag is cleared
    exactly when some record has a target length other than [1]; and a
    dataset built from the same records in another order, reversed in
    particular, is built as well and ends with the same flag.  The collator
    and the item access read the flag and return no dataset object. *)
Theorem is_single_token_monotonic (cfg : config) (mask_id : Z) :
  MultiChoiceTaskDataset.init cfg mask_id []
  = Ok {| MultiChoiceTaskDataset.data := [];
          MultiChoiceTaskDataset.is_single_token := true |}
  /\ (forall self it samples self',
        MultiChoiceTaskDataset.process_single_item cfg mask_id self it
        = Ok (samples, self') ->
        MultiChoiceTaskDataset.is_single_token self'
        = MultiChoiceTaskDataset.is_single_token self && unit_target it)
  /\ (forall self it samples self',
        MultiChoiceTaskDataset.process_single_item cfg mask_id self it
        = Ok (samples, self') ->
        MultiChoiceTaskDataset.is_single_token self = false ->
        MultiChoiceTaskDataset.is_single_token self' = false)
  /\ (forall path ds,
        MultiChoiceTaskDataset.init cfg mask_id path = Ok ds ->
        (MultiChoiceTaskDataset.is_single_token ds = false
         <-> exists it, In it (concat path) /\ unit_target it = false))
  /\ (forall path path' ds,
        MultiChoiceTaskDataset.init cfg mask_id path = Ok ds ->
        Permutation (concat path) (concat path') ->
        exists ds',
          MultiChoiceTaskDataset.init cfg mask_id path' = Ok ds'
          /\ MultiChoiceTaskDataset.is_single_token ds'
             = MultiChoiceTaskDataset.is_single_token ds)
  /\ (forall records ds,
        MultiChoiceTaskDataset.init cfg mask_id [records] = Ok ds ->
        exists ds',
          MultiChoiceTaskDataset.init cfg mask_id [rev records] = Ok ds'
          /\ MultiChoiceTaskDataset.is_single_token ds'
             = MultiChoiceTaskDataset.is_single_token ds).
Proof.
  assert (Hstep : forall self it samples self',
             MultiChoiceTaskDataset.process_single_item cfg mask_id self it
             = Ok (samples, self') ->
             MultiChoiceTaskDataset.is_single_token self'
             = MultiChoiceTaskDataset.is_single_token self && unit_target it).
  { intros self it samples self' H.
    pose proof (process_single_item_outcome cfg mask_id self it) as Ho.
    rewrite H in Ho. apply Ho. }
  assert (Hperm : forall path path' ds,
             MultiChoiceTaskDataset.init cfg mask_id path = Ok ds ->
             Permutation (concat path) (concat path') ->
             exists ds',
               MultiChoiceTaskDataset.init cfg mask_id path' = Ok ds'
               /\ MultiChoiceTaskDataset.is_single_token ds'
                  = MultiChoiceTaskDataset.is_single_token ds).
  { intros path path' ds H HP.
    pose proof (init_outcome cfg mask_id path) as Ho. rewrite H in Ho.
    destruct Ho as [Hacc Hflag].
    pose proof (init_outcome cfg mask_id path') as Ho'.
    destruct (MultiChoiceTaskDataset.init cfg mask_id path') as [ds'|e].
    - exists ds'. split; [reflexivity|]. destruct Ho' as [_ Hflag'].
      rewrite Hflag, Hflag'. symmetry. now apply forallb_permutation.
    - rewrite <- (forallb_permutation _ _ _ HP) in Ho'. congruence. }
  split; [reflexivity|]. split; [exact Hstep|]. split; [|split; [|split]].
  - intros self it samples self' H Hoff.
    rewrite (Hstep _ _ _ _ H), Hoff. reflexivity.
  - intros path ds H.
    pose proof (init_outcome cfg mask_id path) as Ho. rewrite H in Ho.
    destruct Ho as [_ ->]. split.
    + intros Hoff.
      destruct (forallb unit_target (concat path)) eqn:E; [discriminate|].
      clear Hoff. induction (concat path) as [|it l IH]; [discriminate|].
      cbn [forallb] in E. apply andb_false_iff in E. destruct E as [E|E].
      * exists it. split; [now left|exact E].
      * destruct (IH E) as (it' & Hin & Hit'). exists it'. split; [now right|exact Hit'].
    + intros (it & Hin & Hit).
      destruct (forallb unit_target (concat path)) eqn:E; [|reflexivity].
      rewrite forallb_forall in E. rewrite (E it Hin) in Hit. discriminate.
  - exact Hperm.
  - intros records ds H. apply (Hperm [records] [rev records] ds H).
    cbn [concat]. rewrite !app_nil_r. apply Permutation_rev.
Qed.

Lemma is_single_token_monotonic_witness :
  let cfg := {| max_seq_length := 16; max_gen_length := 0;
                generation_length := 1; use_task_mask := false;
                unidirectional := false; use_multitask_encoding := false |} in
  let one := {| MultiChoiceTaskDataset.inputs := [5; 6];
                MultiChoiceTaskDataset.item_choices := [[1]; [2]];
                MultiChoiceTaskDataset.item_label := 0 |} in
  let two := {| MultiChoiceTaskDataset.inputs := [5; 6];
                MultiChoiceTaskDataset.item_choices := [[1; 3]; [2]];
                MultiChoiceTaskDataset.item_label := 1 |} in
  exists ds ds',
    MultiChoiceTaskDataset.init cfg 0 [[one; two; one]] = Ok ds
    /\ MultiChoiceTaskDataset.init cfg 0 [rev [one; two; one]] = Ok ds'
    /\ MultiChoiceTaskDataset.is_single_token ds = false
    /\ MultiChoiceTaskDataset.is_single_token ds' = false.
Proof.
  intros cfg one two.
  destruct (is_single_token_monotonic cfg 0) as (_ & _ & _ & _ & _ & H).
  eexists. destruct (H [one; two; one] _ eq_refl) as (ds' & H1 & H2).
  exists ds'. split; [reflexivity|]. split; [exact H1|].
  split; [reflexivity|]. rewrite H2. reflexivity.
Defined.

(** ** The window index: binary search over running sums *)

(** The loop of [bisect_right] is over after [hi - lo] turns, on any list:
    further turns do not change what it returns. *)
Lemma bisect_loop_fuel (a : list Z) (x : Z) (fuel : nat) :
  forall lo hi, (hi - lo <= fuel)%nat ->
    Py.bisect_loop (S fuel) a x lo hi = Py.bisect_loop fuel a x lo hi.
Proof.
  induction fuel as [|fuel IH]; intros lo hi Hfuel.
  - cbn [Py.bisect_loop].
    destruct (lo <? hi)%nat eqn:E; [apply Nat.ltb_lt in E; lia|reflexivity].
  - change (Py.bisect_loop (S (S fuel)) a x lo hi)
      with (if (lo <? hi)%nat
            then if x <? nth ((lo + hi) / 2) a 0
                 then Py.bisect_loop (S fuel) a x lo ((lo + hi) / 2)
                 else Py.bisect_loop (S fuel) a x (S ((lo + hi) / 2)) hi
            else lo).
    change (Py.bisect_loop (S fuel) a x lo hi)
      with (if (lo <? hi)%nat
            then if x <? nth ((lo + hi) / 2) a 0
                 then Py.bisect_loop fuel a x lo ((lo + hi) / 2)
                 else Py.bisect_loop fuel a x (S ((lo + hi) / 2)) hi
            else lo).
    destruct (lo <? hi)%nat eqn:E; [|reflexivity].
    apply Nat.ltb_lt in E.
    pose proof (Nat.div_mod_eq (lo + hi) 2) as Hdm.
    pose proof (Nat.mod_upper_bound (lo + hi) 2 ltac:(lia)) as Hm.
    destruct (x <? nth ((lo + hi) / 2) a 0); apply IH; lia.
Qed.

(** On a non-decreasing list the loop of [bisect_right], run for at least
    [hi - lo] turns, ends at the first position whose entry exceeds [x]. *)
Lemma bisect_loop_spec (a : list Z) (x : Z) :
  nondecreasing a ->
  forall fuel lo hi,
    (hi - lo <= fuel)%nat -> (lo <= hi <= length a)%nat ->
    (forall i, (i < lo)%nat -> nth i a 0 <= x) ->
    (forall i, (hi <= i < length a)%nat -> x < nth i a 0) ->
    let r := Py.bisect_loop fuel a x lo hi in
    (r <= length a)%nat
    /\ (forall i, (i < r)%nat -> nth i a 0 <= x)
    /\ (forall i, (r <= i < length a)%nat -> x < nth i a 0).
Proof.
  intros Hsorted. induction fuel as [|fuel IH]; intros lo hi Hfuel Hb Hlo Hhi;
    cbn [Py.bisect_loop].
  - assert (lo = hi) by lia. subst hi. repeat split; [lia|exact Hlo|exact Hhi].
  - destruct (lo <? hi)%nat eqn:E.
    + apply Nat.ltb_lt in E.
      pose proof (Nat.div_mod_eq (lo + hi) 2) as Hdm.
      pose proof (Nat.mod_upper_bound (lo + hi) 2 ltac:(lia)) as Hm.
      set (mid := ((lo + hi) / 2)%nat) in *.
      assert (Hmid : (lo <= mid < hi)%nat) by lia.
      destruct (x <? nth mid a 0) eqn:Ex.
      * apply Z.ltb_lt in Ex. apply IH; [lia|lia|exact Hlo|].
        intros i Hi. pose proof (Hsorted mid i ltac:(lia)). lia.
      * apply Z.ltb_ge in Ex. apply IH; [lia|lia| |exact Hhi].
        intros i Hi. pose proof (Hsorted i mid ltac:(lia)). lia.
    + apply Nat.ltb_ge in E. assert (lo = hi) by lia. subst hi.
      repeat split; [lia|exact Hlo|exact Hhi].
Qed.

(** [bisect_right] finds the position [d] whose entry is the first above [x]. *)
Lemma bisect_right_unique (a : list Z) (x : Z) (d : nat) :
  nondecreasing a -> (d <= length a)%nat ->
  (forall i, (i < d)%nat -> nth i a 0 <= x) ->
  (forall i, (d <= i < length a)%nat -> x < nth i a 0) ->
  Py.bisect_right a x = Z.of_nat d.
Proof.
  intros Hsorted Hd Hlow Hhigh. unfold Py.bisect_right. f_equal.
  destruct (bisect_loop_spec a x Hsorted (length a) 0 (length a))
    as (Hr & Hrlow & Hrhigh); [lia|lia|intros i Hi; lia|intros i Hi; lia|].
  set (r := Py.bisect_loop _ _ _ _ _) in *.
  destruct (Nat.lt_trichotomy r d) as [Hlt|[Heq|Hgt]]; [|exact Heq|].
  - pose proof (Hlow r Hlt). pose proof (Hrhigh r ltac:(lia)). lia.
  - pose proof (Hrlow d Hgt). pose proof (Hhigh d ltac:(lia)). lia.
Qed.

Lemma accumulate_from_length (l : list Z) (acc : Z) :
  length (Py.accumulate_from acc l) = length l.
Proof.
  revert acc. induction l as [|x l IH]; intros acc; cbn [Py.accumulate_from length].
  - reflexivity.
  - now rewrite IH.
Qed.

(** The running sums: entry [d] is the sum of the first [d + 1] counts. *)
Lemma accumulate_from_nth (l : list Z) (acc : Z) (d : nat) :
  (d < length l)%nat ->
  nth d (Py.accumulate_from acc l) 0 = acc + Py.sum (firstn (S d) l).
Proof.
  revert acc d. induction l as [|x l IH]; intros acc d Hd; cbn [length] in Hd.
  - lia.
  - cbn [Py.accumulate_from]. destruct d as [|d].
    + cbn [nth firstn]. rewrite sum_cons. unfold Py.sum. cbn [fold_left]. lia.
    + cbn [nth]. rewrite IH by lia.
      change (firstn (S (S d)) (x :: l)) with (x :: firstn (S d) l).
      rewrite sum_cons. lia.
Qed.

(** Partial sums of counts that are all at least [c] grow by at least [c]
    with every further count. *)
Lemma partial_sums_grow (c : Z) (l : list Z) :
  Forall (fun n => c <= n) l ->
  forall i j, (i <= j <= length l)%nat ->
    Py.sum (firstn i l) + c * Z.of_nat (j - i) <= Py.sum (firstn j l).
Proof.
  induction 1 as [|x l Hx _ IH]; intros i j Hij; cbn [length] in Hij.
  - assert (i = 0 /\ j = 0)%nat as [-> ->] by lia. cbn. lia.
  - destruct j as [|j].
    + assert (i = 0)%nat by lia. subst i. cbn. lia.
    + cbn [firstn]. rewrite sum_cons. destruct i as [|i].
      * cbn [firstn]. specialize (IH 0%nat j ltac:(lia)).
        cbn [firstn] in IH. rewrite Nat.sub_0_r in *.
        change (Py.sum []) with 0 in *. lia.
      * cbn [firstn]. rewrite sum_cons. specialize (IH i j ltac:(lia)).
        replace (S j - S i)%nat with (j - i)%nat by lia. lia.
Qed.

Lemma sum_firstn_succ (l : list Z) (d : nat) :
  (d < length l)%nat ->
  Py.sum (firstn (S d) l) = Py.sum (firstn d l) + nth d l 0.
Proof.
  revert d. induction l as [|x l IH]; intros d Hd; cbn [length] in Hd; [lia|].
  destruct d as [|d].
  - cbn [firstn nth]. rewrite sum_cons. change (Py.sum []) with 0. lia.
  - change (firstn (S (S d)) (x :: l)) with (x :: firstn (S d) l).
    change (firstn (S d) (x :: l)) with (x :: firstn d l).
    rewrite !sum_cons, IH by lia. cbn [nth]. lia.
Qed.

Lemma getitem_nth_error {A : Type} (l : list A) (d : nat) (x : A) :
  nth_error l d = Some x -> Py.getitem l (Z.of_nat d) = Ok x.
Proof.
  intros H. unfold Py.getitem, Py.len.
  assert (d < length l)%nat by (apply nth_error_Some; congruence).
  destruct (Z.of_nat d <? 0) eqn:E; [lia|].
  rewrite E. cbn [orb].
  destruct (Z.of_nat (length l) <=? Z.of_nat d) eqn:E'; [lia|].
  now rewrite Nat2Z.id, H.
Qed.

Lemma getitem_past_end {A : Type} (l : list A) (d : nat) :
  (length l <= d)%nat -> Py.getitem l (Z.of_nat d) = Raise IndexError.
Proof.
  intros H. unfold Py.getitem, Py.len.
  destruct (Z.of_nat d <? 0) eqn:E; [lia|].
  rewrite E. cbn [orb].
  destruct (Z.of_nat (length l) <=? Z.of_nat d) eqn:E'; [reflexivity|lia].
Qed.

(** [l[:-1]] is [l] without its last entry. *)
Lemma slice_without_last {A : Type} (l : list A) :
  Py.slice l None (Some (-1)) = firstn (length l - 1) l.
Proof.
  unfold Py.slice, Py.clamp_index, Py.len. cbn [Z.ltb Z.compare Z.to_nat skipn].
  f_equal. lia.
Qed.

Section WindowIndex.

Variable num_sequences : list Z.
Hypothesis counts_nonneg : Forall (fun n => 0 <= n) num_sequences.

Let weights := fst (LanguageModelTaskDataset.index_of num_sequences).
Let left_weights := snd (LanguageModelTaskDataset.index_of num_sequences).

Lemma weights_length : length weights = length num_sequences.
Proof. apply accumulate_from_length. Qed.

Lemma weights_nth (d : nat) :
  (d < length num_sequences)%nat ->
  nth d weights 0 = windows_before num_sequences (S d).
Proof.
  intros Hd. unfold weights, LanguageModelTaskDataset.index_of, Py.accumulate.
  cbn [fst]. now rewrite accumulate_from_nth.
Qed.

Lemma left_weights_length :
  length left_weights = S (length num_sequences - 1).
Proof.
  unfold left_weights, LanguageModelTaskDataset.index_of. cbn [snd app length].
  rewrite slice_without_last, length_firstn.
  unfold Py.accumulate. rewrite accumulate_from_length. lia.
Qed.

Lemma left_weights_nth (d : nat) :
  (d < length num_sequences)%nat ->
  nth d left_weights 0 = windows_before num_sequences d.
Proof.
  intros Hd. unfold left_weights, LanguageModelTaskDataset.index_of.
  cbn [snd app]. rewrite slice_without_last. destruct d as [|d]; [reflexivity|].
  cbn [nth]. unfold Py.accumulate. rewrite accumulate_from_length, nth_firstn.
  destruct (d <? length num_sequences - 1)%nat eqn:E;
    [|apply Nat.ltb_ge in E; lia].
  rewrite accumulate_from_nth by lia. reflexivity.
Qed.

Lemma windows_before_mono (i j : nat) :
  (i <= j <= length num_sequences)%nat ->
  windows_before num_sequences i <= windows_before num_sequences j.
Proof.
  intros Hij. pose proof (partial_sums_grow 0 _ counts_nonneg i j Hij).
  unfold windows_before. lia.
Qed.

Lemma weights_nondecreasing : nondecreasing weights.
Proof.
  intros i j Hij. rewrite weights_length in Hij.
  rewrite !weights_nth by lia. apply windows_before_mono. lia.
Qed.

(** A flat index inside the range of document [d] is located there. *)
Lemma bisect_in_range (d : nat) (idx : Z) :
  (d < length num_sequences)%nat ->
  windows_before num_sequences d <= idx < windows_before num_sequences (S d) ->
  Py.bisect_right weights idx = Z.of_nat d.
Proof.
  intros Hd Hidx. apply bisect_right_unique.
  - exact weights_nondecreasing.
  - rewrite weights_length. lia.
  - intros i Hi. rewrite weights_nth by lia.
    pose proof (windows_before_mono (S i) d ltac:(lia)). lia.
  - intros i Hi. rewrite weights_length in Hi. rewrite weights_nth by lia.
    pose proof (windows_before_mono (S d) (S i) ltac:(lia)). lia.
Qed.

Lemma bisect_past_end (idx : Z) :
  windows_before num_sequences (length num_sequences) <= idx ->
  Py.bisect_right weights idx = Z.of_nat (length num_sequences).
Proof.
  intros Hidx. apply bisect_right_unique.
  - exact weights_nondecreasing.
  - rewrite weights_length. lia.
  - intros i Hi. rewrite weights_nth by lia.
    pose proof (windows_before_mono (S i) (length num_sequences) ltac:(lia)). lia.
  - intros i Hi. rewrite weights_length in Hi. lia.
Qed.

Lemma locate_in_range (cfg : config)
  (data : list LanguageModelTaskDataset.document) (d : nat) (idx : Z) :
  (d < length num_sequences)%nat ->
  windows_before num_sequences d <= idx < windows_before num_sequences (S d) ->
  let local := idx - windows_before num_sequences d in
  LanguageModelTaskDataset.locate cfg (indexed data num_sequences) idx
  = Ok {| LanguageModelTaskDataset.document_idx := Z.of_nat d;
          LanguageModelTaskDataset.local_idx := local;
          LanguageModelTaskDataset.start_idx := local * generation_length cfg;
          LanguageModelTaskDataset.end_idx :=
            local * generation_length cfg + max_seq_length cfg - 1 |}.
Proof.
  intros Hd Hidx local. unfold LanguageModelTaskDataset.locate, indexed.
  cbn [LanguageModelTaskDataset.weights LanguageModelTaskDataset.left_weights
       LanguageModelTaskDataset.attr bind].
  fold weights. fold left_weights.
  rewrite (bisect_in_range d idx Hd Hidx).
  rewrite (getitem_nth_error left_weights d (windows_before num_sequences d)).
  - reflexivity.
  - rewrite <- (left_weights_nth d Hd). apply nth_error_nth'.
    rewrite left_weights_length. lia.
Qed.

Lemma locate_past_end (cfg : config)
  (data : list LanguageModelTaskDataset.document) (idx : Z) :
  num_sequences <> [] ->
  windows_before num_sequences (length num_sequences) <= idx ->
  LanguageModelTaskDataset.locate cfg (indexed data num_sequences) idx
  = Raise IndexError.
Proof.
  intros Hne Hidx. unfold LanguageModelTaskDataset.locate, indexed.
  cbn [LanguageModelTaskDataset.weights LanguageModelTaskDataset.left_weights
       LanguageModelTaskDataset.attr bind].
  fold weights. fold left_weights.
  rewrite (bisect_past_end idx Hidx).
  rewrite getitem_past_end; [reflexivity|].
  rewrite left_weights_length. destruct num_sequences; [contradiction|].
  cbn [length]. lia.
Qed.

(** Every flat index below the total lies in the range of one document. *)
Lemma range_of_index (idx : Z) (k : nat) :
  (k <= length num_sequences)%nat ->
  0 <= idx < windows_before num_sequences k ->
  exists d, (d < k)%nat
    /\ windows_before num_sequences d <= idx < windows_before num_sequences (S d).
Proof.
  induction k as [|k IH]; intros Hk Hidx.
  - unfold windows_before in Hidx. cbn [firstn] in Hidx.
    change (Py.sum []) with 0 in Hidx. lia.
  - destruct (Z_lt_ge_dec idx (windows_before num_sequences k)) as [Hlt|Hge].
    + destruct IH as (d & Hd & Hr); [lia|lia|]. exists d. split; [lia|exact Hr].
    + exists k. split; [lia|lia].
Qed.

End WindowIndex.

(** ** C3: a flat index on a boundary of the running sums *)

(** X21.  The index arithmetic of [__getitem__] on an index built from
    several window counts by the two index lines of [process_single_file].
    With window counts [3, 2] the running sums are [3, 5] and the left
    boundaries [0, 3], and flat index 3 is located in document 1 at local
    index 0.  In general, for window counts that are all at least
    1: a flat index equal to the running sum at a document that has a
    successor is located in that successor at local index 0; the flat
    indices located in document [d] are exactly those from the number of
    windows before [d] up to, and without, that number plus the count of
    [d]; these ranges start at 0 and follow one another without gap or
    overlap; and a flat index from the total on, the last running sum
    included, is out of range. *)
Theorem locate_on_given_index (cfg : config) :
  (forall data,
      LanguageModelTaskDataset.index_of [3; 2] = ([3; 5], [0; 3])
      /\ LanguageModelTaskDataset.locate cfg (indexed data [3; 2]) 3
         = Ok {| LanguageModelTaskDataset.document_idx := 1;
                 LanguageModelTaskDataset.local_idx := 0;
                 LanguageModelTaskDataset.start_idx := 0;
                 LanguageModelTaskDataset.end_idx := max_seq_length cfg - 1 |})
  /\ (forall num_sequences data,
        Forall (fun n => 1 <= n) num_sequences ->
        (forall j, (S j < length num_sequences)%nat ->
           LanguageModelTaskDataset.locate cfg (indexed data num_sequences)
             (nth j (fst (LanguageModelTaskDataset.index_of num_sequences)) 0)
           = Ok {| LanguageModelTaskDataset.document_idx := Z.of_nat (S j);
                   LanguageModelTaskDataset.local_idx := 0;
                   LanguageModelTaskDataset.start_idx := 0;
                   LanguageModelTaskDataset.end_idx := max_seq_length cfg - 1 |})
        /\ (forall d idx, (d < length num_sequences)%nat ->
              windows_before num_sequences d <= idx
              < windows_before num_sequences d + nth d num_sequences 0 ->
              exists loc,
                LanguageModelTaskDataset.locate cfg (indexed data num_sequences) idx
                = Ok loc
                /\ LanguageModelTaskDataset.document_idx loc = Z.of_nat d
                /\ LanguageModelTaskDataset.local_idx loc
                   = idx - windows_before num_sequences d)
        /\ (forall d idx loc, (d < length num_sequences)%nat -> 0 <= idx ->
              LanguageModelTaskDataset.locate cfg (indexed data num_sequences) idx
              = Ok loc ->
              LanguageModelTaskDataset.document_idx loc = Z.of_nat d ->
              windows_before num_sequences d <= idx
              < windows_before num_sequences d + nth d num_sequences 0)
        /\ windows_before num_sequences 0 = 0
        /\ (forall d, (d < length num_sequences)%nat ->
              windows_before num_sequences (S d)
              = windows_before num_sequences d + nth d num_sequences 0)
        /\ (forall idx, num_sequences <> [] ->
              windows_before num_sequences (length num_sequences) <= idx ->
              LanguageModelTaskDataset.locate cfg (indexed data num_sequences) idx
              = Raise IndexError)).
Proof.
  split; [intros data; split; reflexivity|].
  intros counts data Hpos.
  assert (Hnonneg : Forall (fun n => 0 <= n) counts).
  { eapply Forall_impl; [|exact Hpos]. cbn beta. intros n Hn. lia. }
  assert (Hsucc : forall d, (d < length counts)%nat ->
            windows_before counts (S d)
            = windows_before counts d + nth d counts 0).
  { intros d Hd. apply sum_firstn_succ, Hd. }
  assert (Hcount : forall d, (d < length counts)%nat -> 1 <= nth d counts 0).
  { intros d Hd. rewrite Forall_forall in Hpos. apply Hpos, nth_In, Hd. }
  split; [|split; [|split; [|split; [reflexivity|split; [exact Hsucc|]]]]].
  - intros j Hj. rewrite weights_nth by lia.
    pose proof (Hsucc (S j) Hj) as Hnext. pose proof (Hcount (S j) Hj).
    rewrite (locate_in_range counts Hnonneg cfg data (S j)) by lia.
    rewrite Z.sub_diag. reflexivity.
  - intros d idx Hd Hidx. rewrite <- Hsucc in Hidx by exact Hd.
    eexists. split; [apply (locate_in_range counts Hnonneg cfg data d idx Hd Hidx)|].
    split; reflexivity.
  - intros d idx loc Hd Hidx Hloc Hdoc. rewrite <- Hsucc by exact Hd.
    destruct (Z_lt_ge_dec idx (windows_before counts (length counts)))
      as [Hin|Hout].
    + destruct (range_of_index counts idx (length counts))
        as (d' & Hd' & Hr); [lia|lia|].
      rewrite (locate_in_range counts Hnonneg cfg data d' idx Hd' Hr) in Hloc.
      injection Hloc as <-. cbn [LanguageModelTaskDataset.document_idx] in Hdoc.
      apply Nat2Z.inj in Hdoc. now subst d'.
    + rewrite (locate_past_end counts Hnonneg cfg data idx) in Hloc;
        [discriminate| |lia].
      destruct counts; [cbn [length] in Hd; lia|discriminate].
  - intros idx Hne Hidx. now apply locate_past_end.
Qed.

Lemma locate_on_given_index_witness :
  let cfg := {| max_seq_length := 5; max_gen_length := 0;
                generation_length := 2; use_task_mask := false;
                unidirectional := false; use_multitask_encoding := false |} in
  Forall (fun n => 1 <= n) [3; 2]
  /\ LanguageModelTaskDataset.locate cfg (indexed [] [3; 2]) 3
     = Ok {| LanguageModelTaskDataset.document_idx := 1;
             LanguageModelTaskDataset.local_idx := 0;
             LanguageModelTaskDataset.start_idx := 0;
             LanguageModelTaskDataset.end_idx := 4 |}.
Proof.
  intros cfg.
  assert (H : Forall (fun n => 1 <= n) [3; 2]).
  { repeat constructor; vm_compute; discriminate. }
  split; [exact H|].
  destruct (locate_on_given_index cfg) as [_ Hgen].
  destruct (Hgen [3; 2] [] H) as [Hb _].
  apply (Hb 0%nat). cbn [length]. lia.
Defined.

(** C3, through the constructor: two files whose documents have 3 and 2
    windows.  The running sums of the counts [3, 2] are [3, 5] with left
    boundaries [0, 3], but [process_single_file] starts its list of counts
    anew for every file, so the dataset ends with the running sums [2] and
    the left boundaries [0] of the second file alone.  On it flat index 3,
    the boundary between the two documents, is searched to position 1 of a
    one-entry list and item access raises [IndexError]; so do the flat
    indices 2 and 4, and the flat indices 0 and 1 are located in document 0
    and not in a document of two windows.  The same documents under the
    index of both counts put flat index 3 into document 1 at local index 0,
    which is the first window of the second file. *)
Lemma boundary_index_of_two_files :
  let cfg := {| max_seq_length := 5; max_gen_length := 0;
                generation_length := 2; use_task_mask := false;
                unidirectional := false; use_multitask_encoding := false |} in
  let f1 := {| LanguageModelTaskDataset.file_tokens := [10; 11; 12; 13; 14; 15; 16; 17];
               LanguageModelTaskDataset.file_words := 8 |} in
  let f2 := {| LanguageModelTaskDataset.file_tokens := [20; 21; 22; 23; 24; 25];
               LanguageModelTaskDataset.file_words := 6 |} in
  exists ds,
    LanguageModelTaskDataset.init cfg [f1; f2] = Ok ds
    /\ map LanguageModelTaskDataset.num_sequences
         (LanguageModelTaskDataset.data ds) = [3; 2]
    /\ LanguageModelTaskDataset.index_of [3; 2] = ([3; 5], [0; 3])
    /\ (LanguageModelTaskDataset.weights ds,
        LanguageModelTaskDataset.left_weights ds) = (Some [2], Some [0])
    /\ Py.bisect_right [2] 3 = 1
    /\ LanguageModelTaskDataset.locate cfg ds 3 = Raise IndexError
    /\ LanguageModelTaskDataset.window cfg ds 3 = Raise IndexError
    /\ (forall build,
          LanguageModelTaskDataset.getitem build cfg ds 3 = Raise IndexError)
    /\ LanguageModelTaskDataset.window cfg ds 2 = Raise IndexError
    /\ LanguageModelTaskDataset.window cfg ds 4 = Raise IndexError
    /\ LanguageModelTaskDataset.window cfg ds 0 = Ok ([10; 11; 12; 13], true)
    /\ LanguageModelTaskDataset.window cfg ds 1 = Ok ([12; 13; 14; 15], false)
    /\ LanguageModelTaskDataset.locate cfg
         (indexed (LanguageModelTaskDataset.data ds) [3; 2]) 3
       = Ok {| LanguageModelTaskDataset.document_idx := 1;
               LanguageModelTaskDataset.local_idx := 0;
               LanguageModelTaskDataset.start_idx := 0;
               LanguageModelTaskDataset.end_idx := 4 |}
    /\ LanguageModelTaskDataset.window cfg
         (indexed (LanguageModelTaskDataset.data ds) [3; 2]) 3
       = Ok ([20; 21; 22; 23], true).
Proof.
  intros cfg f1 f2. eexists. split; [reflexivity|].
  repeat (split; [reflexivity|]). reflexivity.
Qed.

(** ** C2: the windows of one document *)

(** [math.ceil(x / g)] for a positive [g]: the least [q] with [x <= q * g]. *)
Lemma ceil_div_spec (x g : Z) :
  0 < g ->
  exists q, Py.ceil_div x g = Ok q /\ x <= q * g < x + g.
Proof.
  intros Hg. unfold Py.ceil_div.
  destruct (g =? 0) eqn:E; [lia|].
  eexists. split; [reflexivity|].
  pose proof (Z.div_mod (- x) g ltac:(lia)).
  pose proof (Z.mod_pos_bound (- x) g Hg). lia.
Qed.

(** A position inside both the bounds of a slice and the list is found in
    the slice at its offset from the start. *)
Lemma slice_nth_error {A : Type} (l : list A) (a b t : Z) :
  0 <= a -> a <= t < b -> t < Py.len l ->
  nth_error (Py.slice l (Some a) (Some b)) (Z.to_nat (t - a))
  = nth_error l (Z.to_nat t).
Proof.
  intros Ha Ht Hl. unfold Py.slice, Py.clamp_index.
  destruct (a <? 0) eqn:Ea; [lia|]. destruct (b <? 0) eqn:Eb; [lia|].
  rewrite nth_error_firstn, nth_error_skipn.
  rewrite (Z.min_l a) by lia.
  destruct (Z.to_nat (t - a) <? Z.to_nat (Z.min b (Py.len l) - a))%nat eqn:E.
  - f_equal. lia.
  - apply Nat.ltb_ge in E. lia.
Qed.

Lemma single_file_dataset (cfg : config) (f : LanguageModelTaskDataset.file) (n : Z) :
  LanguageModelTaskDataset.count_sequences cfg
    (LanguageModelTaskDataset.file_tokens f) = Ok n ->
  LanguageModelTaskDataset.init cfg [f]
  = Ok (indexed
          [ {| LanguageModelTaskDataset.raw_text :=
                 LanguageModelTaskDataset.file_tokens f;
               LanguageModelTaskDataset.num_original_tokens :=
                 LanguageModelTaskDataset.file_words f;
               LanguageModelTaskDataset.num_sequences := n |} ]
          [n]).
Proof.
  intros Hn. unfold LanguageModelTaskDataset.init. cbn [for_each].
  unfold LanguageModelTaskDataset.process_single_file. rewrite Hn.
  reflexivity.
Qed.

(** The number of windows of a document, for a positive stride. *)
Lemma count_sequences_spec (cfg : config) (tokens : list Z) :
  0 < generation_length cfg ->
  exists n,
    LanguageModelTaskDataset.count_sequences cfg tokens = Ok n
    /\ 1 <= n
    /\ Py.len tokens - (max_seq_length cfg - 1) <= (n - 1) * generation_length cfg
    /\ (1 < n ->
        (n - 2) * generation_length cfg
        < Py.len tokens - (max_seq_length cfg - 1)).
Proof.
  intros Hg. unfold LanguageModelTaskDataset.count_sequences.
  destruct (ceil_div_spec
              (Z.max (Py.len tokens - (max_seq_length cfg - 1)) 0)
              (generation_length cfg) Hg) as (q & -> & Hq).
  cbn [bind]. eexists. split; [reflexivity|]. nia.
Qed.

(** C2, at a concrete document: with [max_seq_length = 3] and
    [generation_length = 5] a document of 10 tokens gets 3 windows with the
    ranges [0, 2), [5, 7) and [10, 12), none of which holds position 2. *)
Lemma windows_cover_fails :
  let cfg := {| max_seq_length := 3; max_gen_length := 0;
                generation_length := 5; use_task_mask := false;
                unidirectional := false; use_multitask_encoding := false |} in
  let f := {| LanguageModelTaskDataset.file_tokens := repeat 7 10;
              LanguageModelTaskDataset.file_words := 10 |} in
  ~ windows_cover cfg f.
Proof.
  intros cfg f H.
  destruct (H _ 3 eq_refl eq_refl 2) as (i & loc & Hi & Hloc & Hr).
  - vm_compute. split; [discriminate|reflexivity].
  - assert (Hcase : i = 0 \/ i = 1 \/ i = 2) by lia.
    destruct Hcase as [-> | [-> | ->]]; vm_compute in Hloc;
      injection Hloc as <-;
      cbn [LanguageModelTaskDataset.start_idx LanguageModelTaskDataset.end_idx] in Hr;
      lia.
Qed.

(** C2, as the code has it.  For a stride [generation_length] between 1 and
    the window size [max_seq_length - 1], the dataset built from one
    document of [L] tokens has the number of windows of the formula; window
    [i] is located in document 0 with the range
    [[i * generation_length, i * generation_length + max_seq_length - 1)]
    and carries the tokens of that slice; every token position below [L]
    lies in the range of some window, whose slice holds the token of that
    position; and two consecutive windows share exactly the
    [max_seq_length - 1 - generation_length] positions from the start of the
    later one on, all of which are positions of the document. *)
Theorem windows_cover_document (cfg : config) (f : LanguageModelTaskDataset.file) :
  1 <= generation_length cfg <= max_seq_length cfg - 1 ->
  let tokens := LanguageModelTaskDataset.file_tokens f in
  let G := generation_length cfg in
  let W := max_seq_length cfg - 1 in
  exists ds n,
    LanguageModelTaskDataset.init cfg [f] = Ok ds
    /\ LanguageModelTaskDataset.len ds = Ok n
    /\ n = Z.max (- (- Z.max (Py.len tokens - W) 0 / G) + 1) 1
    /\ (forall i, 0 <= i < n ->
          LanguageModelTaskDataset.locate cfg ds i
          = Ok {| LanguageModelTaskDataset.document_idx := 0;
                  LanguageModelTaskDataset.local_idx := i;
                  LanguageModelTaskDataset.start_idx := i * G;
                  LanguageModelTaskDataset.end_idx := i * G + max_seq_length cfg - 1 |}
          /\ LanguageModelTaskDataset.window cfg ds i
             = Ok (Py.slice tokens (Some (i * G))
                     (Some (i * G + max_seq_length cfg - 1)),
                   i =? 0))
    /\ (forall t, 0 <= t < Py.len tokens ->
          exists i, 0 <= i < n
            /\ i * G <= t < i * G + W
            /\ nth_error
                 (Py.slice tokens (Some (i * G))
                    (Some (i * G + max_seq_length cfg - 1)))
                 (Z.to_nat (t - i * G))
               = nth_error tokens (Z.to_nat t))
    /\ (forall i, 0 <= i -> i + 1 < n ->
          i * G + W < Py.len tokens
          /\ forall t,
               (i * G <= t < i * G + W /\ (i + 1) * G <= t < (i + 1) * G + W)
               <-> (i + 1) * G <= t < (i + 1) * G + (W - G)).
Proof.
  intros HG tokens G W.
  destruct (count_sequences_spec cfg tokens ltac:(lia))
    as (n & Hn & Hn1 & Hlast & Hinner).
  fold G in Hlast, Hinner. fold W in Hlast, Hinner.
  exists (indexed
            [ {| LanguageModelTaskDataset.raw_text := tokens;
                 LanguageModelTaskDataset.num_original_tokens :=
                   LanguageModelTaskDataset.file_words f;
                 LanguageModelTaskDataset.num_sequences := n |} ] [n]), n.
  split; [apply single_file_dataset, Hn|]. split; [reflexivity|].
  assert (Hloc : forall i, 0 <= i < n ->
            LanguageModelTaskDataset.locate cfg (indexed
              [ {| LanguageModelTaskDataset.raw_text := tokens;
                   LanguageModelTaskDataset.num_original_tokens :=
                     LanguageModelTaskDataset.file_words f;
                   LanguageModelTaskDataset.num_sequences := n |} ] [n]) i
            = Ok {| LanguageModelTaskDataset.document_idx := 0;
                    LanguageModelTaskDataset.local_idx := i;
                    LanguageModelTaskDataset.start_idx := i * G;
                    LanguageModelTaskDataset.end_idx :=
                      i * G + max_seq_length cfg - 1 |}).
  { intros i Hi.
    rewrite (locate_in_range [n] ltac:(repeat constructor; lia) cfg _ 0%nat i).
    - unfold windows_before. cbn [firstn]. change (Py.sum []) with 0.
      rewrite Z.sub_0_r. reflexivity.
    - cbn [length]. lia.
    - unfold windows_before. cbn [firstn]. rewrite sum_cons.
      change (Py.sum []) with 0. lia. }
  split; [|split; [|split]].
  - unfold LanguageModelTaskDataset.count_sequences, Py.ceil_div in Hn.
    destruct (generation_length cfg =? 0); [discriminate Hn|].
    cbn [bind] in Hn. injection Hn as <-. reflexivity.
  - intros i Hi. split; [exact (Hloc i Hi)|].
    unfold LanguageModelTaskDataset.window. rewrite (Hloc i Hi). reflexivity.
  - intros t Ht.
    assert (Hdiv : t / G * G <= t < t / G * G + G).
    { pose proof (Z.div_mod t G ltac:(lia)).
      pose proof (Z.mod_pos_bound t G ltac:(lia)). lia. }
    assert (0 <= t / G) by (apply Z.div_pos; lia).
    destruct (Z_le_gt_dec (t / G) (n - 1)) as [Hle|Hgt].
    + exists (t / G). split; [lia|]. split; [unfold W in *; lia|].
      apply slice_nth_error; [nia|unfold W in *; lia|lia].
    + exists (n - 1).
      assert ((n - 1) * G <= t) by nia.
      split; [lia|]. split; [lia|].
      apply slice_nth_error; [nia|unfold W in *; lia|lia].
  - intros i Hi0 Hi1. split; [nia|]. intros t. nia.
Qed.

Lemma windows_cover_document_witness :
  let cfg := {| max_seq_length := 5; max_gen_length := 0;
                generation_length := 2; use_task_mask := false;
                unidirectional := false; use_multitask_encoding := false |} in
  let f := {| LanguageModelTaskDataset.file_tokens := map Z.of_nat (seq 0 8);
              LanguageModelTaskDataset.file_words := 8 |} in
  1 <= generation_length cfg <= max_seq_length cfg - 1
  /\ exists ds,
       LanguageModelTaskDataset.init cfg [f] = Ok ds
       /\ LanguageModelTaskDataset.len ds = Ok 3
       /\ LanguageModelTaskDataset.window cfg ds 2 = Ok ([4; 5; 6; 7], false).
Proof.
  intros cfg f.
  assert (H : 1 <= generation_length cfg <= max_seq_length cfg - 1).
  { split; vm_compute; discriminate. }
  split; [exact H|].
  destruct (windows_cover_document cfg f H) as (ds & n & H1 & H2 & H3 & H4 & _).
  vm_compute in H3. subst n.
  exists ds. split; [exact H1|]. split; [exact H2|].
  destruct (H4 2) as [_ Hw]; [split; vm_compute; [discriminate|reflexivity]|].
  rewrite Hw. reflexivity.
Defined.

(** ** C4: the length of the language-model dataset *)

(** For a dataset built from one file the length is the last running sum,
    the number of windows of its one document. *)
Lemma len_of_single_file (cfg : config) (f : LanguageModelTaskDataset.file) :
  generation_length cfg <> 0 ->
  (exists ds, LanguageModelTaskDataset.init cfg [f] = Ok ds)
  /\ len_is_total cfg [f].
Proof.
  intros HG.
  assert (Hn : exists n,
             LanguageModelTaskDataset.count_sequences cfg
               (LanguageModelTaskDataset.file_tokens f) = Ok n).
  { unfold LanguageModelTaskDataset.count_sequences, Py.ceil_div.
    destruct (generation_length cfg =? 0) eqn:E; [lia|].
    cbn [bind]. eexists. reflexivity. }
  destruct Hn as [n Hn]. pose proof (single_file_dataset cfg f n Hn) as Hinit.
  split; [eexists; exact Hinit|].
  intros ds Hds. rewrite Hinit in Hds. injection Hds as <-.
  exists [n]. repeat split.
Qed.

(** C4, at a concrete dataset: two files whose documents have 3 and 2
    windows.  Processing the second file rebuilds the index from its own
    count alone, so the running sums end as [2] next to two documents; the
    length is the count 3 of the first document, which is neither the last
    running sum nor the total of 5 windows, and flat index 3 cannot be
    located. *)
Lemma len_of_two_files :
  let cfg := {| max_seq_length := 5; max_gen_length := 0;
                generation_length := 2; use_task_mask := false;
                unidirectional := false; use_multitask_encoding := false |} in
  let f1 := {| LanguageModelTaskDataset.file_tokens := repeat 7 8;
               LanguageModelTaskDataset.file_words := 8 |} in
  let f2 := {| LanguageModelTaskDataset.file_tokens := repeat 9 6;
               LanguageModelTaskDataset.file_words := 6 |} in
  exists ds,
    LanguageModelTaskDataset.init cfg [f1; f2] = Ok ds
    /\ map LanguageModelTaskDataset.num_sequences
         (LanguageModelTaskDataset.data ds) = [3; 2]
    /\ LanguageModelTaskDataset.weights ds = Some [2]
    /\ LanguageModelTaskDataset.left_weights ds = Some [0]
    /\ LanguageModelTaskDataset.len ds = Ok 3
    /\ LanguageModelTaskDataset.locate cfg ds 3 = Raise IndexError
    /\ ~ len_is_total cfg [f1; f2].
Proof.
  intros cfg f1 f2. eexists. split; [reflexivity|].
  repeat (split; [reflexivity|]).
  intros H. destruct (H _ eq_refl) as (w & Hw & Hlen & _).
  cbn in Hw. injection Hw as <-. discriminate Hlen.
Qed.

(** ** The float quotient against the exact one *)

(** One rounding step at a scale [2^s] finer than half the divisor: the
    ceiling of the rounded significand over [2^s] is the ceiling of [a / b]. *)
Lemma rounded_quotient_ceil (a b s : Z) :
  0 < a -> 0 < b -> 0 <= s -> b < 2 ^ (s + 1) ->
  let N := a * 2 ^ s in
  let m0 := N / b in
  let rem := N mod b in
  let m := if (b <? 2 * rem) || ((b =? 2 * rem) && Z.odd m0) then m0 + 1 else m0 in
  - ((- m) / 2 ^ s) = - ((- a) / b) /\ 0 <= m <= a * 2 ^ s.
Proof.
  intros Ha Hb Hs Hfine N m0 rem m.
  assert (HP : 0 < 2 ^ s) by (apply Z.pow_pos_nonneg; lia).
  assert (H2P : 2 ^ (s + 1) = 2 * 2 ^ s).
  { replace (s + 1) with (Z.succ s) by lia. now rewrite Z.pow_succ_r. }
  set (P := 2 ^ s) in *.
  pose proof (Z.div_mod N b ltac:(lia)) as Hdm. fold m0 rem in Hdm.
  pose proof (Z.mod_pos_bound N b Hb) as Hrem. fold rem in Hrem.
  set (C := - ((- a) / b)).
  assert (HC : (C - 1) * b < a <= C * b).
  { unfold C. pose proof (Z.div_mod (- a) b ltac:(lia)).
    pose proof (Z.mod_pos_bound (- a) b Hb). lia. }
  assert (Hm0 : 0 <= m0) by (apply Z.div_pos; unfold N; nia).
  assert (Hm : (C - 1) * P < m <= C * P /\ 0 <= m <= N).
  { unfold m. unfold N in *.
    destruct ((b <? 2 * rem) || ((b =? 2 * rem) && Z.odd m0)) eqn:Eup.
    - assert (Hr : b <= 2 * rem).
      { apply orb_true_iff in Eup. destruct Eup as [E|E].
        - apply Z.ltb_lt in E. lia.
        - apply andb_true_iff in E. destruct E as [E _].
          apply Z.eqb_eq in E. lia. }
      split; [split|]; nia.
    - assert (Hr : 2 * rem <= b).
      { apply orb_false_iff in Eup. destruct Eup as [E _].
        apply Z.ltb_ge in E. exact E. }
      split; [split|]; nia. }
  destruct Hm as [Hm HmN]. split; [|exact HmN].
  assert (Hq : (- m) / P = - C); [|lia].
  symmetry. apply (Z.div_unique_pos (- m) P (- C) (C * P - m)); lia.
Qed.

Lemma rounded_quotient_bounds (N D : Z) :
  0 <= N -> 0 < D ->
  let m0 := N / D in
  let rem := N mod D in
  let m := if (D <? 2 * rem) || ((D =? 2 * rem) && Z.odd m0) then m0 + 1 else m0 in
  0 <= m <= N + 1.
Proof.
  intros HN HD m0 rem m.
  assert (0 <= m0 <= N).
  { unfold m0. split; [apply Z.div_pos; lia|].
    apply Z.div_le_upper_bound; [lia|nia]. }
  unfold m. destruct (_ || _); lia.
Qed.

(** Below [2^53] the nearest float has an exponent that is not positive,
    and for a divisor below [2^1024] its ceiling is that of the quotient. *)
Lemma nearest_of_small_dividend (n d : Z) :
  0 < n < 2 ^ 53 -> 0 < d ->
  exists m e,
    PyFloat.nearest n d = (m, e)
    /\ e <= 0 /\ 0 <= m <= n * 2 ^ (- e) + 1
    /\ (d < 2 ^ 1024 -> - ((- m) / 2 ^ (- e)) = - ((- n) / d)).
Proof.
  intros Hn Hd. unfold PyFloat.nearest.
  destruct (n =? 0) eqn:E0; [lia|]. cbv zeta.
  pose proof (Z.log2_nonneg d) as Hlb0.
  assert (Hla : Z.log2 n < 53) by (apply Z.log2_lt_pow2; lia).
  pose proof (Z.log2_spec d Hd) as Hlb.
  set (la := Z.log2 n) in *. set (lb := Z.log2 d) in *.
  match goal with |- context [Z.max ?x (-1074)] => set (e' := x) end.
  assert (He' : e' <= la - lb - 52).
  { unfold e'. destruct (_ <? 2 ^ 53); lia. }
  assert (He'' : la - lb - 53 <= e').
  { unfold e'. destruct (_ <? 2 ^ 53); lia. }
  set (e := Z.max e' (-1074)).
  assert (He : e <= 0) by lia.
  rewrite (Z.max_l 0 e) by lia. rewrite (Z.max_r 0 (- e)) by lia.
  change (2 ^ 0) with 1. rewrite Z.mul_1_r.
  eexists _, e. split; [reflexivity|]. split; [exact He|].
  assert (HP : 0 < 2 ^ (- e)) by (apply Z.pow_pos_nonneg; lia).
  split.
  - apply rounded_quotient_bounds; nia.
  - intros Hdmax.
    assert (Hlb1 : lb < 1024).
    { apply Z.log2_lt_pow2; [lia|]. exact Hdmax. }
    apply (rounded_quotient_ceil n d (- e)); [lia|lia|lia|].
    apply Z.lt_le_trans with (2 ^ Z.succ lb); [apply Hlb|].
    apply Z.pow_le_mono_r; lia.
Qed.

(** [math.ceil(a / b)] on floats is the exact ceiling of the quotient for a
    dividend in [[0, 2^53)] and a divisor in [(0, 2^1024)]. *)
Lemma ceil_div_is_float_ceil (a b : Z) :
  0 <= a < 2 ^ 53 -> 0 < b < 2 ^ 1024 ->
  PyFloat.ceil_true_div a b = Py.ceil_div a b.
Proof.
  intros Ha Hb. unfold PyFloat.ceil_true_div, PyFloat.true_div, Py.ceil_div.
  destruct (b =? 0) eqn:Eb; [lia|].
  rewrite (Z.abs_eq a), (Z.abs_eq b) by lia.
  assert (Hsa : (a <? 0) = false) by (apply Z.ltb_ge; lia).
  assert (Hsb : (b <? 0) = false) by (apply Z.ltb_ge; lia).
  rewrite Hsa, Hsb. cbn [xorb].
  destruct (Z.eq_dec a 0) as [->|Hnz].
  - unfold PyFloat.nearest. cbn [Z.eqb]. change (2 ^ 0) with 1.
    rewrite Z.mul_0_l.
    destruct (2 ^ 1024 <=? 0) eqn:E; [apply Z.leb_le in E; lia|].
    cbn [Z.leb Z.compare andb bind]. unfold PyFloat.ceil.
    cbn [PyFloat.negative PyFloat.mantissa PyFloat.exponent Z.leb Z.compare].
    change (2 ^ 0) with 1. cbn [Z.opp]. now rewrite Z.div_0_l by lia.
  - destruct (nearest_of_small_dividend a b ltac:(lia) ltac:(lia))
      as (m & e & -> & He & Hm & Hceil).
    specialize (Hceil ltac:(lia)).
    assert (HP : 0 < 2 ^ (- e)) by (apply Z.pow_pos_nonneg; lia).
    assert (Hno : ((0 <=? e) && (2 ^ 1024 <=? m * 2 ^ e)) = false).
    { destruct (0 <=? e) eqn:E0; [|reflexivity]. apply Z.leb_le in E0.
      assert (e = 0) by lia. subst e. change (2 ^ 0) with 1 in *.
      change (2 ^ (- 0)) with 1 in *.
      cbn [andb]. apply Z.leb_gt.
      assert (2 ^ 53 < 2 ^ 1024) by (apply Z.pow_lt_mono_r; lia). lia. }
    rewrite Hno. cbn [bind]. f_equal. unfold PyFloat.ceil.
    cbn [PyFloat.negative PyFloat.mantissa PyFloat.exponent].
    destruct (0 <=? e) eqn:E0; [|exact Hceil].
    apply Z.leb_le in E0. assert (e = 0) by lia. subst e.
    change (2 ^ 0) with 1. change (2 ^ (- 0)) with 1 in Hceil.
    rewrite Z.div_1_r in Hceil. lia.
Qed.

(** With a negative divisor and a dividend in [[0, 2^53)] the float quotient
    exists and its ceiling is not positive. *)
Lemma float_ceil_negative_divisor (a b : Z) :
  0 <= a < 2 ^ 53 -> b < 0 ->
  exists q, PyFloat.ceil_true_div a b = Ok q /\ q <= 0.
Proof.
  intros Ha Hb. unfold PyFloat.ceil_true_div, PyFloat.true_div.
  destruct (b =? 0) eqn:Eb; [lia|].
  rewrite (Z.abs_eq a) by lia.
  assert (Hsa : (a <? 0) = false) by (apply Z.ltb_ge; lia).
  assert (Hsb : (b <? 0) = true) by (apply Z.ltb_lt; lia).
  rewrite Hsa, Hsb. cbn [xorb].
  assert (Hnear : exists m e, PyFloat.nearest a (Z.abs b) = (m, e)
                    /\ e <= 0 /\ 0 <= m <= a * 2 ^ (- e) + 1).
  { destruct (Z.eq_dec a 0) as [->|Hnz].
    - exists 0, 0. split; [reflexivity|]. cbn. lia.
    - destruct (nearest_of_small_dividend a (Z.abs b) ltac:(lia) ltac:(lia))
        as (m & e & H1 & H2 & H3 & _).
      exists m, e. repeat split; [exact H1|exact H2|apply H3..]. }
  destruct Hnear as (m & e & -> & He & Hm).
  assert (HP : 0 < 2 ^ (- e)) by (apply Z.pow_pos_nonneg; lia).
  assert (Hno : ((0 <=? e) && (2 ^ 1024 <=? m * 2 ^ e)) = false).
  { destruct (0 <=? e) eqn:E0; [|reflexivity]. apply Z.leb_le in E0.
    assert (e = 0) by lia. subst e. change (2 ^ 0) with 1 in *.
    change (2 ^ (- 0)) with 1 in *.
    cbn [andb]. apply Z.leb_gt.
    assert (2 ^ 53 < 2 ^ 1024) by (apply Z.pow_lt_mono_r; lia). lia. }
  rewrite Hno. cbn [bind]. eexists. split; [reflexivity|].
  unfold PyFloat.ceil.
  cbn [PyFloat.negative PyFloat.mantissa PyFloat.exponent].
  rewrite Z.opp_involutive.
  destruct (0 <=? e).
  - assert (0 <= 2 ^ e) by (apply Z.pow_nonneg; lia). nia.
  - assert (0 <= m / 2 ^ (- e)) by (apply Z.div_pos; lia). lia.
Qed.

(** The window count with the rounded quotient is the count with the exact
    one, for a document that exceeds one window by fewer than [2^53] tokens
    and a stride below [2^1024]. *)
Lemma count_sequences_float_eq (cfg : config) (tokens : list Z) :
  Py.len tokens - (max_seq_length cfg - 1) < 2 ^ 53 ->
  generation_length cfg < 2 ^ 1024 ->
  count_sequences_float cfg tokens
  = LanguageModelTaskDataset.count_sequences cfg tokens.
Proof.
  intros Hlen HG.
  unfold count_sequences_float, LanguageModelTaskDataset.count_sequences.
  set (G := generation_length cfg) in *.
  set (a := Z.max (Py.len tokens - (max_seq_length cfg - 1)) 0).
  assert (Ha : 0 <= a < 2 ^ 53) by (unfold a; lia).
  destruct (Z.lt_trichotomy G 0) as [Hlt|[Heq|Hgt]].
  - destruct (float_ceil_negative_divisor a G Ha Hlt) as (q & -> & Hq).
    unfold Py.ceil_div. destruct (G =? 0) eqn:E; [lia|].
    cbn [bind]. f_equal.
    assert (0 <= - a / G); [|lia].
    rewrite <- (Z.opp_involutive G), Z.div_opp_opp by lia.
    apply Z.div_pos; lia.
  - rewrite Heq. reflexivity.
  - now rewrite (ceil_div_is_float_ceil a G Ha (conj Hgt HG)).
Qed.

Lemma for_each_ext {St X : Type} (body body' : St -> X -> result St)
  (xs : list X) :
  (forall st x, In x xs -> body st x = body' st x) ->
  forall st, for_each body xs st = for_each body' xs st.
Proof.
  induction xs as [|x xs IH]; intros H st; cbn [for_each]; [reflexivity|].
  rewrite (H st x) by now left.
  destruct (body' st x) as [st'|e]; cbn [bind]; [|reflexivity].
  apply IH. intros st0 y Hy. apply H. now right.
Qed.

(** Outside that range the rounding shows: with [max_seq_length = 3], a
    stride of [10^400] and a document of 6 tokens the quotient [4 / 10^400]
    is rounded to [0.0], so Python counts one window where the exact
    quotient gives two. *)
Lemma count_sequences_float_large_stride :
  let cfg := {| max_seq_length := 3; max_gen_length := 0;
                generation_length := 10 ^ 400; use_task_mask := false;
                unidirectional := false; use_multitask_encoding := false |} in
  count_sequences_float cfg [1; 2; 3; 4; 5; 6] = Ok 1
  /\ LanguageModelTaskDataset.count_sequences cfg [1; 2; 3; 4; 5; 6] = Ok 2.
Proof.
  intros cfg. split; vm_compute; reflexivity.
Qed.

(** * Further properties of the module *)

(** ** [pad_batch]: errors, the empty pad, padding twice *)

Lemma pad_batch_raises (tokens : list Z) (position_ids mask : ndarray Z) (target : Z) :
  target < Py.len tokens ->
  pad_batch tokens position_ids mask target = Raise ValueError.
Proof.
  intros Hlt. unfold pad_batch, Np.pad.
  destruct (target - Py.len tokens <? 0) eqn:E; [reflexivity|lia].
Qed.

(** X1.  [pad_batch] returns exactly when the pad target is not below the
    number of tokens; with a smaller target it raises [ValueError] (the
    negative pad width is refused), and it raises nothing else. *)
Theorem pad_batch_returns_iff
  (tokens : list Z) (position_ids attention_mask : ndarray Z) (target : Z) :
  ((exists r, pad_batch tokens position_ids attention_mask target = Ok r)
   <-> Py.len tokens <= target)
  /\ (pad_batch tokens position_ids attention_mask target = Raise ValueError
      <-> target < Py.len tokens)
  /\ (forall e, pad_batch tokens position_ids attention_mask target = Raise e ->
                e = ValueError).
Proof.
  destruct (Z_le_gt_dec (Py.len tokens) target) as [Hle|Hgt].
  - rewrite (pad_batch_ok _ position_ids attention_mask _ Hle).
    split; [|split].
    + split; [intros _; exact Hle|intros _; eexists; reflexivity].
    + split; [discriminate|lia].
    + discriminate.
  - rewrite (pad_batch_raises tokens position_ids attention_mask target) by lia.
    split; [|split].
    + split; [intros [r Hr]; discriminate Hr|lia].
    + split; [lia|reflexivity].
    + intros e He. now injection He as <-.
Qed.

Lemma position_slots_nonempty (r : list Z) (k : nat) :
  r <> [] -> position_slots r k = k.
Proof.
  destruct r as [|a r]; [contradiction|]. intros _.
  unfold position_slots. cbn [length]. rewrite Nat.min_l by lia. lia.
Qed.

Lemma padded_position_ids_zero (pos : ndarray Z) : padded_position_ids pos 0 = pos.
Proof.
  destruct pos as [v|m]; cbn [padded_position_ids]; unfold position_slots;
    rewrite ?Nat.mul_0_r.
  - cbn [repeat]. now rewrite app_nil_r.
  - f_equal. rewrite <- (map_id m) at 2. apply map_ext. intros r.
    rewrite Nat.mul_0_r. cbn [repeat]. apply app_nil_r.
Qed.

Lemma padded_attention_mask_zero (mask : ndarray Z) :
  padded_attention_mask mask 0 = mask.
Proof.
  destruct mask as [v|m]; cbn [padded_attention_mask repeat].
  - now rewrite app_nil_r.
  - rewrite app_nil_r. f_equal. rewrite <- (map_id m) at 2.
    apply map_ext. intros r. apply app_nil_r.
Qed.

(** X2.  Padding an item to its own length changes nothing: tokens,
    position ids and attention mask come back as they were given. *)
Theorem pad_batch_to_own_length
  (tokens : list Z) (position_ids attention_mask : ndarray Z) :
  pad_batch tokens position_ids attention_mask (Py.len tokens)
  = Ok (tokens, position_ids, attention_mask).
Proof.
  rewrite pad_batch_ok by lia. rewrite Z.sub_diag. cbn [Z.to_nat repeat].
  now rewrite app_nil_r, padded_position_ids_zero, padded_attention_mask_zero.
Qed.

Lemma position_row_twice (r : list Z) (k1 k2 : nat) :
  (r ++ repeat 0 (position_slots r k1))
  ++ repeat 0 (position_slots (r ++ repeat 0 (position_slots r k1)) k2)
  = r ++ repeat 0 (position_slots r (k1 + k2)).
Proof.
  destruct r as [|a r].
  - reflexivity.
  - rewrite !position_slots_nonempty by discriminate.
    now rewrite <- app_assoc, <- repeat_app.
Qed.

Lemma padded_position_ids_twice (pos : ndarray Z) (k1 k2 : nat) :
  padded_position_ids (padded_position_ids pos k1) k2
  = padded_position_ids pos (k1 + k2).
Proof.
  destruct pos as [v|m]; cbn [padded_position_ids].
  - now rewrite position_row_twice.
  - rewrite map_map. f_equal. apply map_ext. intros r. apply position_row_twice.
Qed.

Lemma ncols_padded (m : list (list Z)) (k : nat) :
  Np.ncols (map (fun r => r ++ repeat 0 k) m
            ++ repeat (repeat 0 (Np.ncols m + k)%nat) k)
  = (Np.ncols m + k)%nat.
Proof.
  destruct m as [|r m]; cbn [map app Np.ncols].
  - destruct k; cbn [repeat Np.ncols]; [reflexivity|]. now rewrite repeat_length.
  - now rewrite length_app, repeat_length.
Qed.

Lemma padded_attention_mask_twice (mask : ndarray Z) (k1 k2 : nat) :
  padded_attention_mask (padded_attention_mask mask k1) k2
  = padded_attention_mask mask (k1 + k2).
Proof.
  destruct mask as [v|m]; cbn [padded_attention_mask].
  - now rewrite <- app_assoc, <- repeat_app.
  - rewrite ncols_padded, map_app, map_map, <- app_assoc. f_equal. f_equal.
    + apply map_ext. intros r. now rewrite <- app_assoc, <- repeat_app.
    + rewrite map_repeat, <- repeat_app, <- repeat_app. f_equal. f_equal. lia.
Qed.

(** X3.  Padding composes: an item padded to [t1] and then to a larger
    [t2] is the item padded to [t2] at once, in all three fields. *)
Theorem pad_batch_twice
  (tokens : list Z) (position_ids attention_mask : ndarray Z) (t1 t2 : Z)
  (tokens1 : list Z) (position_ids1 attention_mask1 : ndarray Z) :
  Py.len tokens <= t1 -> t1 <= t2 ->
  pad_batch tokens position_ids attention_mask t1
  = Ok (tokens1, position_ids1, attention_mask1) ->
  pad_batch tokens1 position_ids1 attention_mask1 t2
  = pad_batch tokens position_ids attention_mask t2.
Proof.
  intros H1 H2 Hpad. rewrite pad_batch_ok in Hpad by exact H1.
  injection Hpad as <- <- <-.
  assert (Hlen : Py.len (tokens ++ repeat 0 (Z.to_nat (t1 - Py.len tokens))) = t1).
  { unfold Py.len in *. rewrite length_app, repeat_length. lia. }
  rewrite !pad_batch_ok by lia. rewrite Hlen.
  rewrite padded_position_ids_twice, padded_attention_mask_twice.
  rewrite <- app_assoc, <- repeat_app.
  replace (Z.to_nat (t1 - Py.len tokens) + Z.to_nat (t2 - t1))%nat
    with (Z.to_nat (t2 - Py.len tokens)) by lia.
  reflexivity.
Qed.

Lemma pad_batch_twice_witness :
  Py.len [7; 8; 9] <= 5 /\ 5 <= 8
  /\ pad_batch [7; 8; 9; 0; 0] (Arr1 [0; 1; 2; 0; 0])
       (Arr2 [[1; 0; 0; 0; 0]; [1; 1; 0; 0; 0]; [1; 1; 1; 0; 0];
              [0; 0; 0; 0; 0]; [0; 0; 0; 0; 0]]) 8
     = pad_batch [7; 8; 9] (Arr1 [0; 1; 2])
         (Arr2 [[1; 0; 0]; [1; 1; 0]; [1; 1; 1]]) 8.
Proof.
  split; [vm_compute; discriminate|]. split; [vm_compute; discriminate|].
  apply (pad_batch_twice [7; 8; 9] (Arr1 [0; 1; 2])
           (Arr2 [[1; 0; 0]; [1; 1; 0]; [1; 1; 1]]) 5 8).
  - vm_compute. discriminate.
  - vm_compute. discriminate.
  - reflexivity.
Defined.

(** X4.  The lengths after padding, for an item with sequences of position
    ids and of mask entries: tokens reach the target and the mask grows by
    the pad length, and so do non-empty position ids; empty position ids
    stay empty, since the slice of their last entry has nothing to repeat. *)
Theorem pad_batch_lengths
  (tokens v w : list Z) (target : Z) :
  Py.len tokens <= target ->
  exists tokens' v' w',
    pad_batch tokens (Arr1 v) (Arr1 w) target = Ok (tokens', Arr1 v', Arr1 w')
    /\ Py.len tokens' = target
    /\ Py.len w' = Py.len w + (target - Py.len tokens)
    /\ (v <> [] -> Py.len v' = Py.len v + (target - Py.len tokens))
    /\ (v = [] -> v' = []).
Proof.
  intros Hle. rewrite (pad_batch_ok tokens (Arr1 v) (Arr1 w) target Hle).
  cbn [padded_position_ids padded_attention_mask].
  eexists _, _, _. split; [reflexivity|].
  unfold Py.len in *. repeat split.
  - rewrite length_app, repeat_length. lia.
  - rewrite length_app, repeat_length. lia.
  - intros Hv. rewrite length_app, repeat_length, position_slots_nonempty by exact Hv.
    lia.
  - intros ->. reflexivity.
Qed.

Lemma pad_batch_lengths_witness :
  Py.len [7; 8; 9] <= 8
  /\ exists tokens' v' w',
       pad_batch [7; 8; 9] (Arr1 []) (Arr1 [1; 1; 1]) 8
       = Ok (tokens', Arr1 v', Arr1 w')
       /\ Py.len tokens' = 8 /\ v' = [].
Proof.
  split; [vm_compute; discriminate|].
  destruct (pad_batch_lengths [7; 8; 9] [] [1; 1; 1] 8)
    as (t & v & w & H1 & H2 & _ & _ & H5).
  - vm_compute. discriminate.
  - exists t, v, w. split; [exact H1|]. split; [exact H2|]. now apply H5.
Defined.

(** ** The collators: what a batch holds *)

Lemma length_to_pad_bounds (samples : list materialized) (n : Z) :
  length_to_pad samples = Ok n ->
  samples <> [] /\ Forall (fun s => Py.len (token s) <= n) samples.
Proof.
  intros Hn. assert (Hne : samples <> []).
  { intros ->. discriminate Hn. }
  split; [exact Hne|].
  destruct (length_to_pad_spec samples Hne) as (s & _ & Hmax & Hs).
  rewrite Hs in Hn. injection Hn as <-.
  destruct (round_up_tile (Py.len (token s))) as (_ & Hrange & _).
  rewrite Forall_forall in *. intros s' Hs'. specialize (Hmax s' Hs'). lia.
Qed.

(** What the padding loop of the collators returns on a batch that fits. *)
Lemma pad_samples_eq (samples : list materialized) (n : Z) :
  Forall (fun s => Py.len (token s) <= n) samples ->
  pad_samples samples n
  = Ok (map (fun s => token s ++ repeat 0 (pad_slots n s)) samples,
        map (fun s => padded_position_ids (position_id s) (pad_slots n s)) samples,
        map (fun s => padded_attention_mask (attention_mask s) (pad_slots n s))
          samples).
Proof.
  induction 1 as [|s samples Hs _ IH]; cbn [pad_samples map]; [reflexivity|].
  rewrite (pad_batch_ok _ _ _ _ Hs), IH. reflexivity.
Qed.

Lemma same_shape_iff {A : Type} (a b : ndarray A) :
  same_shape a b = true <-> Np.shape a = Np.shape b.
Proof.
  unfold same_shape. destruct a as [v|m], b as [v'|m']; cbn [Np.shape].
  - rewrite Nat.eqb_eq. split; [intros ->; reflexivity|intros H; now injection H].
  - split; [discriminate|discriminate].
  - split; [discriminate|discriminate].
  - rewrite andb_true_iff, !Nat.eqb_eq. split.
    + intros [-> ->]. reflexivity.
    + intros H. injection H as -> ->. split; reflexivity.
Qed.

Lemma stack_returns_batch {A : Type} (batch batch' : list (ndarray A)) :
  stack batch = Ok batch' -> batch' = batch.
Proof.
  unfold stack. destruct batch as [|a rest]; [congruence|].
  destruct (forallb (same_shape a) rest); [congruence|discriminate].
Qed.

(** Stacking returns exactly when all arrays have one shape. *)
Lemma stack_ok_iff {A : Type} (batch : list (ndarray A)) :
  stack batch = Ok batch
  <-> (forall a b, In a batch -> In b batch -> Np.shape a = Np.shape b).
Proof.
  unfold stack. destruct batch as [|a rest].
  - split; [intros _ a b []|reflexivity].
  - destruct (forallb (same_shape a) rest) eqn:E.
    + split; [|reflexivity]. intros _ x y Hx Hy.
      rewrite forallb_forall in E.
      assert (Hall : forall z, In z (a :: rest) -> Np.shape a = Np.shape z).
      { intros z [<-|Hz]; [reflexivity|]. apply same_shape_iff, E, Hz. }
      rewrite <- (Hall x Hx). apply Hall, Hy.
    + split; [discriminate|]. intros H. exfalso.
      assert (forallb (same_shape a) rest = true); [|congruence].
      apply forallb_forall. intros z Hz. apply same_shape_iff.
      apply H; [now left|now right].
Qed.

Lemma stack_raises {A : Type} (batch : list (ndarray A)) (a b : ndarray A) :
  In a batch -> In b batch -> Np.shape a <> Np.shape b ->
  stack batch = Raise ValueError.
Proof.
  intros Ha Hb Hne.
  destruct (stack batch) as [batch'|e] eqn:E.
  - pose proof (stack_returns_batch _ _ E). subst batch'.
    elim Hne. now apply (proj1 (stack_ok_iff batch) E).
  - unfold stack in E. destruct batch as [|x rest]; [discriminate|].
    destruct (forallb _ rest); [discriminate|]. now symmetry.
Qed.

Lemma padded_tokens_stack (samples : list materialized) (n : Z) :
  Forall (fun s => Py.len (token s) <= n) samples ->
  stack (map Arr1 (map (fun s => token s ++ repeat 0 (pad_slots n s)) samples))
  = Ok (map Arr1 (map (fun s => token s ++ repeat 0 (pad_slots n s)) samples)).
Proof.
  intros Hall. apply stack_ok_iff.
  assert (Hshape : forall a,
             In a (map Arr1 (map (fun s => token s ++ repeat 0 (pad_slots n s))
                               samples)) ->
             Np.shape a = [Z.to_nat n]).
  { intros a Ha. rewrite map_map in Ha. apply in_map_iff in Ha.
    destruct Ha as (s & <- & Hs). rewrite Forall_forall in Hall.
    specialize (Hall s Hs). cbn [Np.shape]. f_equal.
    rewrite length_app, repeat_length. unfold pad_slots, Py.len in *. lia. }
  intros a b Ha Hb. now rewrite (Hshape a Ha), (Hshape b Hb).
Qed.

Lemma stack_uniform {A : Type} (batch : list (ndarray A)) (sh : list nat) :
  (forall a, In a batch -> Np.shape a = sh) -> stack batch = Ok batch.
Proof.
  intros H. apply stack_ok_iff. intros a b Ha Hb.
  now rewrite (H a Ha), (H b Hb).
Qed.

Lemma well_shaped_padded (square : bool) (s : materialized) (n : Z) :
  well_shaped square s -> Py.len (token s) <= n ->
  Np.shape (padded_position_ids (position_id s) (pad_slots n s)) = [Z.to_nat n]
  /\ Np.shape (padded_attention_mask (attention_mask s) (pad_slots n s))
     = if square then [Z.to_nat n; Z.to_nat n] else [Z.to_nat n].
Proof.
  intros (Htok & Hpos & Hmask) Hle.
  assert (Hn : (length (token s) + pad_slots n s)%nat = Z.to_nat n).
  { unfold pad_slots, Py.len in *. lia. }
  split.
  - destruct (position_id s) as [v|m]; cbn [Np.shape] in Hpos; [|discriminate].
    injection Hpos as Hv. cbn [padded_position_ids Np.shape].
    rewrite length_app, repeat_length, position_slots_nonempty.
    + now rewrite Hv, Hn.
    + intros ->. destruct (token s); [contradiction|discriminate].
  - rewrite padded_attention_mask_shape, Hmask.
    destruct square; cbn [map]; now rewrite Hn.
Qed.

Lemma multichoice_collate_eq (self : MultiChoiceTaskDataset.t)
  (samples : list MultiChoiceTaskDataset.sample) (n : Z) :
  length_to_pad (map MultiChoiceTaskDataset.fields samples) = Ok n ->
  let items := map MultiChoiceTaskDataset.fields samples in
  let positions :=
    map (fun s => padded_position_ids (position_id s) (pad_slots n s)) items in
  let masks :=
    map (fun s => padded_attention_mask (attention_mask s) (pad_slots n s)) items in
  MultiChoiceTaskDataset.collate_fn self samples
  = (position_ids <- stack positions ;;
     attention_mask <- stack masks ;;
     Ok {| MultiChoiceTaskDataset.tokens :=
             map (fun s => token s ++ repeat 0 (pad_slots n s)) items;
           MultiChoiceTaskDataset.position_ids := position_ids;
           MultiChoiceTaskDataset.batch_attention_mask :=
             map masked_out attention_mask;
           MultiChoiceTaskDataset.batch_choices :=
             map MultiChoiceTaskDataset.sample_choices samples;
           MultiChoiceTaskDataset.batch_choice_target_ids :=
             map MultiChoiceTaskDataset.choice_target_ids samples;
           MultiChoiceTaskDataset.batch_is_single_token :=
             MultiChoiceTaskDataset.is_single_token self |}).
Proof.
  intros Hn items positions masks.
  destruct (length_to_pad_bounds _ _ Hn) as [_ Hall].
  unfold MultiChoiceTaskDataset.collate_fn. rewrite Hn. cbn [bind].
  rewrite (pad_samples_eq _ n Hall). cbn [bind].
  rewrite (padded_tokens_stack _ n Hall). cbn [bind]. reflexivity.
Qed.

Lemma int64_tensor_returns (values values' : list Z) :
  int64_tensor values = Ok values' -> values' = values.
Proof.
  unfold int64_tensor. destruct (forallb _ values); [congruence|discriminate].
Qed.

Lemma int64_tensor_ok (values : list Z) :
  Forall (fun v => - 2 ^ 63 <= v < 2 ^ 63) values ->
  int64_tensor values = Ok values.
Proof.
  intros H. unfold int64_tensor.
  replace (forallb _ values) with true; [reflexivity|].
  symmetry. apply forallb_forall. rewrite Forall_forall in H.
  intros v Hv. specialize (H v Hv).
  apply andb_true_iff. split; [apply Z.leb_le|apply Z.ltb_lt]; lia.
Qed.

Lemma int64_tensor_raises (values : list Z) :
  Exists (fun v => ~ - 2 ^ 63 <= v < 2 ^ 63) values ->
  int64_tensor values = Raise RuntimeError.
Proof.
  intros H. unfold int64_tensor.
  destruct (forallb _ values) eqn:E; [|reflexivity].
  rewrite forallb_forall in E. apply Exists_exists in H.
  destruct H as (v & Hv & Hout). specialize (E v Hv).
  apply andb_true_iff in E. destruct E as [E1 E2].
  apply Z.leb_le in E1. apply Z.ltb_lt in E2. lia.
Qed.

Lemma generation_collate_eq (samples : list GenerationTaskDataset.sample) (n : Z) :
  length_to_pad (map GenerationTaskDataset.fields samples) = Ok n ->
  let items := map GenerationTaskDataset.fields samples in
  let positions :=
    map (fun s => padded_position_ids (position_id s) (pad_slots n s)) items in
  let masks :=
    map (fun s => padded_attention_mask (attention_mask s) (pad_slots n s)) items in
  GenerationTaskDataset.collate_fn samples
  = (position_ids <- stack positions ;;
     attention_mask <- stack masks ;;
     context_length <-
       int64_tensor (map GenerationTaskDataset.context_length samples) ;;
     target_position_ids <-
       stack (map GenerationTaskDataset.target_position_id samples) ;;
     Ok {| GenerationTaskDataset.tokens :=
             map (fun s => token s ++ repeat 0 (pad_slots n s)) items;
           GenerationTaskDataset.position_ids := position_ids;
           GenerationTaskDataset.batch_attention_mask :=
             map masked_out attention_mask;
           GenerationTaskDataset.batch_context_length := context_length;
           GenerationTaskDataset.target_position_ids := target_position_ids |}).
Proof.
  intros Hn items positions masks.
  destruct (length_to_pad_bounds _ _ Hn) as [_ Hall].
  unfold GenerationTaskDataset.collate_fn. rewrite Hn. cbn [bind].
  rewrite (pad_samples_eq _ n Hall). cbn [bind].
  rewrite (padded_tokens_stack _ n Hall). cbn [bind]. reflexivity.
Qed.

Lemma length_to_pad_returns (samples : list materialized) :
  samples <> [] -> exists n, length_to_pad samples = Ok n.
Proof.
  intros Hne. destruct (length_to_pad_spec samples Hne) as (s & _ & _ & Hs).
  eexists. exact Hs.
Qed.

Lemma well_shaped_stacks (square : bool) (items : list materialized) (n : Z) :
  Forall (well_shaped square) items ->
  Forall (fun s => Py.len (token s) <= n) items ->
  stack (map (fun s => padded_position_ids (position_id s) (pad_slots n s)) items)
  = Ok (map (fun s => padded_position_ids (position_id s) (pad_slots n s)) items)
  /\ stack (map (fun s => padded_attention_mask (attention_mask s) (pad_slots n s))
             items)
     = Ok (map (fun s => padded_attention_mask (attention_mask s) (pad_slots n s))
             items).
Proof.
  intros Hws Hall. rewrite Forall_forall in Hws, Hall. split.
  - apply (stack_uniform _ [Z.to_nat n]). intros a Ha.
    apply in_map_iff in Ha. destruct Ha as (s & <- & Hs).
    apply (well_shaped_padded square s n (Hws s Hs) (Hall s Hs)).
  - apply (stack_uniform _ (if square then [Z.to_nat n; Z.to_nat n]
                            else [Z.to_nat n])).
    intros a Ha. apply in_map_iff in Ha. destruct Ha as (s & <- & Hs).
    apply (well_shaped_padded square s n (Hws s Hs) (Hall s Hs)).
Qed.

(** X5.  Both collators raise [ValueError] on an empty batch ([max] of an
    empty sequence).  On a non-empty batch of items that each have at least
    one token, one position id per token and a mask of one entry per token
    (or, for all items alike, one row and column per token) the
    multiple-choice collator returns, and so does the generation collator
    when the context lengths of the items fit into 64 bits and their target
    position ids have one common shape; with a context length that does not
    fit into 64 bits the generation collator raises [RuntimeError] on such
    a batch. *)
Theorem collate_fn_returns (square : bool) :
  GenerationTaskDataset.collate_fn [] = Raise ValueError
  /\ (forall self, MultiChoiceTaskDataset.collate_fn self [] = Raise ValueError)
  /\ (forall self samples,
        samples <> [] ->
        Forall (well_shaped square) (map MultiChoiceTaskDataset.fields samples) ->
        exists b, MultiChoiceTaskDataset.collate_fn self samples = Ok b)
  /\ (forall samples sh,
        samples <> [] ->
        Forall (well_shaped square) (map GenerationTaskDataset.fields samples) ->
        Forall (fun s => - 2 ^ 63 <= GenerationTaskDataset.context_length s < 2 ^ 63)
          samples ->
        Forall (fun s => Np.shape (GenerationTaskDataset.target_position_id s) = sh)
          samples ->
        exists b, GenerationTaskDataset.collate_fn samples = Ok b)
  /\ (forall samples,
        samples <> [] ->
        Forall (well_shaped square) (map GenerationTaskDataset.fields samples) ->
        Exists
          (fun s => ~ - 2 ^ 63 <= GenerationTaskDataset.context_length s < 2 ^ 63)
          samples ->
        GenerationTaskDataset.collate_fn samples = Raise RuntimeError).
Proof.
  split; [reflexivity|]. split; [reflexivity|]. split; [|split].
  - intros self samples Hne Hws.
    destruct (length_to_pad_returns (map MultiChoiceTaskDataset.fields samples))
      as [n Hn]. { destruct samples; [contradiction|discriminate]. }
    destruct (length_to_pad_bounds _ _ Hn) as [_ Hall].
    destruct (well_shaped_stacks square _ n Hws Hall) as [Hp Hm].
    rewrite (multichoice_collate_eq self samples n Hn). cbn zeta.
    rewrite Hp. cbn [bind]. rewrite Hm. cbn [bind]. eexists. reflexivity.
  - intros samples sh Hne Hws Hctx Htp.
    destruct (length_to_pad_returns (map GenerationTaskDataset.fields samples))
      as [n Hn]. { destruct samples; [contradiction|discriminate]. }
    destruct (length_to_pad_bounds _ _ Hn) as [_ Hall].
    destruct (well_shaped_stacks square _ n Hws Hall) as [Hp Hm].
    rewrite (generation_collate_eq samples n Hn). cbn zeta.
    rewrite Hp. cbn [bind]. rewrite Hm. cbn [bind].
    rewrite int64_tensor_ok.
    2:{ rewrite Forall_forall in *. intros v Hv. apply in_map_iff in Hv.
        destruct Hv as (s & <- & Hs). now apply Hctx. }
    cbn [bind].
    rewrite (stack_uniform _ sh). { cbn [bind]. eexists. reflexivity. }
    intros a Ha. apply in_map_iff in Ha. destruct Ha as (s & <- & Hs).
    rewrite Forall_forall in Htp. now apply Htp.
  - intros samples Hne Hws Hctx.
    destruct (length_to_pad_returns (map GenerationTaskDataset.fields samples))
      as [n Hn]. { destruct samples; [contradiction|discriminate]. }
    destruct (length_to_pad_bounds _ _ Hn) as [_ Hall].
    destruct (well_shaped_stacks square _ n Hws Hall) as [Hp Hm].
    rewrite (generation_collate_eq samples n Hn). cbn zeta.
    rewrite Hp. cbn [bind]. rewrite Hm. cbn [bind].
    rewrite int64_tensor_raises; [reflexivity|].
    apply Exists_exists in Hctx. destruct Hctx as (s & Hs & Hout).
    apply Exists_exists. exists (GenerationTaskDataset.context_length s).
    split; [now apply in_map|exact Hout].
Qed.

Lemma collate_fn_returns_witness :
  let a := {| MultiChoiceTaskDataset.fields :=
                {| token := [5; 6; 7]; position_id := Arr1 [0; 1; 2];
                   attention_mask := Arr2 [[1; 0; 0]; [1; 1; 0]; [1; 1; 1]] |};
              MultiChoiceTaskDataset.sample_choices := [[1]; [2]];
              MultiChoiceTaskDataset.choice_target_ids := [[2]] |} in
  let b := {| MultiChoiceTaskDataset.fields :=
                {| token := [5; 6]; position_id := Arr1 [0; 1];
                   attention_mask := Arr2 [[1; 0]; [1; 1]] |};
              MultiChoiceTaskDataset.sample_choices := [[3]; [4]];
              MultiChoiceTaskDataset.choice_target_ids := [[1]] |} in
  let self := {| MultiChoiceTaskDataset.data := [];
                 MultiChoiceTaskDataset.is_single_token := true |} in
  let g := fun c =>
    {| GenerationTaskDataset.fields := MultiChoiceTaskDataset.fields a;
       GenerationTaskDataset.context_length := c;
       GenerationTaskDataset.target_position_id := Arr1 [3; 4] |} in
  [a; b] <> []
  /\ Forall (well_shaped true) (map MultiChoiceTaskDataset.fields [a; b])
  /\ (exists batch, MultiChoiceTaskDataset.collate_fn self [a; b] = Ok batch)
  /\ (exists batch, GenerationTaskDataset.collate_fn [g 3; g (2 ^ 63 - 1)] = Ok batch)
  /\ GenerationTaskDataset.collate_fn [g 3; g (2 ^ 63)] = Raise RuntimeError.
Proof.
  intros a b self g.
  assert (Hne : [a; b] <> []) by discriminate.
  assert (Hws : Forall (well_shaped true)
                  (map MultiChoiceTaskDataset.fields [a; b])).
  { repeat constructor; discriminate. }
  split; [exact Hne|]. split; [exact Hws|].
  destruct (collate_fn_returns true) as (_ & _ & H & Hg & Hr).
  split; [exact (H self [a; b] Hne Hws)|]. split.
  - apply (Hg [g 3; g (2 ^ 63 - 1)] [2%nat]).
    + discriminate.
    + repeat constructor; discriminate.
    + repeat constructor; cbn; lia.
    + repeat constructor.
  - apply (Hr [g 3; g (2 ^ 63)]).
    + discriminate.
    + repeat constructor; discriminate.
    + apply Exists_cons_tl, Exists_cons_hd. cbn. lia.
Defined.

Lemma Forall2_map_same {A B : Type} (P : A -> B -> Prop) (f : A -> B) (l : list A) :
  (forall x, In x l -> P x (f x)) -> Forall2 P l (map f l).
Proof.
  induction l as [|x l IH]; intros H; cbn [map]; constructor.
  - apply H. now left.
  - apply IH. intros y Hy. apply H. now right.
Qed.

Lemma get_map_entries {A B : Type} (f : A -> B) (a : ndarray A) (ix : list nat) :
  Np.get (Np.map_entries f a) ix = option_map f (Np.get a ix).
Proof.
  destruct a as [v|m]; cbn [Np.map_entries Np.get].
  - destruct ix as [|i [|j ix]]; try reflexivity. apply nth_error_map.
  - destruct ix as [|i [|j [|k ix]]]; try reflexivity.
    rewrite nth_error_map. destruct (nth_error m i) as [r|]; cbn [option_map].
    + apply nth_error_map.
    + reflexivity.
Qed.

Lemma padded_tokens_row (s : materialized) (k : nat) :
  firstn (length (token s)) (token s ++ repeat 0 k) = token s
  /\ forall i y, (length (token s) <= i)%nat ->
                 nth_error (token s ++ repeat 0 k) i = Some y -> y = 0.
Proof.
  split.
  - rewrite firstn_app, Nat.sub_diag, firstn_all. cbn [firstn]. apply app_nil_r.
  - intros i y Hi H. apply zero_tail_fresh in H; [exact H|].
    now apply nth_error_None.
Qed.

(** C9. For a non-empty batch the padded length [n] is computed, is a
    multiple of 32, bounds the token length of every item, and is the least
    such multiple; when the longest item has a length that is a multiple of
    32, [n] is that length (lengths 32 and 20 give 32).  Padding the batch
    to [n] succeeds and gives one token row per item, in the order of the
    items, each of length [n] and starting with the tokens of its item; the
    token rows of the batch that either collator returns are such rows; and
    either collator returns on a batch of items that each have at least one
    token, one position id per token and a mask of one entry (or one row
    and column) per token, the generation collator when moreover the
    context lengths fit into 64 bits and the target position ids have one
    common shape. *)
Theorem collate_pads_to_tile_multiple (samples : list materialized) :
  samples <> [] ->
  exists n,
    length_to_pad samples = Ok n
    /\ n mod 32 = 0
    /\ Forall (fun s => Py.len (token s) <= n) samples
    /\ (forall n', n' mod 32 = 0 ->
          Forall (fun s => Py.len (token s) <= n') samples -> n <= n')
    /\ (forall s, In s samples ->
          Forall (fun s' => Py.len (token s') <= Py.len (token s)) samples ->
          Py.len (token s) mod 32 = 0 -> n = Py.len (token s))
    /\ (forall a b, samples = [a; b] ->
          Py.len (token a) = 32 -> Py.len (token b) = 20 -> n = 32)
    /\ (exists tokens positions masks,
          pad_samples samples n = Ok (tokens, positions, masks)
          /\ Forall2
               (fun s row =>
                  Py.len row = n /\ firstn (length (token s)) row = token s)
               samples tokens)
    /\ (forall gs b, map GenerationTaskDataset.fields gs = samples ->
          GenerationTaskDataset.collate_fn gs = Ok b ->
          Forall2
            (fun s row =>
               Py.len row = n /\ firstn (length (token s)) row = token s)
            samples (GenerationTaskDataset.tokens b))
    /\ (forall self ms b, map MultiChoiceTaskDataset.fields ms = samples ->
          MultiChoiceTaskDataset.collate_fn self ms = Ok b ->
          Forall2
            (fun s row =>
               Py.len row = n /\ firstn (length (token s)) row = token s)
            samples (MultiChoiceTaskDataset.tokens b))
    /\ (forall square self ms,
          map MultiChoiceTaskDataset.fields ms = samples ->
          Forall (well_shaped square) samples ->
          exists b, MultiChoiceTaskDataset.collate_fn self ms = Ok b)
    /\ (forall square gs sh,
          map GenerationTaskDataset.fields gs = samples ->
          Forall (well_shaped square) samples ->
          Forall (fun s => - 2 ^ 63 <= GenerationTaskDataset.context_length s < 2 ^ 63)
            gs ->
          Forall (fun s => Np.shape (GenerationTaskDataset.target_position_id s) = sh)
            gs ->
          exists b, GenerationTaskDataset.collate_fn gs = Ok b).
Proof.
  intros Hne.
  destruct (length_to_pad_spec samples Hne) as (s & Hin & Hmax & Hn).
  destruct (round_up_tile (Py.len (token s))) as (Hmod & Hrange & Hleast).
  set (n := (Py.len (token s) + TILE - 1) / TILE * TILE) in *.
  assert (Hbound : Forall (fun s' => Py.len (token s') <= n) samples).
  { rewrite Forall_forall in *. intros s' Hs'. specialize (Hmax s' Hs'). lia. }
  assert (Hexact : forall s', In s' samples ->
            Forall (fun s'' => Py.len (token s'') <= Py.len (token s')) samples ->
            Py.len (token s') mod 32 = 0 -> n = Py.len (token s')).
  { intros s' Hs' Hmax' Hmod'.
    rewrite Forall_forall in Hmax, Hmax'.
    pose proof (Hmax s' Hs'). pose proof (Hmax' s Hin).
    assert (n <= Py.len (token s')) by (apply Hleast; [exact Hmod'|lia]).
    lia. }
  assert (Hrows : Forall2
            (fun s' row =>
               Py.len row = n /\ firstn (length (token s')) row = token s')
            samples
            (map (fun s' => token s' ++ repeat 0 (pad_slots n s')) samples)).
  { apply Forall2_map_same. intros s' Hs'. split.
    - rewrite Forall_forall in Hbound. specialize (Hbound s' Hs').
      clearbody n. unfold pad_slots, Py.len in *.
      rewrite length_app, repeat_length. lia.
    - apply padded_tokens_row. }
  exists n. split; [exact Hn|]. split; [exact Hmod|]. split; [exact Hbound|].
  split; [|split; [exact Hexact|split; [|split; [|split; [|split; [|split]]]]]].
  - intros n' Hn' Hall. apply Hleast; [exact Hn'|].
    rewrite Forall_forall in Hall. now apply Hall.
  - intros a b -> Ha Hb. rewrite (Hexact a).
    + exact Ha.
    + now left.
    + repeat constructor; lia.
    + rewrite Ha. reflexivity.
  - do 3 eexists. split; [apply (pad_samples_eq samples n Hbound)|exact Hrows].
  - intros gs b Hgs Hb. subst samples.
    rewrite (generation_collate_eq gs n Hn) in Hb. cbn zeta in Hb.
    destruct (stack _) as [ps|e] in Hb; [|discriminate Hb]. cbn [bind] in Hb.
    destruct (stack _) as [ms|e] in Hb; [|discriminate Hb]. cbn [bind] in Hb.
    destruct (int64_tensor _) as [cs|e] in Hb; [|discriminate Hb].
    cbn [bind] in Hb.
    destruct (stack _) as [ts|e] in Hb; [|discriminate Hb]. cbn [bind] in Hb.
    injection Hb as <-. exact Hrows.
  - intros self ms b Hms Hb. subst samples.
    rewrite (multichoice_collate_eq self ms n Hn) in Hb. cbn zeta in Hb.
    destruct (stack _) as [ps|e] in Hb; [|discriminate Hb]. cbn [bind] in Hb.
    destruct (stack _) as [ats|e] in Hb; [|discriminate Hb]. cbn [bind] in Hb.
    injection Hb as <-. exact Hrows.
  - intros square self ms Hms Hws. subst samples.
    destruct (well_shaped_stacks square _ n Hws Hbound) as [Hp Hm].
    rewrite (multichoice_collate_eq self ms n Hn). cbn zeta.
    rewrite Hp. cbn [bind]. rewrite Hm. cbn [bind]. eexists. reflexivity.
  - intros square gs sh Hgs Hws Hctx Htp. subst samples.
    destruct (well_shaped_stacks square _ n Hws Hbound) as [Hp Hm].
    rewrite (generation_collate_eq gs n Hn). cbn zeta.
    rewrite Hp. cbn [bind]. rewrite Hm. cbn [bind].
    rewrite int64_tensor_ok.
    2:{ rewrite Forall_forall in *. intros v Hv. apply in_map_iff in Hv.
        destruct Hv as (s' & <- & Hs'). now apply Hctx. }
    cbn [bind].
    rewrite (stack_uniform _ sh). { cbn [bind]. eexists. reflexivity. }
    intros a Ha. apply in_map_iff in Ha. destruct Ha as (s' & <- & Hs').
    rewrite Forall_forall in Htp. now apply Htp.
Qed.

Lemma collate_pads_to_tile_multiple_witness :
  let a := {| token := repeat 5 32; position_id := Arr1 (repeat 0 32);
              attention_mask := Arr1 (repeat 1 32) |} in
  let b := {| token := repeat 6 20; position_id := Arr1 (repeat 0 20);
              attention_mask := Arr1 (repeat 1 20) |} in
  let ga := {| GenerationTaskDataset.fields := a;
               GenerationTaskDataset.context_length := 32;
               GenerationTaskDataset.target_position_id := Arr1 [32] |} in
  let gb := {| GenerationTaskDataset.fields := b;
               GenerationTaskDataset.context_length := 20;
               GenerationTaskDataset.target_position_id := Arr1 [20] |} in
  [a; b] <> []
  /\ length_to_pad [a; b] = Ok 32
  /\ exists batch,
       GenerationTaskDataset.collate_fn [ga; gb] = Ok batch
       /\ Forall2
            (fun s row =>
               Py.len row = 32 /\ firstn (length (token s)) row = token s)
            [a; b] (GenerationTaskDataset.tokens batch).
Proof.
  intros a b ga gb.
  assert (Hne : [a; b] <> []) by discriminate.
  split; [exact Hne|].
  destruct (collate_pads_to_tile_multiple [a; b] Hne)
    as (n & Hn & _ & _ & _ & _ & H & _ & Hrows & _ & _ & Hret).
  assert (n = 32) by (apply (H a b); reflexivity). subst n.
  split; [exact Hn|].
  destruct (Hret false [ga; gb] [1%nat]) as [batch Hb].
  - reflexivity.
  - repeat constructor; discriminate.
  - repeat constructor; cbn; lia.
  - repeat constructor.
  - exists batch. split; [exact Hb|]. now apply (Hrows [ga; gb]).
Defined.

(** X6.  A batch that a collator returns holds one row per item, in the
    order of the items: the token row of an item starts with its tokens and
    goes on with zeros, its position ids keep every entry they had and are
    zero elsewhere, and the fields that are not padded (choices, choice
    target ids, context lengths, target position ids) are handed on as they
    are; the multiple-choice batch carries the flag of the dataset. *)
Theorem collate_fn_rows :
  (forall self samples b,
      MultiChoiceTaskDataset.collate_fn self samples = Ok b ->
      MultiChoiceTaskDataset.batch_choices b
      = map MultiChoiceTaskDataset.sample_choices samples
      /\ MultiChoiceTaskDataset.batch_choice_target_ids b
         = map MultiChoiceTaskDataset.choice_target_ids samples
      /\ MultiChoiceTaskDataset.batch_is_single_token b
         = MultiChoiceTaskDataset.is_single_token self
      /\ Forall2
           (fun s row =>
              let tok := token (MultiChoiceTaskDataset.fields s) in
              firstn (length tok) row = tok
              /\ forall i y, (length tok <= i)%nat ->
                             nth_error row i = Some y -> y = 0)
           samples (MultiChoiceTaskDataset.tokens b)
      /\ Forall2
           (fun s p =>
              let pos := position_id (MultiChoiceTaskDataset.fields s) in
              (forall ix x, Np.get pos ix = Some x -> Np.get p ix = Some x)
              /\ (forall ix y, Np.get pos ix = None ->
                               Np.get p ix = Some y -> y = 0))
           samples (MultiChoiceTaskDataset.position_ids b))
  /\ (forall samples b,
        GenerationTaskDataset.collate_fn samples = Ok b ->
        GenerationTaskDataset.batch_context_length b
        = map GenerationTaskDataset.context_length samples
        /\ GenerationTaskDataset.target_position_ids b
           = map GenerationTaskDataset.target_position_id samples
        /\ Forall2
             (fun s row =>
                let tok := token (GenerationTaskDataset.fields s) in
                firstn (length tok) row = tok
                /\ forall i y, (length tok <= i)%nat ->
                               nth_error row i = Some y -> y = 0)
             samples (GenerationTaskDataset.tokens b)
        /\ Forall2
             (fun s p =>
                let pos := position_id (GenerationTaskDataset.fields s) in
                (forall ix x, Np.get pos ix = Some x -> Np.get p ix = Some x)
                /\ (forall ix y, Np.get pos ix = None ->
                                 Np.get p ix = Some y -> y = 0))
             samples (GenerationTaskDataset.position_ids b)).
Proof.
  split.
  - intros self samples b Hb.
    destruct (length_to_pad (map MultiChoiceTaskDataset.fields samples))
      as [n|e] eqn:Hn.
    2:{ unfold MultiChoiceTaskDataset.collate_fn in Hb. rewrite Hn in Hb.
        discriminate Hb. }
    rewrite (multichoice_collate_eq self samples n Hn) in Hb. cbn zeta in Hb.
    destruct (stack _) as [ps|e] eqn:Hps in Hb; [|discriminate Hb].
    cbn [bind] in Hb.
    destruct (stack _) as [ms|e] eqn:Hms in Hb; [|discriminate Hb].
    cbn [bind] in Hb. injection Hb as <-.
    apply stack_returns_batch in Hps. subst ps.
    cbn [MultiChoiceTaskDataset.batch_choices
         MultiChoiceTaskDataset.batch_choice_target_ids
         MultiChoiceTaskDataset.batch_is_single_token
         MultiChoiceTaskDataset.tokens MultiChoiceTaskDataset.position_ids].
    repeat (split; [reflexivity|]). rewrite !map_map. split.
    + apply Forall2_map_same. intros s _. apply padded_tokens_row.
    + apply Forall2_map_same. intros s _. cbn zeta. split.
      * intros ix x. apply padded_position_ids_keeps.
      * intros ix y. apply padded_position_ids_fresh.
  - intros samples b Hb.
    destruct (length_to_pad (map GenerationTaskDataset.fields samples))
      as [n|e] eqn:Hn.
    2:{ unfold GenerationTaskDataset.collate_fn in Hb. rewrite Hn in Hb.
        discriminate Hb. }
    rewrite (generation_collate_eq samples n Hn) in Hb. cbn zeta in Hb.
    destruct (stack _) as [ps|e] eqn:Hps in Hb; [|discriminate Hb].
    cbn [bind] in Hb.
    destruct (stack _) as [ms|e] eqn:Hms in Hb; [|discriminate Hb].
    cbn [bind] in Hb.
    destruct (int64_tensor _) as [cs|e] eqn:Hcs in Hb; [|discriminate Hb].
    cbn [bind] in Hb.
    destruct (stack _) as [ts|e] eqn:Hts in Hb; [|discriminate Hb].
    cbn [bind] in Hb. injection Hb as <-.
    apply stack_returns_batch in Hps, Hts. subst ps ts.
    apply int64_tensor_returns in Hcs. subst cs.
    cbn [GenerationTaskDataset.batch_context_length
         GenerationTaskDataset.target_position_ids
         GenerationTaskDataset.tokens GenerationTaskDataset.position_ids].
    repeat (split; [reflexivity|]). rewrite !map_map. split.
    + apply Forall2_map_same. intros s _. apply padded_tokens_row.
    + apply Forall2_map_same. intros s _. cbn zeta. split.
      * intros ix x. apply padded_position_ids_keeps.
      * intros ix y. apply padded_position_ids_fresh.
Qed.

(** X7.  The delivered attention mask is the complement of the stored one:
    in a batch that a collator returns, an entry the mask of an item holds
    as [v] is delivered as [true] (masked out) exactly when [v <= 0], so a
    stored [1] is delivered as [false] and a stored [0] as [true]; and every
    entry that padding added is delivered as [true]. *)
Theorem collate_fn_inverts_mask :
  (forall self samples b,
      MultiChoiceTaskDataset.collate_fn self samples = Ok b ->
      Forall2
        (fun s m =>
           let mask := attention_mask (MultiChoiceTaskDataset.fields s) in
           (forall ix v, Np.get mask ix = Some v ->
              exists d, Np.get m ix = Some d /\ (d = true <-> v <= 0))
           /\ (forall ix d, Np.get mask ix = None ->
                            Np.get m ix = Some d -> d = true))
        samples (MultiChoiceTaskDataset.batch_attention_mask b))
  /\ (forall samples b,
        GenerationTaskDataset.collate_fn samples = Ok b ->
        Forall2
          (fun s m =>
             let mask := attention_mask (GenerationTaskDataset.fields s) in
             (forall ix v, Np.get mask ix = Some v ->
                exists d, Np.get m ix = Some d /\ (d = true <-> v <= 0))
             /\ (forall ix d, Np.get mask ix = None ->
                              Np.get m ix = Some d -> d = true))
          samples (GenerationTaskDataset.batch_attention_mask b)).
Proof.
  assert (Hrow : forall (mask : ndarray Z) (k : nat),
             (forall ix v, Np.get mask ix = Some v ->
                exists d, Np.get (masked_out (padded_attention_mask mask k)) ix
                          = Some d /\ (d = true <-> v <= 0))
             /\ (forall ix d, Np.get mask ix = None ->
                   Np.get (masked_out (padded_attention_mask mask k)) ix = Some d ->
                   d = true)).
  { intros mask k. unfold masked_out. split.
    - intros ix v Hv. rewrite get_map_entries.
      rewrite (padded_attention_mask_keeps mask k ix v Hv). cbn [option_map].
      eexists. split; [reflexivity|]. rewrite Z.ltb_lt. lia.
    - intros ix d Hnone. rewrite get_map_entries.
      destruct (Np.get (padded_attention_mask mask k) ix) as [y|] eqn:Hy;
        cbn [option_map]; [|discriminate].
      rewrite (padded_attention_mask_fresh mask k ix y Hnone Hy).
      intros H. now injection H as <-. }
  split.
  - intros self samples b Hb.
    destruct (length_to_pad (map MultiChoiceTaskDataset.fields samples))
      as [n|e] eqn:Hn.
    2:{ unfold MultiChoiceTaskDataset.collate_fn in Hb. rewrite Hn in Hb.
        discriminate Hb. }
    rewrite (multichoice_collate_eq self samples n Hn) in Hb. cbn zeta in Hb.
    destruct (stack _) as [ps|e] eqn:Hps in Hb; [|discriminate Hb].
    cbn [bind] in Hb.
    destruct (stack _) as [ms|e] eqn:Hms in Hb; [|discriminate Hb].
    cbn [bind] in Hb. injection Hb as <-.
    apply stack_returns_batch in Hms. subst ms.
    cbn [MultiChoiceTaskDataset.batch_attention_mask]. rewrite !map_map.
    apply Forall2_map_same. intros s _. apply Hrow.
  - intros samples b Hb.
    destruct (length_to_pad (map GenerationTaskDataset.fields samples))
      as [n|e] eqn:Hn.
    2:{ unfold GenerationTaskDataset.collate_fn in Hb. rewrite Hn in Hb.
        discriminate Hb. }
    rewrite (generation_collate_eq samples n Hn) in Hb. cbn zeta in Hb.
    destruct (stack _) as [ps|e] eqn:Hps in Hb; [|discriminate Hb].
    cbn [bind] in Hb.
    destruct (stack _) as [ms|e] eqn:Hms in Hb; [|discriminate Hb].
    cbn [bind] in Hb.
    destruct (int64_tensor _) as [cs|e] eqn:Hcs in Hb; [|discriminate Hb].
    cbn [bind] in Hb.
    destruct (stack _) as [ts|e] eqn:Hts in Hb; [|discriminate Hb].
    cbn [bind] in Hb. injection Hb as <-.
    apply stack_returns_batch in Hms. subst ms.
    cbn [GenerationTaskDataset.batch_attention_mask]. rewrite !map_map.
    apply Forall2_map_same. intros s _. apply Hrow.
Qed.

(** ** The datasets of records: order, sizes, item access *)

Lemma getitem_negative {A : Type} (l : list A) (i : nat) :
  (i < length l)%nat ->
  Py.getitem l (Z.of_nat i - Py.len l) = Py.getitem l (Z.of_nat i).
Proof.
  intros Hi. unfold Py.getitem, Py.len.
  destruct (Z.of_nat i - Z.of_nat (length l) <? 0) eqn:E1; [|lia].
  destruct (Z.of_nat i <? 0) eqn:E2; [lia|].
  replace (Z.of_nat i - Z.of_nat (length l) + Z.of_nat (length l))
    with (Z.of_nat i) by lia.
  reflexivity.
Qed.

Lemma getitem_out_of_range {A : Type} (l : list A) (idx : Z) :
  Py.len l <= idx \/ idx < - Py.len l -> Py.getitem l idx = Raise IndexError.
Proof.
  intros H. unfold Py.getitem. unfold Py.len in *.
  destruct (idx <? 0) eqn:E.
  - destruct (idx + Z.of_nat (length l) <? 0) eqn:E'; [reflexivity|lia].
  - destruct (idx <? 0) eqn:E'; [discriminate|]. cbn [orb].
    destruct (Z.of_nat (length l) <=? idx) eqn:E''; [reflexivity|lia].
Qed.

Lemma nth_error_flat_map_one {A B : Type} (f : A -> list B) (l : list A)
  (i : nat) (x : A) :
  (forall y, length (f y) = 1%nat) ->
  nth_error l i = Some x ->
  nth_error (flat_map f l) i = nth_error (f x) 0.
Proof.
  intros Hone. revert i. induction l as [|a l IH]; intros i Hi.
  - destruct i; discriminate.
  - cbn [flat_map]. specialize (Hone a) as Ha.
    destruct (f a) as [|b [|c rest]] eqn:Efa; try discriminate.
    destruct i as [|i]; cbn [nth_error app] in *.
    + injection Hi as <-. now rewrite Efa.
    + now apply IH.
Qed.

Lemma flat_map_one_length {A B : Type} (f : A -> list B) (l : list A) :
  (forall y, length (f y) = 1%nat) -> length (flat_map f l) = length l.
Proof.
  intros Hone. induction l as [|a l IH]; cbn [flat_map length]; [reflexivity|].
  now rewrite length_app, Hone, IH.
Qed.

Lemma Forall2_flat_map_one {A B : Type} (P : A -> B -> Prop) (f : A -> list B)
  (l : list A) :
  (forall x, exists s, f x = [s] /\ P x s) -> Forall2 P l (flat_map f l).
Proof.
  intros H. induction l as [|a l IH]; cbn [flat_map]; [constructor|].
  destruct (H a) as (s & -> & Hs). cbn [app]. now constructor.
Qed.

Lemma generation_file_data (cfg : config) (file : list GenerationTaskDataset.item)
  (self : GenerationTaskDataset.t) :
  GenerationTaskDataset.data (GenerationTaskDataset.process_single_file cfg self file)
  = GenerationTaskDataset.data self
    ++ flat_map (GenerationTaskDataset.process_single_item cfg) file.
Proof.
  unfold GenerationTaskDataset.process_single_file. revert self.
  induction file as [|it file IH]; intros self; cbn [fold_left flat_map].
  - now rewrite app_nil_r.
  - rewrite IH. cbn [GenerationTaskDataset.data]. now rewrite app_assoc.
Qed.

(** The data of a generation dataset: the expansions of all records of all
    files, in the order of the files and of their lines. *)
Lemma generation_init_data (cfg : config)
  (path : list (list GenerationTaskDataset.item)) :
  GenerationTaskDataset.data (GenerationTaskDataset.init cfg path)
  = flat_map (GenerationTaskDataset.process_single_item cfg) (concat path).
Proof.
  unfold GenerationTaskDataset.init.
  change (flat_map (GenerationTaskDataset.process_single_item cfg) (concat path))
    with (GenerationTaskDataset.data {| GenerationTaskDataset.data := [] |}
          ++ flat_map (GenerationTaskDataset.process_single_item cfg) (concat path)).
  generalize {| GenerationTaskDataset.data := [] |}.
  induction path as [|file path IH]; intros self; cbn [fold_left concat].
  - now rewrite app_nil_r.
  - rewrite IH, generation_file_data, flat_map_app. now rewrite app_assoc.
Qed.

Lemma generation_item_sample (cfg : config) (it : GenerationTaskDataset.item) :
  exists s,
    GenerationTaskDataset.process_single_item cfg it = [s]
    /\ (exists dropped,
          GenerationTaskDataset.inputs it = dropped ++ GenerationTaskDataset.text s)
    /\ Py.len (GenerationTaskDataset.text s)
       = Z.min (Py.len (GenerationTaskDataset.inputs it))
           (Z.max 0 (max_seq_length cfg - max_gen_length cfg - 2))
    /\ match GenerationTaskDataset.item_targets it with
       | GenerationTaskDataset.Flat [] => GenerationTaskDataset.targets s = []
       | GenerationTaskDataset.Flat ids => GenerationTaskDataset.targets s = [ids]
       | GenerationTaskDataset.Nested seqs => GenerationTaskDataset.targets s = seqs
       end.
Proof.
  unfold GenerationTaskDataset.process_single_item. eexists.
  split; [reflexivity|].
  cbn [GenerationTaskDataset.text GenerationTaskDataset.targets].
  set (text := GenerationTaskDataset.inputs it).
  set (n := max_seq_length cfg - max_gen_length cfg - 2).
  pose proof (len_nonneg text) as Hlen.
  split; [|split].
  - destruct (Py.len text + max_gen_length cfg + 2 >? max_seq_length cfg) eqn:E.
    + apply Z.gtb_lt in E.
      destruct (slice_suffix_spec text n ltac:(unfold n; lia)) as [Hsplit _].
      eexists. exact Hsplit.
    + exists []. reflexivity.
  - destruct (Py.len text + max_gen_length cfg + 2 >? max_seq_length cfg) eqn:E.
    + apply Z.gtb_lt in E.
      destruct (slice_suffix_spec text n ltac:(unfold n; lia)) as [_ Hl].
      rewrite Hl. unfold n in *. lia.
    + assert (~ Py.len text + max_gen_length cfg + 2 > max_seq_length cfg).
      { intros H. apply Z.gt_lt, Z.gtb_lt in H. congruence. }
      unfold n. lia.
  - destruct (GenerationTaskDataset.item_targets it) as [[|id ids]|seqs];
      reflexivity.
Qed.

(** X8.  A generation dataset holds one sample per record, in the order of
    the files and of their lines, so its length is the number of records.
    The text of a sample is a suffix of the text of its record, as long as
    the record's text but no longer than
    [max_seq_length - max_gen_length - 2]; a flat non-empty target becomes
    the single candidate, a list of targets is kept.  When
    [max_gen_length + 2 <= max_seq_length], every sample leaves room for the
    generation: [len(text) + max_gen_length + 2 <= max_seq_length]. *)
Theorem generation_dataset_records (cfg : config)
  (path : list (list GenerationTaskDataset.item)) :
  let ds := GenerationTaskDataset.init cfg path in
  GenerationTaskDataset.len ds = Py.len (concat path)
  /\ Forall2
       (fun it s =>
          (exists dropped,
              GenerationTaskDataset.inputs it
              = dropped ++ GenerationTaskDataset.text s)
          /\ Py.len (GenerationTaskDataset.text s)
             = Z.min (Py.len (GenerationTaskDataset.inputs it))
                 (Z.max 0 (max_seq_length cfg - max_gen_length cfg - 2))
          /\ match GenerationTaskDataset.item_targets it with
             | GenerationTaskDataset.Flat [] => GenerationTaskDataset.targets s = []
             | GenerationTaskDataset.Flat ids =>
                 GenerationTaskDataset.targets s = [ids]
             | GenerationTaskDataset.Nested seqs =>
                 GenerationTaskDataset.targets s = seqs
             end)
       (concat path) (GenerationTaskDataset.data ds)
  /\ (max_gen_length cfg + 2 <= max_seq_length cfg ->
      Forall (fun s => Py.len (GenerationTaskDataset.text s)
                       + max_gen_length cfg + 2 <= max_seq_length cfg)
        (GenerationTaskDataset.data ds)).
Proof.
  cbn zeta. unfold GenerationTaskDataset.len. rewrite generation_init_data.
  assert (HF : Forall2
       (fun it s =>
          (exists dropped,
              GenerationTaskDataset.inputs it
              = dropped ++ GenerationTaskDataset.text s)
          /\ Py.len (GenerationTaskDataset.text s)
             = Z.min (Py.len (GenerationTaskDataset.inputs it))
                 (Z.max 0 (max_seq_length cfg - max_gen_length cfg - 2))
          /\ match GenerationTaskDataset.item_targets it with
             | GenerationTaskDataset.Flat [] => GenerationTaskDataset.targets s = []
             | GenerationTaskDataset.Flat ids =>
                 GenerationTaskDataset.targets s = [ids]
             | GenerationTaskDataset.Nested seqs =>
                 GenerationTaskDataset.targets s = seqs
             end)
       (concat path)
       (flat_map (GenerationTaskDataset.process_single_item cfg) (concat path))).
  { apply Forall2_flat_map_one. intros it.
    destruct (generation_item_sample cfg it) as (s & H1 & H2).
    exists s. split; [exact H1|exact H2]. }
  split; [|split; [exact HF|]].
  - unfold Py.len. f_equal. apply flat_map_one_length. intros it.
    destruct (generation_item_sample cfg it) as (s & -> & _). reflexivity.
  - intros Hroom. revert HF.
    generalize (flat_map (GenerationTaskDataset.process_single_item cfg)
                  (concat path)).
    generalize (concat path).
    induction 1 as [|it s l l' (_ & Hlen & _) _ IH]; constructor; [|exact IH].
    rewrite Hlen. lia.
Qed.

Lemma generation_dataset_records_witness :
  let cfg := {| max_seq_length := 8; max_gen_length := 3;
                generation_length := 1; use_task_mask := false;
                unidirectional := false; use_multitask_encoding := false |} in
  let long := {| GenerationTaskDataset.inputs := [1; 2; 3; 4; 5];
                 GenerationTaskDataset.item_targets :=
                   GenerationTaskDataset.Flat [9] |} in
  let short := {| GenerationTaskDataset.inputs := [6];
                  GenerationTaskDataset.item_targets :=
                    GenerationTaskDataset.Nested [[7]; [8]] |} in
  max_gen_length cfg + 2 <= max_seq_length cfg
  /\ Forall (fun s => Py.len (GenerationTaskDataset.text s)
                      + max_gen_length cfg + 2 <= max_seq_length cfg)
       (GenerationTaskDataset.data
          (GenerationTaskDataset.init cfg [[long]; [short]])).
Proof.
  intros cfg long short.
  assert (H : max_gen_length cfg + 2 <= max_seq_length cfg).
  { vm_compute. discriminate. }
  split; [exact H|].
  destruct (generation_dataset_records cfg [[long]; [short]]) as (_ & _ & H3).
  exact (H3 H).
Defined.

(** X9.  Item access on a generation dataset: index [i] below the number
    of records hands the (truncated) text of record [i], with
    [max_gen_length], [use_task_mask] and [unidirectional], to the sample
    builder; the same record is reached by the negative index
    [i - len(dataset)]; any index outside [-len, len) raises [IndexError]. *)
Theorem generation_getitem_record
  (build : list Z -> Z -> bool -> bool -> GenerationTaskDataset.sample)
  (cfg : config) (path : list (list GenerationTaskDataset.item))
  (i : nat) (it : GenerationTaskDataset.item) :
  nth_error (concat path) i = Some it ->
  let ds := GenerationTaskDataset.init cfg path in
  (exists s,
      GenerationTaskDataset.process_single_item cfg it = [s]
      /\ GenerationTaskDataset.getitem build cfg ds (Z.of_nat i)
         = Ok (build (GenerationTaskDataset.text s) (max_gen_length cfg)
                 (use_task_mask cfg) (unidirectional cfg))
      /\ GenerationTaskDataset.getitem build cfg ds
           (Z.of_nat i - GenerationTaskDataset.len ds)
         = GenerationTaskDataset.getitem build cfg ds (Z.of_nat i))
  /\ (forall idx,
        GenerationTaskDataset.len ds <= idx
        \/ idx < - GenerationTaskDataset.len ds ->
        GenerationTaskDataset.getitem build cfg ds idx = Raise IndexError).
Proof.
  intros Hit ds.
  assert (Hone : forall y,
             length (GenerationTaskDataset.process_single_item cfg y) = 1%nat).
  { intros y. destruct (generation_item_sample cfg y) as (s & -> & _).
    reflexivity. }
  split.
  - destruct (generation_item_sample cfg it) as (s & Hs & _).
    exists s. split; [exact Hs|].
    assert (Hnth : nth_error (GenerationTaskDataset.data ds) i = Some s).
    { unfold ds. rewrite generation_init_data.
      rewrite (nth_error_flat_map_one _ _ i it Hone Hit), Hs. reflexivity. }
    unfold GenerationTaskDataset.getitem, GenerationTaskDataset.len.
    rewrite getitem_negative by (apply nth_error_Some; congruence).
    rewrite (getitem_nth_error _ i s Hnth). cbn [bind]. split; reflexivity.
  - intros idx Hidx. unfold GenerationTaskDataset.getitem.
    unfold GenerationTaskDataset.len in Hidx.
    now rewrite getitem_out_of_range.
Qed.

Lemma generation_getitem_record_witness :
  let cfg := {| max_seq_length := 8; max_gen_length := 3;
                generation_length := 1; use_task_mask := true;
                unidirectional := false; use_multitask_encoding := false |} in
  let long := {| GenerationTaskDataset.inputs := [1; 2; 3; 4; 5];
                 GenerationTaskDataset.item_targets :=
                   GenerationTaskDataset.Flat [9] |} in
  let short := {| GenerationTaskDataset.inputs := [6];
                  GenerationTaskDataset.item_targets :=
                    GenerationTaskDataset.Nested [[7]; [8]] |} in
  let build := fun (text : list Z) (g : Z) (_ _ : bool) =>
    {| GenerationTaskDataset.fields :=
         {| token := text; position_id := Arr1 []; attention_mask := Arr1 [] |};
       GenerationTaskDataset.context_length := g;
       GenerationTaskDataset.target_position_id := Arr1 [] |} in
  nth_error (concat [[short]; [long]]) 1 = Some long
  /\ GenerationTaskDataset.getitem build cfg
       (GenerationTaskDataset.init cfg [[short]; [long]]) (-1)
     = Ok (build [3; 4; 5] 3 true false).
Proof.
  intros cfg long short build. split; [reflexivity|].
  destruct (generation_getitem_record build cfg [[short]; [long]] 1 long eq_refl)
    as [(s & Hs & Hget & Hneg) _].
  change (-1) with (Z.of_nat 1 - GenerationTaskDataset.len
                                   (GenerationTaskDataset.init cfg [[short]; [long]])).
  rewrite Hneg, Hget. injection Hs as <-. reflexivity.
Defined.

(** X10.  The outcomes of the multiple-choice expansion of a record.  Let
    [kept] be the suffix of the text of length
    [min(len(text), max(0, max_seq_length - tgt_seq_length - 2))].  The
    expansion returns exactly when the target length is below
    [max_seq_length] and not both [use_multitask_encoding] is set and the
    mask id occurs in [kept]; it raises the blank-filling assertion exactly
    when the target length is below [max_seq_length],
    [use_multitask_encoding] is set and the mask id occurs in [kept] (a mask
    id among the dropped tokens alone does not count); and it raises nothing
    but its two assertions. *)
Theorem multichoice_expansion_outcomes (cfg : config) (mask_id : Z)
  (self : MultiChoiceTaskDataset.t) (it : MultiChoiceTaskDataset.item) :
  let tgt :=
    MultiChoiceTaskDataset.tgt_seq_length
      (MultiChoiceTaskDataset.item_choices it) in
  let outcome := MultiChoiceTaskDataset.process_single_item cfg mask_id self it in
  exists dropped kept,
    MultiChoiceTaskDataset.inputs it = dropped ++ kept
    /\ Py.len kept
       = Z.min (Py.len (MultiChoiceTaskDataset.inputs it))
           (Z.max 0 (max_seq_length cfg - tgt - 2))
    /\ ((exists r, outcome = Ok r)
        <-> tgt < max_seq_length cfg
            /\ ~ (In mask_id kept /\ use_multitask_encoding cfg = true))
    /\ (outcome
        = Raise (AssertionError (Some MultiChoiceTaskDataset.blank_filling_message))
        <-> tgt < max_seq_length cfg
            /\ In mask_id kept /\ use_multitask_encoding cfg = true)
    /\ (forall e, outcome = Raise e ->
          e = AssertionError None
          \/ e = AssertionError
                   (Some MultiChoiceTaskDataset.blank_filling_message)).
Proof.
  intros tgt outcome. unfold outcome, MultiChoiceTaskDataset.process_single_item.
  fold tgt.
  destruct (truncated_text (MultiChoiceTaskDataset.inputs it) tgt
              (max_seq_length cfg)) as [[dropped Hsplit] Hlen].
  set (kept := if Py.len (MultiChoiceTaskDataset.inputs it) + tgt + 2
                  >? max_seq_length cfg then _ else _) in *.
  exists dropped, kept. split; [exact Hsplit|]. split; [exact Hlen|].
  destruct (tgt <? max_seq_length cfg) eqn:Et; cbn [negb].
  - apply Z.ltb_lt in Et.
    destruct (existsb (Z.eqb mask_id) kept) eqn:Em; cbn [andb].
    + apply mask_in_text in Em.
      destruct (use_multitask_encoding cfg) eqn:Eu.
      * split; [|split].
        -- split; [intros [r Hr]; discriminate Hr|].
           intros [_ H]. elim H. now split.
        -- split; [intros _; now repeat split|reflexivity].
        -- intros e He. injection He as <-. now right.
      * split; [|split].
        -- split; [|intros _; eexists; reflexivity].
           intros _. split; [exact Et|]. intros [_ H]. discriminate H.
        -- split; [discriminate|]. intros (_ & _ & H). discriminate H.
        -- discriminate.
    + assert (Hnot : ~ In mask_id kept).
      { intros H. apply mask_in_text in H. congruence. }
      split; [|split].
      * split; [|intros _; eexists; reflexivity].
        intros _. split; [exact Et|]. intros [H _]. contradiction.
      * split; [discriminate|]. intros (_ & H & _). contradiction.
      * discriminate.
  - apply Z.ltb_ge in Et. split; [|split].
    + split; [intros [r Hr]; discriminate Hr|]. intros [H _]. lia.
    + split; [discriminate|]. intros [H _]. lia.
    + intros e He. injection He as <-. now left.
Qed.

Lemma multichoice_expansion_outcomes_witness :
  let cfg := {| max_seq_length := 8; max_gen_length := 0;
                generation_length := 1; use_task_mask := false;
                unidirectional := false; use_multitask_encoding := true |} in
  let self := {| MultiChoiceTaskDataset.data := [];
                 MultiChoiceTaskDataset.is_single_token := true |} in
  let it := {| MultiChoiceTaskDataset.inputs := [50; 1; 2; 3; 4];
               MultiChoiceTaskDataset.item_choices := [[7; 8]; [9]];
               MultiChoiceTaskDataset.item_label := 0 |} in
  exists r, MultiChoiceTaskDataset.process_single_item cfg 50 self it = Ok r.
Proof.
  intros cfg self it.
  destruct (multichoice_expansion_outcomes cfg 50 self it)
    as (dropped & kept & Hsplit & Hlen & Hok & _).
  apply Hok. split; [reflexivity|].
  intros [Hin _].
  assert (Hk : kept = [2; 3; 4]).
  { change (Py.len kept = 3) in Hlen.
    change ([50; 1; 2; 3; 4] = dropped ++ kept) in Hsplit.
    assert (Hd : length dropped = 2%nat).
    { apply (f_equal (@length Z)) in Hsplit. rewrite length_app in Hsplit.
      unfold Py.len in Hlen. cbn [length] in Hsplit. lia. }
    destruct dropped as [|a [|b [|c dropped]]]; try discriminate Hd.
    now injection Hsplit as _ _ <-. }
  subst kept. cbn [In] in Hin.
  repeat (destruct Hin as [Hin|Hin]; [discriminate Hin|]). exact Hin.
Defined.

Lemma Forall2_nth_error {A B : Type} (P : A -> B -> Prop) (l : list A)
  (l' : list B) (i : nat) (x : A) :
  Forall2 P l l' -> nth_error l i = Some x ->
  exists y, nth_error l' i = Some y /\ P x y.
Proof.
  intros H. revert i. induction H as [|a b l l' Hab _ IH]; intros i Hi.
  - destruct i; discriminate.
  - destruct i as [|i]; cbn [nth_error] in *.
    + injection Hi as <-. now exists b.
    + now apply IH.
Qed.

Lemma multichoice_item_sample (cfg : config) (mask_id : Z)
  (self self' : MultiChoiceTaskDataset.t) (it : MultiChoiceTaskDataset.item)
  (samples : list MultiChoiceTaskDataset.normalized) :
  MultiChoiceTaskDataset.process_single_item cfg mask_id self it
  = Ok (samples, self') ->
  exists s, samples = [s] /\ expanded_from cfg mask_id it s.
Proof.
  unfold MultiChoiceTaskDataset.process_single_item, expanded_from.
  set (tgt := MultiChoiceTaskDataset.tgt_seq_length _).
  destruct (truncated_text (MultiChoiceTaskDataset.inputs it) tgt
              (max_seq_length cfg)) as [Hsplit Hlen].
  set (kept := if Py.len (MultiChoiceTaskDataset.inputs it) + tgt + 2
                  >? max_seq_length cfg then _ else _) in *.
  destruct (tgt <? max_seq_length cfg) eqn:Et; cbn [negb]; [|discriminate].
  apply Z.ltb_lt in Et.
  destruct (existsb (Z.eqb mask_id) kept && use_multitask_encoding cfg) eqn:Em;
    [discriminate|].
  intros H. injection H as <- _. eexists. split; [reflexivity|].
  cbn [MultiChoiceTaskDataset.choices MultiChoiceTaskDataset.label
       MultiChoiceTaskDataset.text].
  repeat (split; [first [reflexivity|assumption]|]).
  intros Hu Hin. apply mask_in_text in Hin. rewrite Hin, Hu in Em. discriminate Em.
Qed.

Lemma multichoice_file_data (cfg : config) (mask_id : Z)
  (file : list MultiChoiceTaskDataset.item) (self self' : MultiChoiceTaskDataset.t) :
  MultiChoiceTaskDataset.process_single_file cfg mask_id self file = Ok self' ->
  exists new,
    MultiChoiceTaskDataset.data self' = MultiChoiceTaskDataset.data self ++ new
    /\ Forall2 (expanded_from cfg mask_id) file new.
Proof.
  unfold MultiChoiceTaskDataset.process_single_file. revert self.
  induction file as [|it file IH]; intros self; cbn [for_each].
  - intros H. injection H as <-. exists []. split; [now rewrite app_nil_r|constructor].
  - pose proof (process_single_item_outcome cfg mask_id self it) as Ho.
    destruct (MultiChoiceTaskDataset.process_single_item cfg mask_id self it)
      as [[samples self1]|e] eqn:Hit; cbn [bind]; [|discriminate].
    destruct Ho as (_ & _ & Hdata & _).
    destruct (multichoice_item_sample _ _ _ _ _ _ Hit) as (s & -> & Hs).
    intros Hrest. destruct (IH _ Hrest) as (new & Hnew & HF).
    cbn [MultiChoiceTaskDataset.data] in Hnew. rewrite Hdata in Hnew.
    exists (s :: new). split; [|now constructor].
    rewrite Hnew, <- app_assoc. reflexivity.
Qed.

(** The data of a multiple-choice dataset that was built: one sample per
    record, in the order of the files and of their lines. *)
Lemma multichoice_init_data (cfg : config) (mask_id : Z)
  (path : list (list MultiChoiceTaskDataset.item)) (ds : MultiChoiceTaskDataset.t) :
  MultiChoiceTaskDataset.init cfg mask_id path = Ok ds ->
  Forall2 (expanded_from cfg mask_id) (concat path) (MultiChoiceTaskDataset.data ds).
Proof.
  unfold MultiChoiceTaskDataset.init.
  assert (Hgen : forall self,
             for_each (MultiChoiceTaskDataset.process_single_file cfg mask_id)
               path self = Ok ds ->
             exists new,
               MultiChoiceTaskDataset.data ds
               = MultiChoiceTaskDataset.data self ++ new
               /\ Forall2 (expanded_from cfg mask_id) (concat path) new).
  { induction path as [|file path IH]; intros self; cbn [for_each concat].
    - intros H. injection H as <-. exists [].
      split; [now rewrite app_nil_r|constructor].
    - destruct (MultiChoiceTaskDataset.process_single_file cfg mask_id self file)
        as [self1|e] eqn:Hf; cbn [bind]; [|discriminate].
      destruct (multichoice_file_data _ _ _ _ _ Hf) as (new1 & Hd1 & HF1).
      intros Hrest. destruct (IH _ Hrest) as (new & Hd & HF).
      exists (new1 ++ new). split; [|now apply Forall2_app].
      rewrite Hd, Hd1, <- app_assoc. reflexivity. }
  intros H. destruct (Hgen _ H) as (new & Hd & HF).
  cbn [MultiChoiceTaskDataset.data app] in Hd. now rewrite Hd.
Qed.

(** X11.  A multiple-choice dataset that was built holds one sample per
    record, in the order of the files and of their lines, so its length is
    the number of records.  A sample has the choices and the label of its
    record; its text is the suffix of the record's text of length
    [min(len(text), max(0, max_seq_length - tgt_seq_length - 2))]; the
    target length of the record is below [max_seq_length]; and under
    [use_multitask_encoding] no text of the dataset holds the mask id. *)
Theorem multichoice_dataset_records (cfg : config) (mask_id : Z)
  (path : list (list MultiChoiceTaskDataset.item)) (ds : MultiChoiceTaskDataset.t) :
  MultiChoiceTaskDataset.init cfg mask_id path = Ok ds ->
  MultiChoiceTaskDataset.len ds = Py.len (concat path)
  /\ Forall2
       (fun it s =>
          let tgt :=
            MultiChoiceTaskDataset.tgt_seq_length
              (MultiChoiceTaskDataset.item_choices it) in
          MultiChoiceTaskDataset.choices s = MultiChoiceTaskDataset.item_choices it
          /\ MultiChoiceTaskDataset.label s = MultiChoiceTaskDataset.item_label it
          /\ (exists dropped,
                MultiChoiceTaskDataset.inputs it
                = dropped ++ MultiChoiceTaskDataset.text s)
          /\ Py.len (MultiChoiceTaskDataset.text s)
             = Z.min (Py.len (MultiChoiceTaskDataset.inputs it))
                 (Z.max 0 (max_seq_length cfg - tgt - 2))
          /\ tgt < max_seq_length cfg
          /\ (use_multitask_encoding cfg = true ->
              ~ In mask_id (MultiChoiceTaskDataset.text s)))
       (concat path) (MultiChoiceTaskDataset.data ds).
Proof.
  intros Hinit. pose proof (multichoice_init_data _ _ _ _ Hinit) as HF.
  split; [|exact HF].
  unfold MultiChoiceTaskDataset.len, Py.len. f_equal. symmetry.
  eapply Forall2_length, HF.
Qed.

Lemma multichoice_dataset_records_witness :
  let cfg := {| max_seq_length := 8; max_gen_length := 0;
                generation_length := 1; use_task_mask := false;
                unidirectional := false; use_multitask_encoding := true |} in
  let a := {| MultiChoiceTaskDataset.inputs := [50; 1; 2; 3; 4];
              MultiChoiceTaskDataset.item_choices := [[7; 8]; [9]];
              MultiChoiceTaskDataset.item_label := 0 |} in
  let b := {| MultiChoiceTaskDataset.inputs := [5];
              MultiChoiceTaskDataset.item_choices := [[7]; [9]];
              MultiChoiceTaskDataset.item_label := 1 |} in
  exists ds,
    MultiChoiceTaskDataset.init cfg 50 [[a]; [b]] = Ok ds
    /\ MultiChoiceTaskDataset.len ds = 2.
Proof.
  intros cfg a b. eexists. split; [reflexivity|].
  exact (proj1 (multichoice_dataset_records cfg 50 [[a]; [b]] _ eq_refl)).
Defined.

Lemma multichoice_collate_flag (self : MultiChoiceTaskDataset.t)
  (samples : list MultiChoiceTaskDataset.sample) (b : MultiChoiceTaskDataset.batch) :
  MultiChoiceTaskDataset.collate_fn self samples = Ok b ->
  MultiChoiceTaskDataset.batch_is_single_token b
  = MultiChoiceTaskDataset.is_single_token self.
Proof.
  intros Hb.
  destruct (length_to_pad (map MultiChoiceTaskDataset.fields samples))
    as [n|e] eqn:Hn.
  2:{ unfold MultiChoiceTaskDataset.collate_fn in Hb. rewrite Hn in Hb.
      discriminate Hb. }
  rewrite (multichoice_collate_eq self samples n Hn) in Hb. cbn zeta in Hb.
  destruct (stack _) as [ps|e] in Hb; [|discriminate Hb]. cbn [bind] in Hb.
  destruct (stack _) as [ms|e] in Hb; [|discriminate Hb]. cbn [bind] in Hb.
  now injection Hb as <-.
Qed.

(** X12.  Items and batches of a multiple-choice dataset see the flag of
    the whole dataset: item access at index [i] hands the text and the
    choices of record [i] to the sample builder together with a flag that is
    set exactly when every record of every file, the later ones included,
    has target length 1; every batch collated by the dataset carries that
    same flag; and an index outside [-len, len) raises [IndexError]. *)
Theorem multichoice_getitem_record
  (build : list Z -> list (list Z) -> bool -> bool -> bool -> bool ->
           MultiChoiceTaskDataset.sample)
  (cfg : config) (mask_id : Z)
  (path : list (list MultiChoiceTaskDataset.item)) (ds : MultiChoiceTaskDataset.t)
  (i : nat) (it : MultiChoiceTaskDataset.item) :
  MultiChoiceTaskDataset.init cfg mask_id path = Ok ds ->
  nth_error (concat path) i = Some it ->
  (exists s,
      nth_error (MultiChoiceTaskDataset.data ds) i = Some s
      /\ (exists dropped,
            MultiChoiceTaskDataset.inputs it
            = dropped ++ MultiChoiceTaskDataset.text s)
      /\ MultiChoiceTaskDataset.getitem cfg build ds (Z.of_nat i)
         = Ok (build (MultiChoiceTaskDataset.text s)
                 (MultiChoiceTaskDataset.item_choices it)
                 (forallb unit_target (concat path))
                 (use_multitask_encoding cfg) (unidirectional cfg)
                 (use_task_mask cfg)))
  /\ (forall samples b,
        MultiChoiceTaskDataset.collate_fn ds samples = Ok b ->
        MultiChoiceTaskDataset.batch_is_single_token b
        = forallb unit_target (concat path))
  /\ (forall idx,
        MultiChoiceTaskDataset.len ds <= idx
        \/ idx < - MultiChoiceTaskDataset.len ds ->
        MultiChoiceTaskDataset.getitem cfg build ds idx = Raise IndexError).
Proof.
  intros Hinit Hit.
  pose proof (init_outcome cfg mask_id path) as Ho. rewrite Hinit in Ho.
  destruct Ho as [_ Hflag].
  pose proof (multichoice_init_data _ _ _ _ Hinit) as HF.
  split; [|split].
  - destruct (Forall2_nth_error _ _ _ _ _ HF Hit) as (s & Hs & Hrel).
    destruct Hrel as (Hch & _ & Hsuffix & _).
    exists s. split; [exact Hs|]. split; [exact Hsuffix|].
    unfold MultiChoiceTaskDataset.getitem.
    rewrite (getitem_nth_error _ i s Hs). cbn [bind].
    now rewrite Hch, Hflag.
  - intros samples b Hb. rewrite <- Hflag.
    exact (multichoice_collate_flag ds samples b Hb).
  - intros idx Hidx. unfold MultiChoiceTaskDataset.getitem.
    unfold MultiChoiceTaskDataset.len in Hidx.
    now rewrite getitem_out_of_range.
Qed.

Lemma multichoice_getitem_record_witness :
  let cfg := {| max_seq_length := 16; max_gen_length := 0;
                generation_length := 1; use_task_mask := false;
                unidirectional := false; use_multitask_encoding := false |} in
  let one := {| MultiChoiceTaskDataset.inputs := [5; 6];
                MultiChoiceTaskDataset.item_choices := [[1]; [2]];
                MultiChoiceTaskDataset.item_label := 0 |} in
  let two := {| MultiChoiceTaskDataset.inputs := [5; 6];
                MultiChoiceTaskDataset.item_choices := [[1; 3]; [2]];
                MultiChoiceTaskDataset.item_label := 1 |} in
  let build := fun (text : list Z) (choices : list (list Z))
                   (flag _ _ _ : bool) =>
    {| MultiChoiceTaskDataset.fields :=
         {| token := text; position_id := Arr1 []; attention_mask := Arr1 [] |};
       MultiChoiceTaskDataset.sample_choices := choices;
       MultiChoiceTaskDataset.choice_target_ids :=
         if flag then [[1]] else [[0]] |} in
  exists ds,
    MultiChoiceTaskDataset.init cfg 0 [[one]; [two]] = Ok ds
    /\ nth_error (concat [[one]; [two]]) 0 = Some one
    /\ MultiChoiceTaskDataset.getitem cfg build ds 0
       = Ok (build [5; 6] [[1]; [2]] false false false false).
Proof.
  intros cfg one two build. eexists. split; [reflexivity|].
  split; [reflexivity|].
  destruct (multichoice_getitem_record build cfg 0 [[one]; [two]] _ 0 one
              eq_refl eq_refl) as [(s & Hs & _ & Hget) _].
  change (Z.of_nat 0) with 0 in Hget. rewrite Hget.
  cbn in Hs. injection Hs as <-. reflexivity.
Defined.

(** ** The language-model dataset: window counts, the index, item access *)

(** X13.  The number of windows of a document of [L] tokens, computed as
    Python does with the quotient rounded to the nearest float, for a
    document that exceeds one window of [W = max_seq_length - 1] tokens by
    fewer than [2^53] tokens.  A stride [generation_length] of 0 raises
    [ZeroDivisionError]; a negative stride gives exactly 1.  For a stride
    [0 < G < 2^1024] the count is the least [k >= 1] for which [k] windows
    of [W] tokens, set [G] apart, reach the end of the document:
    [L <= (k - 1) * G + W]; so a document that fits into one window has
    one.  For every stride below [2^1024] the count is the one that
    [count_sequences] gives with the exact quotient. *)
Theorem count_sequences_cases (cfg : config) (tokens : list Z) :
  let G := generation_length cfg in
  let W := max_seq_length cfg - 1 in
  let count := count_sequences_float cfg tokens in
  Py.len tokens - W < 2 ^ 53 ->
  (G = 0 -> count = Raise ZeroDivisionError)
  /\ (G < 0 -> count = Ok 1)
  /\ (0 < G < 2 ^ 1024 ->
      exists n, count = Ok n
        /\ 1 <= n
        /\ (forall k, 1 <= k -> (n <= k <-> Py.len tokens <= (k - 1) * G + W))
        /\ (n = 1 <-> Py.len tokens <= W))
  /\ (G < 2 ^ 1024 ->
      count = LanguageModelTaskDataset.count_sequences cfg tokens).
Proof.
  intros G W count Hlen.
  unfold count, count_sequences_float, LanguageModelTaskDataset.count_sequences.
  fold G. fold W.
  set (a := Z.max (Py.len tokens - W) 0).
  assert (Ha : 0 <= a < 2 ^ 53) by (unfold a; lia).
  assert (Hzero : G = 0 -> PyFloat.ceil_true_div a G = Raise ZeroDivisionError).
  { intros ->. reflexivity. }
  assert (Hneg : G < 0 ->
            (q <- PyFloat.ceil_true_div a G ;; Ok (Z.max (q + 1) 1)) = Ok 1).
  { intros HG. destruct (float_ceil_negative_divisor a G Ha HG) as (q & -> & Hq).
    cbn [bind]. f_equal. lia. }
  split; [|split; [|split]].
  - intros HG. now rewrite (Hzero HG).
  - exact Hneg.
  - intros HG. rewrite (ceil_div_is_float_ceil a G Ha HG).
    destruct (ceil_div_spec a G (proj1 HG)) as (q & Hq & Hr).
    rewrite Hq. cbn [bind].
    eexists. split; [reflexivity|]. split; [lia|].
    assert (Hk : forall k, 1 <= k ->
              (Z.max (q + 1) 1 <= k <-> Py.len tokens <= (k - 1) * G + W)).
    { intros k Hk. unfold a in Hr. split; intros H; nia. }
    split; [exact Hk|].
    specialize (Hk 1 ltac:(lia)). rewrite Z.sub_diag, Z.mul_0_l, Z.add_0_l in Hk.
    rewrite <- Hk. lia.
  - intros HG. now apply count_sequences_float_eq.
Qed.

Lemma count_sequences_cases_witness :
  let cfg := {| max_seq_length := 5; max_gen_length := 0;
                generation_length := 2; use_task_mask := false;
                unidirectional := false; use_multitask_encoding := false |} in
  Py.len (repeat 7 9) - (max_seq_length cfg - 1) < 2 ^ 53
  /\ 0 < generation_length cfg < 2 ^ 1024
  /\ count_sequences_float cfg (repeat 7 9) = Ok 4
  /\ LanguageModelTaskDataset.count_sequences cfg (repeat 7 9) = Ok 4.
Proof.
  intros cfg.
  assert (Hlen : Py.len (repeat 7 9) - (max_seq_length cfg - 1) < 2 ^ 53)
    by reflexivity.
  assert (HG : 0 < generation_length cfg < 2 ^ 1024) by (split; reflexivity).
  split; [exact Hlen|]. split; [exact HG|].
  destruct (count_sequences_cases cfg (repeat 7 9) Hlen) as (_ & _ & H & Heq).
  destruct (H HG) as (n & Hn & _ & Hk & _).
  assert (n = 4).
  { assert (n <= 4) by (apply Hk; [lia|vm_compute; discriminate]).
    assert (~ n <= 3).
    { intros H3. apply Hk in H3; [|lia]. vm_compute in H3. now apply H3. }
    lia. }
  subst n. split; [exact Hn|].
  rewrite <- Heq; [exact Hn|apply HG].
Defined.

Lemma getitem_last {A : Type} (l : list A) (x : A) :
  Py.getitem (l ++ [x]) (-1) = Ok x.
Proof.
  replace (-1) with (Z.of_nat (length l) - Py.len (l ++ [x])).
  - rewrite getitem_negative by (rewrite length_app; cbn [length]; lia).
    apply getitem_nth_error. rewrite nth_error_app2 by lia.
    now rewrite Nat.sub_diag.
  - unfold Py.len. rewrite length_app. cbn [length]. lia.
Qed.

(** One file more: the document is appended and the index is rebuilt from
    the count of this file alone. *)
Lemma lm_file_step (cfg : config) (self : LanguageModelTaskDataset.t)
  (f : LanguageModelTaskDataset.file) (n : Z) :
  LanguageModelTaskDataset.count_sequences cfg
    (LanguageModelTaskDataset.file_tokens f) = Ok n ->
  LanguageModelTaskDataset.process_single_file cfg self f
  = Ok {| LanguageModelTaskDataset.data :=
            LanguageModelTaskDataset.data self ++ [document_of f n];
          LanguageModelTaskDataset.weights := Some [n];
          LanguageModelTaskDataset.left_weights := Some [0] |}.
Proof.
  intros Hn. unfold LanguageModelTaskDataset.process_single_file.
  rewrite Hn. cbn [bind]. fold (document_of f n).
  rewrite getitem_last. reflexivity.
Qed.





(** Locating a flat index when the running sums hold the one entry [n]. *)
Lemma locate_one_entry (cfg : config)
  (data : list LanguageModelTaskDataset.document) (n idx : Z) :
  LanguageModelTaskDataset.locate cfg
    {| LanguageModelTaskDataset.data := data;
       LanguageModelTaskDataset.weights := Some [n];
       LanguageModelTaskDataset.left_weights := Some [0] |} idx
  = if idx <? n then
      Ok {| LanguageModelTaskDataset.document_idx := 0;
            LanguageModelTaskDataset.local_idx := idx;
            LanguageModelTaskDataset.start_idx := idx * generation_length cfg;
            LanguageModelTaskDataset.end_idx :=
              idx * generation_length cfg + max_seq_length cfg - 1 |}
    else Raise IndexError.
Proof.
  unfold LanguageModelTaskDataset.locate, Py.bisect_right.
  cbn [LanguageModelTaskDataset.weights LanguageModelTaskDataset.left_weights
       LanguageModelTaskDataset.attr bind length Py.bisect_loop].
  change (0 <? 1)%nat with true. change ((0 + 1) / 2)%nat with 0%nat.
  cbn [nth]. destruct (idx <? n).
  - change (Py.getitem [0] (Z.of_nat 0)) with (@Ok Z 0). cbn [bind].
    now rewrite Z.sub_0_r.
  - reflexivity.
Qed.



Lemma for_each_first_raises {St X : Type} (body : St -> X -> result St)
  (x : X) (xs : list X) (st : St) (e : exn) :
  body st x = Raise e -> for_each body (x :: xs) st = Raise e.
Proof. intros H. cbn [for_each]. now rewrite H. Qed.

(** X16.  The failures of the language-model dataset at its edges.  With a
    stride [generation_length] of 0 the construction from any file raises
    [ZeroDivisionError].  Built from no file, the dataset has no document
    and no index: its length raises [IndexError] and every item access
    raises [AttributeError]. *)
Theorem lm_init_errors (cfg : config) :
  (generation_length cfg = 0 ->
   forall path, path <> [] ->
     LanguageModelTaskDataset.init cfg path = Raise ZeroDivisionError)
  /\ (exists ds,
        LanguageModelTaskDataset.init cfg [] = Ok ds
        /\ LanguageModelTaskDataset.data ds = []
        /\ LanguageModelTaskDataset.len ds = Raise IndexError
        /\ forall idx,
             LanguageModelTaskDataset.locate cfg ds idx = Raise AttributeError
             /\ LanguageModelTaskDataset.window cfg ds idx = Raise AttributeError).
Proof.
  split.
  - intros HG [|f path] Hne; [contradiction|].
    unfold LanguageModelTaskDataset.init. apply for_each_first_raises.
    unfold LanguageModelTaskDataset.process_single_file,
      LanguageModelTaskDataset.count_sequences, Py.ceil_div.
    rewrite HG. reflexivity.
  - eexists. split; [reflexivity|]. repeat split.
Qed.

Lemma lm_init_errors_witness :
  let cfg := {| max_seq_length := 5; max_gen_length := 0;
                generation_length := 0; use_task_mask := false;
                unidirectional := false; use_multitask_encoding := false |} in
  let f := {| LanguageModelTaskDataset.file_tokens := [1; 2; 3];
              LanguageModelTaskDataset.file_words := 3 |} in
  generation_length cfg = 0
  /\ LanguageModelTaskDataset.init cfg [f] = Raise ZeroDivisionError.
Proof.
  intros cfg f. split; [reflexivity|].
  apply (proj1 (lm_init_errors cfg)); [reflexivity|discriminate].
Defined.

Lemma slice_length {A : Type} (l : list A) (a b : Z) :
  0 <= a -> a <= b ->
  Py.len (Py.slice l (Some a) (Some b)) = Z.min b (Py.len l) - Z.min a (Py.len l).
Proof.
  intros Ha Hb. unfold Py.slice, Py.clamp_index.
  destruct (a <? 0) eqn:Ea; [lia|]. destruct (b <? 0) eqn:Eb; [lia|].
  unfold Py.len. rewrite length_firstn, length_skipn. lia.
Qed.

Lemma slice_to_end {A : Type} (l : list A) (a b : Z) :
  0 <= a -> Py.len l <= b ->
  Py.slice l (Some a) (Some b) = skipn (Z.to_nat a) l.
Proof.
  intros Ha Hb. unfold Py.slice, Py.clamp_index.
  pose proof (len_nonneg l).
  destruct (a <? 0) eqn:Ea; [lia|]. destruct (b <? 0) eqn:Eb; [lia|].
  rewrite (Z.min_r b) by lia.
  destruct (Z_le_gt_dec a (Py.len l)) as [Hle|Hgt].
  - rewrite Z.min_l by lia. apply firstn_all2.
    rewrite length_skipn. unfold Py.len in *. lia.
  - rewrite Z.min_r by lia. rewrite Z.sub_diag. cbn [Z.to_nat firstn].
    rewrite !skipn_all2; [reflexivity|unfold Py.len in *; lia..].
Qed.

(** X17.  The sizes of the windows of one document.  For a non-empty
    document and a stride between 1 and the window size
    [max_seq_length - 1], every window of the dataset built from it holds at
    least one token and at most [max_seq_length - 1]; every window but the
    last is full; the last window is the rest of the document from its
    start on; and only window 0 is marked as first segment. *)
Theorem lm_window_sizes (cfg : config) (f : LanguageModelTaskDataset.file) :
  1 <= generation_length cfg <= max_seq_length cfg - 1 ->
  LanguageModelTaskDataset.file_tokens f <> [] ->
  let tokens := LanguageModelTaskDataset.file_tokens f in
  let G := generation_length cfg in
  let W := max_seq_length cfg - 1 in
  exists ds n,
    LanguageModelTaskDataset.init cfg [f] = Ok ds
    /\ LanguageModelTaskDataset.len ds = Ok n
    /\ forall i, 0 <= i < n ->
         exists w,
           LanguageModelTaskDataset.window cfg ds i = Ok (w, i =? 0)
           /\ 1 <= Py.len w <= W
           /\ (i + 1 < n -> Py.len w = W)
           /\ (i + 1 = n -> w = skipn (Z.to_nat (i * G)) tokens).
Proof.
  intros HG Hne tokens G W.
  destruct (count_sequences_spec cfg tokens ltac:(lia))
    as (n & Hn & Hn1 & Hlast & Hinner).
  fold G in Hlast, Hinner. fold W in Hlast, Hinner.
  assert (HL : 0 < Py.len tokens).
  { unfold tokens, Py.len. revert Hne.
    destruct (LanguageModelTaskDataset.file_tokens f); intros Hne;
      [contradiction|cbn [length]; lia]. }
  eexists _, n. split; [|split].
  - unfold LanguageModelTaskDataset.init. cbn [for_each].
    rewrite (lm_file_step cfg _ f n Hn). reflexivity.
  - reflexivity.
  - intros i Hi. unfold LanguageModelTaskDataset.window.
    rewrite locate_one_entry. destruct (i <? n) eqn:E; [|lia].
    cbn [bind LanguageModelTaskDataset.document_idx LanguageModelTaskDataset.data
         app].
    change (Py.getitem [document_of f n] 0) with (@Ok _ (document_of f n)).
    cbn [bind document_of LanguageModelTaskDataset.raw_text
         LanguageModelTaskDataset.start_idx LanguageModelTaskDataset.end_idx
         LanguageModelTaskDataset.local_idx].
    fold tokens. fold G. eexists. split; [reflexivity|].
    assert (Hstart : 0 <= i * G < Py.len tokens) by (unfold W in *; nia).
    assert (Hlen : Py.len (Py.slice tokens (Some (i * G))
                             (Some (i * G + max_seq_length cfg - 1)))
                   = Z.min (i * G + max_seq_length cfg - 1) (Py.len tokens)
                     - i * G).
    { rewrite slice_length by (unfold W in *; lia). lia. }
    rewrite Hlen. unfold W in *. split; [lia|]. split.
    + intros Hfull. specialize (Hinner ltac:(lia)). nia.
    + intros Hend. apply slice_to_end; [lia|]. subst n.
      replace (i + 1 - 1) with i in Hlast by lia. lia.
Qed.

Lemma lm_window_sizes_witness :
  let cfg := {| max_seq_length := 5; max_gen_length := 0;
                generation_length := 2; use_task_mask := false;
                unidirectional := false; use_multitask_encoding := false |} in
  let f := {| LanguageModelTaskDataset.file_tokens := map Z.of_nat (seq 0 9);
              LanguageModelTaskDataset.file_words := 9 |} in
  1 <= generation_length cfg <= max_seq_length cfg - 1
  /\ LanguageModelTaskDataset.file_tokens f <> []
  /\ exists ds,
       LanguageModelTaskDataset.init cfg [f] = Ok ds
       /\ LanguageModelTaskDataset.window cfg ds 3 = Ok ([6; 7; 8], false).
Proof.
  intros cfg f.
  assert (H1 : 1 <= generation_length cfg <= max_seq_length cfg - 1).
  { split; vm_compute; discriminate. }
  assert (H2 : LanguageModelTaskDataset.file_tokens f <> []) by discriminate.
  split; [exact H1|]. split; [exact H2|].
  destruct (lm_window_sizes cfg f H1 H2) as (ds & n & Hinit & Hlen & Hw).
  exists ds. split; [exact Hinit|].
  assert (Hn : n = 4).
  { vm_compute in Hinit. injection Hinit as <-. vm_compute in Hlen.
    now injection Hlen as <-. }
  subst n. destruct (Hw 3) as (w & Hwin & _ & _ & Hrest).
  - split; [vm_compute; discriminate|reflexivity].
  - rewrite Hwin. rewrite (Hrest eq_refl). reflexivity.
Defined.

Lemma filter_all {A : Type} (p : A -> bool) (l : list A) :
  (forall y, In y l -> p y = true) -> filter p l = l.
Proof.
  induction l as [|a l IH]; intros H; cbn [filter]; [reflexivity|].
  rewrite (H a (or_introl eq_refl)), IH; [reflexivity|].
  intros y Hy. apply H. now right.
Qed.

Lemma filter_none {A : Type} (p : A -> bool) (l : list A) :
  (forall y, In y l -> p y = false) -> filter p l = [].
Proof.
  induction l as [|a l IH]; intros H; cbn [filter]; [reflexivity|].
  rewrite (H a (or_introl eq_refl)). apply IH.
  intros y Hy. apply H. now right.
Qed.

(** X18.  The binary search of [__getitem__]: on a non-decreasing list
    [bisect_right] returns a position between 0 and the length with every
    entry before it at most [x] and every entry from it on above [x]; it is
    the number of entries that are at most [x].  The loop needs no more
    turns than the list is long. *)
Theorem bisect_right_counts (a : list Z) (x : Z) :
  nondecreasing a ->
  let r := Py.bisect_right a x in
  0 <= r <= Py.len a
  /\ (forall i, (Z.of_nat i < r)%Z -> nth i a 0 <= x)
  /\ (forall i, (r <= Z.of_nat i < Py.len a)%Z -> x < nth i a 0)
  /\ r = Py.len (filter (fun y => y <=? x) a)
  /\ (forall extra,
        Z.of_nat (Py.bisect_loop (length a + extra) a x 0 (length a)) = r).
Proof.
  intros Hsorted. cbn zeta. unfold Py.bisect_right, Py.len.
  destruct (bisect_loop_spec a x Hsorted (length a) 0 (length a))
    as (Hr & Hlow & Hhigh); [lia|lia|intros i Hi; lia|intros i Hi; lia|].
  set (r := Py.bisect_loop (length a) a x 0 (length a)) in *.
  split; [lia|]. split; [intros i Hi; apply Hlow; lia|].
  split; [intros i Hi; apply Hhigh; lia|]. split.
  - f_equal. rewrite <- (firstn_skipn r a) at 1. rewrite filter_app.
    rewrite filter_all, filter_none.
    + rewrite app_nil_r, length_firstn. lia.
    + intros y Hy. apply (In_nth _ _ 0) in Hy. destruct Hy as (i & Hi & <-).
      rewrite length_skipn in Hi. rewrite nth_skipn.
      apply Z.leb_gt. apply Hhigh. lia.
    + intros y Hy. apply (In_nth _ _ 0) in Hy. destruct Hy as (i & Hi & <-).
      rewrite length_firstn in Hi. rewrite nth_firstn.
      destruct (i <? r)%nat eqn:E; [|apply Nat.ltb_ge in E; lia].
      apply Z.leb_le. apply Hlow. lia.
  - intros extra. f_equal. induction extra as [|extra IH].
    + now rewrite Nat.add_0_r.
    + rewrite Nat.add_succ_r, bisect_loop_fuel by lia. exact IH.
Qed.

Lemma bisect_right_counts_witness :
  nondecreasing [3; 5; 5; 9] /\ Py.bisect_right [3; 5; 5; 9] 5 = 3.
Proof.
  assert (H : nondecreasing [3; 5; 5; 9]).
  { intros i j Hij. cbn [length] in Hij.
    destruct i as [|[|[|[|i]]]]; destruct j as [|[|[|[|j]]]];
      cbn [nth]; lia. }
  split; [exact H|].
  destruct (bisect_right_counts [3; 5; 5; 9] 5 H) as (_ & _ & _ & Hc & _).
  rewrite Hc. reflexivity.
Defined.

(** X19.  The two index arrays as the last lines of [process_single_file]
    build them from a non-empty list of window counts: both are as long as
    the list; the running sums end with the sum of all counts; the left
    boundaries start with 0, and each further one is the running sum before
    it, so that a running sum is its left boundary plus the count of its
    document.  From an empty list the running sums are empty while the left
    boundaries are [[0]]. *)
Theorem index_of_arrays (num_sequences : list Z) :
  num_sequences <> [] ->
  let weights := fst (LanguageModelTaskDataset.index_of num_sequences) in
  let left_weights := snd (LanguageModelTaskDataset.index_of num_sequences) in
  length weights = length num_sequences
  /\ length left_weights = length num_sequences
  /\ last weights 0 = Py.sum num_sequences
  /\ nth 0 left_weights 0 = 0
  /\ (forall d, (S d < length num_sequences)%nat ->
        nth (S d) left_weights 0 = nth d weights 0)
  /\ (forall d, (d < length num_sequences)%nat ->
        nth d weights 0 = nth d left_weights 0 + nth d num_sequences 0)
  /\ LanguageModelTaskDataset.index_of [] = ([], [0]).
Proof.
  intros Hne. cbn zeta.
  assert (Hpos : (0 < length num_sequences)%nat).
  { destruct num_sequences; [contradiction|cbn [length]; lia]. }
  split; [apply weights_length|].
  split; [rewrite left_weights_length; lia|]. split; [|split; [|split; [|split]]].
  - pose proof (weights_length num_sequences) as Hl.
    pose proof (weights_nth num_sequences (length num_sequences - 1) ltac:(lia))
      as Hn.
    destruct (fst (LanguageModelTaskDataset.index_of num_sequences))
      as [|w ws] eqn:Ew using rev_ind; [cbn [length] in Hl; lia|].
    rewrite last_last. rewrite length_app in Hl. cbn [length] in Hl.
    rewrite app_nth2 in Hn by lia.
    replace (length num_sequences - 1 - length ws)%nat with 0%nat in Hn by lia.
    cbn [nth] in Hn. rewrite Hn. unfold windows_before.
    replace (S (length num_sequences - 1)) with (length num_sequences) by lia.
    now rewrite firstn_all.
  - now rewrite left_weights_nth.
  - intros d Hd. rewrite left_weights_nth, weights_nth by lia. reflexivity.
  - intros d Hd. rewrite left_weights_nth, weights_nth by lia.
    apply sum_firstn_succ, Hd.
  - reflexivity.
Qed.

Lemma index_of_arrays_witness :
  [3; 2; 4] <> []
  /\ last (fst (LanguageModelTaskDataset.index_of [3; 2; 4])) 0 = 9.
Proof.
  assert (H : [3; 2; 4] <> []) by discriminate.
  split; [exact H|].
  destruct (index_of_arrays [3; 2; 4] H) as (_ & _ & Hlast & _).
  rewrite Hlast. reflexivity.
Defined.

(** ** Construction fails at the first record that is not accepted *)

Lemma multichoice_error_any_self (cfg : config) (mask_id : Z)
  (self self' : MultiChoiceTaskDataset.t) (it : MultiChoiceTaskDataset.item)
  (e : exn) :
  MultiChoiceTaskDataset.process_single_item cfg mask_id self it = Raise e ->
  MultiChoiceTaskDataset.process_single_item cfg mask_id self' it = Raise e.
Proof.
  unfold MultiChoiceTaskDataset.process_single_item.
  destruct (negb _); [trivial|].
  destruct (existsb _ _ && _); [trivial|discriminate].
Qed.

Lemma multichoice_file_error (cfg : config) (mask_id : Z)
  (file : list MultiChoiceTaskDataset.item) (self : MultiChoiceTaskDataset.t)
  (e : exn) :
  MultiChoiceTaskDataset.process_single_file cfg mask_id self file = Raise e ->
  exists pre it post,
    file = pre ++ it :: post
    /\ forallb (accepted cfg mask_id) pre = true
    /\ forall self',
         MultiChoiceTaskDataset.process_single_item cfg mask_id self' it = Raise e.
Proof.
  unfold MultiChoiceTaskDataset.process_single_file. revert self.
  induction file as [|it file IH]; intros self; cbn [for_each]; [discriminate|].
  pose proof (process_single_item_outcome cfg mask_id self it) as Ho.
  destruct (MultiChoiceTaskDataset.process_single_item cfg mask_id self it)
    as [[samples self1]|e'] eqn:Hit; cbn [bind].
  - destruct Ho as (Hacc & _). intros Hrest.
    destruct (IH _ Hrest) as (pre & it' & post & -> & Hpre & Herr).
    exists (it :: pre), it', post. split; [reflexivity|].
    split; [cbn [forallb]; now rewrite Hacc, Hpre|exact Herr].
  - intros H. injection H as <-. exists [], it, file.
    split; [reflexivity|]. split; [reflexivity|].
    intros self'. eapply multichoice_error_any_self, Hit.
Qed.

(** X20.  The construction of a multiple-choice dataset fails fast: when it
    raises, the records before some record, in the order of the files and
    of their lines, are all accepted, and the exception is the one the
    expansion of that record raises, one of the two assertions; conversely
    a record whose expansion raises, all records before it being accepted,
    makes the construction raise that exception. *)
Theorem multichoice_init_first_error (cfg : config) (mask_id : Z)
  (path : list (list MultiChoiceTaskDataset.item)) (e : exn) :
  MultiChoiceTaskDataset.init cfg mask_id path = Raise e
  <-> exists pre it post,
        concat path = pre ++ it :: post
        /\ forallb (accepted cfg mask_id) pre = true
        /\ forall self,
             MultiChoiceTaskDataset.process_single_item cfg mask_id self it
             = Raise e.
Proof.
  unfold MultiChoiceTaskDataset.init.
  generalize {| MultiChoiceTaskDataset.data := [];
                MultiChoiceTaskDataset.is_single_token := true |}.
  induction path as [|file path IH]; intros self; cbn [for_each concat].
  - split; [discriminate|]. intros (pre & it & post & H & _).
    destruct pre; discriminate H.
  - pose proof (process_single_file_outcome cfg mask_id file self) as Hf.
    destruct (MultiChoiceTaskDataset.process_single_file cfg mask_id self file)
      as [self1|e'] eqn:Hfile; cbn [bind].
    + destruct Hf as [Hacc _]. rewrite (IH self1). split.
      * intros (pre & it & post & Hc & Hpre & Herr).
        exists (file ++ pre), it, post. split; [now rewrite Hc, app_assoc|].
        split; [now rewrite forallb_app, Hacc, Hpre|exact Herr].
      * intros (pre & it & post & Hc & Hpre & Herr).
        assert (Hit : accepted cfg mask_id it = false).
        { unfold accepted. now rewrite Herr. }
        assert (Hsplit : exists pre', pre = file ++ pre'
                                      /\ concat path = pre' ++ it :: post).
        { clear IH Hfile. revert pre Hc Hpre Hacc.
          induction file as [|x file IHf]; intros pre Hc Hpre Hacc.
          - exists pre. split; [reflexivity|exact Hc].
          - cbn [forallb] in Hacc. apply andb_true_iff in Hacc.
            destruct Hacc as [Hx Hacc]. destruct pre as [|y pre].
            + cbn [app] in Hc. injection Hc as -> _. congruence.
            + cbn [app] in Hc. injection Hc as -> Hc.
              cbn [forallb] in Hpre. apply andb_true_iff in Hpre.
              destruct Hpre as [_ Hpre].
              destruct (IHf pre Hc Hpre Hacc) as (pre' & -> & Hc').
              exists pre'. split; [reflexivity|exact Hc']. }
        destruct Hsplit as (pre' & -> & Hc').
        exists pre', it, post. split; [exact Hc'|]. split; [|exact Herr].
        rewrite forallb_app in Hpre. apply andb_true_iff in Hpre. apply Hpre.
    + split.
      * intros H. injection H as <-.
        destruct (multichoice_file_error _ _ _ _ _ Hfile)
          as (pre & it & post & -> & Hpre & Herr).
        exists pre, it, (post ++ concat path).
        split; [now rewrite <- app_assoc|]. split; [exact Hpre|exact Herr].
      * intros (pre & it & post & Hc & Hpre & Herr). f_equal.
        destruct (multichoice_file_error _ _ _ _ _ Hfile)
          as (pre1 & it1 & post1 & -> & Hpre1 & Herr1).
        assert (Hit : accepted cfg mask_id it = false).
        { unfold accepted. now rewrite Herr. }
        assert (Hit1 : accepted cfg mask_id it1 = false).
        { unfold accepted. now rewrite Herr1. }
        rewrite <- app_assoc in Hc. cbn [app] in Hc.
        assert (Hsame : it1 = it).
        { clear Hfile Hf IH. revert pre Hc Hpre.
          induction pre1 as [|x pre1 IHp]; intros pre Hc Hpre.
          - destruct pre as [|y pre].
            + now injection Hc.
            + injection Hc as -> _. cbn [forallb] in Hpre.
              rewrite Hit1 in Hpre. discriminate Hpre.
          - cbn [forallb] in Hpre1. apply andb_true_iff in Hpre1.
            destruct Hpre1 as [Hx Hpre1]. destruct pre as [|y pre].
            + injection Hc as -> _. congruence.
            + injection Hc as _ Hc. cbn [forallb] in Hpre.
              apply andb_true_iff in Hpre. destruct Hpre as [_ Hpre].
              exact (IHp Hpre1 pre Hc Hpre). }
        subst it1. specialize (Herr self). specialize (Herr1 self). congruence.
Qed.

Lemma multichoice_init_first_error_witness :
  let cfg := {| max_seq_length := 4; max_gen_length := 0;
                generation_length := 1; use_task_mask := false;
                unidirectional := false; use_multitask_encoding := true |} in
  let good := {| MultiChoiceTaskDataset.inputs := [1];
                 MultiChoiceTaskDataset.item_choices := [[7]; [8]];
                 MultiChoiceTaskDataset.item_label := 0 |} in
  let blank := {| MultiChoiceTaskDataset.inputs := [50];
                  MultiChoiceTaskDataset.item_choices := [[7]; [8]];
                  MultiChoiceTaskDataset.item_label := 0 |} in
  let long := {| MultiChoiceTaskDataset.inputs := [1];
                 MultiChoiceTaskDataset.item_choices := [[7; 8; 9]; [8]];
                 MultiChoiceTaskDataset.item_label := 0 |} in
  MultiChoiceTaskDataset.init cfg 50 [[good]; [blank; long]]
  = Raise (AssertionError (Some MultiChoiceTaskDataset.blank_filling_message)).
Proof.
  intros cfg good blank long.
  apply (proj2 (multichoice_init_first_error cfg 50 [[good]; [blank; long]] _)).
  exists [good], blank, [long]. split; [reflexivity|].
  split; [reflexivity|]. intros self. reflexivity.
Defined.

(** X22.  The constructor of the language-model dataset with the window
    counts rounded as Python rounds them is the constructor with the exact
    counts, file by file and as a whole, when the stride is below [2^1024]
    and every document exceeds one window by fewer than [2^53] tokens. *)
Theorem init_float_agrees (cfg : config)
  (path : list LanguageModelTaskDataset.file) :
  generation_length cfg < 2 ^ 1024 ->
  Forall
    (fun f => Py.len (LanguageModelTaskDataset.file_tokens f)
              - (max_seq_length cfg - 1) < 2 ^ 53) path ->
  (forall self f, In f path ->
     process_single_file_float cfg self f
     = LanguageModelTaskDataset.process_single_file cfg self f)
  /\ init_float cfg path = LanguageModelTaskDataset.init cfg path.
Proof.
  intros HG Hlen.
  assert (Hfile : forall self f, In f path ->
            process_single_file_float cfg self f
            = LanguageModelTaskDataset.process_single_file cfg self f).
  { intros self f Hf. rewrite Forall_forall in Hlen.
    unfold process_single_file_float,
      LanguageModelTaskDataset.process_single_file.
    cbn zeta. now rewrite (count_sequences_float_eq cfg _ (Hlen f Hf) HG). }
  split; [exact Hfile|].
  unfold init_float, LanguageModelTaskDataset.init.
  now apply for_each_ext.
Qed.

Lemma init_float_agrees_witness :
  let cfg := {| max_seq_length := 5; max_gen_length := 0;
                generation_length := 2; use_task_mask := false;
                unidirectional := false; use_multitask_encoding := false |} in
  let f1 := {| LanguageModelTaskDataset.file_tokens := repeat 7 8;
               LanguageModelTaskDataset.file_words := 8 |} in
  let f2 := {| LanguageModelTaskDataset.file_tokens := repeat 9 6;
               LanguageModelTaskDataset.file_words := 6 |} in
  generation_length cfg < 2 ^ 1024
  /\ Forall
       (fun f => Py.len (LanguageModelTaskDataset.file_tokens f)
                 - (max_seq_length cfg - 1) < 2 ^ 53) [f1; f2]
  /\ init_float cfg [f1; f2] = LanguageModelTaskDataset.init cfg [f1; f2].
Proof.
  intros cfg f1 f2.
  assert (HG : generation_length cfg < 2 ^ 1024) by reflexivity.
  assert (Hlen : Forall
            (fun f => Py.len (LanguageModelTaskDataset.file_tokens f)
                      - (max_seq_length cfg - 1) < 2 ^ 53) [f1; f2]).
  { repeat constructor. }
  split; [exact HG|]. split; [exact Hlen|].
  apply (init_float_agrees cfg [f1; f2] HG Hlen).
Defined.
